(** * pcbnew_do: a shallow embedding of the pcbnew automation script

    The development follows [src/pcbnew_do.py].  Python values are modelled
    as follows:
    - [int] is [Z] (unbounded);
    - [str] is [string], one [ascii] per code point (code points below 256);
    - a [float] holding a time (a modification time, a sleep duration, the
      time-out multiplier) is an exact rational [Qc] or an integer time stamp;
    - exceptions and [exit] are the [exn] type, carried by an error monad;
    - the file system, the log and the actions sent to the windowing system
      are fields of an explicit [world] threaded through every call. *)

From Stdlib Require Import QArith Qcanon Ascii String.
From stdpp Require Import gmap strings list fin_maps numbers pretty.

Local Open Scope Z_scope.

(** ** Characters and strings *)

Definition is_digit (c : ascii) : bool :=
  let n := nat_of_ascii c in (48 <=? n)%nat && (n <=? 57)%nat.

(** Code points below 256 for which Python's [str.isspace] holds; these are
    the characters the pattern [\s] matches and [\S] rejects. *)
Definition is_space (c : ascii) : bool :=
  let n := nat_of_ascii c in
  ((9 <=? n)%nat && (n <=? 13)%nat) || ((28 <=? n)%nat && (n <=? 32)%nat)
  || (n =? 133)%nat || (n =? 160)%nat.

Definition newline : ascii := "010".

Definition nl : string := String newline EmptyString.

(** [s.startswith(p)], returning the rest of [s] after [p]. *)
Fixpoint strip_prefix (p s : string) : option string :=
  match p, s with
  | EmptyString, _ => Some s
  | String a p', String b s' => if Ascii.eqb a b then strip_prefix p' s' else None
  | String _ _, EmptyString => None
  end.

Definition startswith (s p : string) : bool :=
  match strip_prefix p s with Some _ => true | None => false end.

(** The anchor [$] outside of multi-line mode: the end of the string, or the
    position just before a final line break. *)
Definition at_end (s : string) : bool :=
  match s with EmptyString => true | _ => String.eqb s nl end.

(** The pattern [.*]: as many characters as possible, none a line break. *)
Fixpoint dot_star (s : string) : string :=
  match s with
  | EmptyString => EmptyString
  | String c s' => if Ascii.eqb c newline then EmptyString else String c (dot_star s')
  end.

(** [P+] followed by the rest of a pattern [k]: one or more characters
    satisfying [P], the longest run first, giving back characters one at a
    time until [k] accepts what follows.  [taken] holds the characters taken
    so far; [k] receives the characters taken and the rest of the string. *)
Fixpoint plus_then {A} (P : ascii -> bool) (k : string -> string -> option A)
    (taken : string) (s : string) : option A :=
  match s with
  | EmptyString => None
  | String c s' =>
      if P c then
        let taken := taken +:+ String c EmptyString in
        match plus_then P k taken s' with
        | Some r => Some r
        | None => k taken s'
        end
      else None
  end.

(** Every character of [s] satisfies [P]. *)
Fixpoint all_chars (P : ascii -> bool) (s : string) : bool :=
  match s with
  | EmptyString => true
  | String c s' => P c && all_chars P s'
  end.

Definition digit_value (c : ascii) : Z := Z.of_nat (nat_of_ascii c) - 48.

(** [int(s)] for a string of decimal digits. *)
Fixpoint int_of_digits_from (acc : Z) (s : string) : Z :=
  match s with
  | EmptyString => acc
  | String c s' => int_of_digits_from (10 * acc + digit_value c) s'
  end.

Definition int_of_digits (s : string) : Z := int_of_digits_from 0 s.

(** ** The patterns of the script *)

(** [^\*\* Found ([0-9]+) DRC (errors|violations) \*\*$], group 1. *)
Definition re_found_errors (line : string) : option string :=
  rest ← strip_prefix "** Found " line;
  plus_then is_digit (fun g1 rest =>
    rest ← strip_prefix " DRC " rest;
    let tail r := r ← strip_prefix " **" r; if at_end r then Some g1 else None in
    match strip_prefix "errors" rest ≫= tail with
    | Some r => Some r
    | None => strip_prefix "violations" rest ≫= tail
    end) EmptyString rest.

(** [^\*\* Found ([0-9]+) unconnected pads \*\*$], group 1. *)
Definition re_found_unconnected (line : string) : option string :=
  rest ← strip_prefix "** Found " line;
  plus_then is_digit (fun g1 rest =>
    rest ← strip_prefix " unconnected pads **" rest;
    if at_end rest then Some g1 else None) EmptyString rest.

(** [^\*\* End of Report \*\*$]. *)
Definition re_end_of_report (line : string) : bool :=
  match strip_prefix "** End of Report **" line with
  | Some rest => at_end rest
  | None => false
  end.

(** [^\[(\S+)\]: G] where the group [G] is [.*]; groups 1 and 2 (KiCad 6
    reports). *)
Definition re_err_6_0 (line : string) : option (string * string) :=
  rest ← strip_prefix "[" line;
  plus_then (fun c => negb (is_space c)) (fun g1 rest =>
    rest ← strip_prefix "]: " rest;
    Some (g1, dot_star rest)) EmptyString rest.

(** [^ErrType\((\d+)\): G] where the group [G] is [.*]; groups 1 and 2
    (KiCad 5 reports). *)
Definition re_err_5_1 (line : string) : option (string * string) :=
  rest ← strip_prefix "ErrType(" line;
  plus_then is_digit (fun g1 rest =>
    rest ← strip_prefix "): " rest;
    Some (g1, dot_star rest)) EmptyString rest.

(** [^Inner\.([0-9]+)$], group 1. *)
Definition re_inner (layer : string) : option string :=
  rest ← strip_prefix "Inner." layer;
  plus_then is_digit (fun g1 rest => if at_end rest then Some g1 else None) EmptyString rest.

(** ** Exceptions, the world and the monad of the script *)

Inductive exn : Type :=
  | RuntimeError                 (* a wait primitive timed out *)
  | ValueError (msg : string)    (* a window of the exclusion list showed up *)
  | CalledProcessError           (* the supervised process is gone *)
  | TypeError                    (* [int(None)] *)
  | AttributeError               (* a method called on [None] *)
  | IndexError                   (* a list indexed out of range *)
  | OSError (path : string)      (* a file operation on a missing file *)
  | SystemExit (code : Z).       (* [exit(code)] and [sys.exit(code)] *)

Inductive result (A : Type) : Type :=
  | Ok (a : A)
  | Raise (e : exn).

Arguments Ok {A} a.
Arguments Raise {A} e.

Inductive level : Type := DEBUG | INFO | WARNING | ERROR.

(** What a call of [wait_for_window] can come back with. *)
Inductive wait_result : Type :=
  | Found (ids : list string)
  | TimedOut
  | Unexpected (title : string)
  | ProcessGone.

(** The answers of the outside world.  The [n]-th question the script asks
    (a window wait, a focus wait, a [poll], a CPU sample, a wait for a file,
    the identifier of a new process, a search in the process table) is
    answered by the matching field of the [n]-th answer. *)
Record answer : Type := {
  a_wait : wait_result;
  a_focus_lost : bool;
  a_poll : option Z;
  a_cpu : Qc;
  a_file_created : bool;
  a_pid : Z;
  a_proc_found : bool
}.

(** A regular file: its bytes and its modification time.  The file system
    maps a path to the regular file found there, if any; directories and
    links are not modelled. *)
Record file : Type := { f_data : string; f_mtime : Z }.

(** The actions of the script that leave a mark outside of it, in the
    order they happen.  Log records keep their level and their text; a
    formatted text keeps its template. *)
Inductive event : Type :=
  | Log (lvl : level) (msg : string)
  | Print (msg : string)
  | Xdotool (args : list string)
  | TextReplace (text : string)
  | WaitPoint
  | Sleep (secs : Qc)
  | WaitForWindow (label title : string) (timeout : option Z)
  | WaitNotFocused (id : string) (timeout : option Z)
  | WaitForFile (pid : Z) (path : string)
  | TimeOut                      (* a wait gave up; [RuntimeError] follows *)
  | CpuPercent
  | XvfbStart (retry : nat)
  | XvfbStop
  | Popen (cmd : list string)
  | PopenExit
  | ZoneFill
  | WriteDRCReport (path : string)
  | BoardSave (path : string)
  | WritePcbnewConfig (used_layers : gset Z)
  | AtexitRegister (handler : string)
  | AtexitUnregister (handler : string)
  | RestoreConfig
  | RestoreProject.

Record world : Type := {
  w_fs : gmap string file;
  w_trace : list event;
  w_tick : nat
}.

Definition M (A : Type) : Type := world -> result A * world.

#[global] Instance M_ret : MRet M := fun A a w => (Ok a, w).

#[global] Instance M_bind : MBind M := fun A B k c w =>
  match c w with
  | (Ok a, w') => k a w'
  | (Raise e, w') => (Raise e, w')
  end.

Definition raise {A} (e : exn) : M A := fun w => (Raise e, w).

(** [try: body except ...: handler]: [handler e] is [None] for an exception
    no clause catches. *)
Definition try_except {A} (body : M A) (handler : exn -> option (M A)) : M A :=
  fun w =>
    match body w with
    | (Ok a, w') => (Ok a, w')
    | (Raise e, w') =>
        match handler e with
        | Some h => h w'
        | None => (Raise e, w')
        end
    end.

(** [with ctx: body]: [leave] runs on every way out of [body]. *)
Definition with_context {A} (enter : M unit) (leave : M unit) (body : M A) : M A :=
  fun w =>
    match enter w with
    | (Raise e, w1) => (Raise e, w1)
    | (Ok _, w1) =>
        match body w1 with
        | (r, w2) =>
            match leave w2 with
            | (Ok _, w3) => (r, w3)
            | (Raise e, w3) => (Raise e, w3)
            end
        end
    end.

Definition emit (ev : event) : M unit := fun w =>
  (Ok tt, {| w_fs := w_fs w; w_trace := w_trace w ++ [ev]; w_tick := w_tick w |}).

Definition log (lvl : level) (msg : string) : M unit := emit (Log lvl msg).

Definition get_fs : M (gmap string file) := fun w => (Ok (w_fs w), w).

Definition put_fs (fs : gmap string file) : M unit := fun w =>
  (Ok tt, {| w_fs := fs; w_trace := w_trace w; w_tick := w_tick w |}).

(** ** The file operations the script uses *)

Definition getsize (path : string) : M Z :=
  fs ← get_fs;
  match fs !! path with
  | Some f => mret (Z.of_nat (String.length (f_data f)))
  | None => raise (OSError path)
  end.

Definition getmtime (path : string) : M Z :=
  fs ← get_fs;
  match fs !! path with
  | Some f => mret (f_mtime f)
  | None => raise (OSError path)
  end.

Definition isfile (path : string) : M bool :=
  fs ← get_fs; mret (bool_decide (is_Some (fs !! path))).

Definition remove (path : string) : M unit :=
  fs ← get_fs;
  match fs !! path with
  | Some _ => put_fs (delete path fs)
  | None => raise (OSError path)
  end.

Definition rename (src dst : string) : M unit :=
  fs ← get_fs;
  match fs !! src with
  | Some f => put_fs (<[dst := f]> (delete src fs))
  | None => raise (OSError src)
  end.

(** [shutil.copy2]: the data and the modification time are copied. *)
Definition copy2 (src dst : string) : M unit :=
  fs ← get_fs;
  match fs !! src with
  | Some f => put_fs (<[dst := f]> fs)
  | None => raise (OSError src)
  end.

(** ** The session *)

(** What the script asks of the loaded board ([pcbnew.BOARD]). *)
Record Board : Type := {
  GetCopperLayerCount : Z;
  GetLayerID : string -> Z
}.

(** The fields of [cfg] the script reads or writes. *)
Record Config : Type := {
  input_file : string;
  output_file : string;
  pcbnew : string;
  kicad_version : Z;
  board : Board;
  layers : list string;
  fill_zones : bool;
  save : bool;
  time_out_scale : Qc;
  rec_width : Z;
  rec_height : Z;
  print_dlg_name : string;
  select_a_filename : string;
  pcbnew_pid : Z;
  pcb_size : Z;
  pcb_date : Z;
  errs : list string;
  wrns : list string
}.

Definition set_errs (cfg : Config) (l : list string) : Config :=
  {| input_file := input_file cfg; output_file := output_file cfg;
     pcbnew := pcbnew cfg; kicad_version := kicad_version cfg;
     board := board cfg; layers := layers cfg; fill_zones := fill_zones cfg;
     save := save cfg; time_out_scale := time_out_scale cfg;
     rec_width := rec_width cfg; rec_height := rec_height cfg;
     print_dlg_name := print_dlg_name cfg;
     select_a_filename := select_a_filename cfg;
     pcbnew_pid := pcbnew_pid cfg; pcb_size := pcb_size cfg;
     pcb_date := pcb_date cfg; errs := l; wrns := wrns cfg |}.

Definition set_wrns (cfg : Config) (l : list string) : Config :=
  {| input_file := input_file cfg; output_file := output_file cfg;
     pcbnew := pcbnew cfg; kicad_version := kicad_version cfg;
     board := board cfg; layers := layers cfg; fill_zones := fill_zones cfg;
     save := save cfg; time_out_scale := time_out_scale cfg;
     rec_width := rec_width cfg; rec_height := rec_height cfg;
     print_dlg_name := print_dlg_name cfg;
     select_a_filename := select_a_filename cfg;
     pcbnew_pid := pcbnew_pid cfg; pcb_size := pcb_size cfg;
     pcb_date := pcb_date cfg; errs := errs cfg; wrns := l |}.

Definition set_pcb_memo (cfg : Config) (size date : Z) : Config :=
  {| input_file := input_file cfg; output_file := output_file cfg;
     pcbnew := pcbnew cfg; kicad_version := kicad_version cfg;
     board := board cfg; layers := layers cfg; fill_zones := fill_zones cfg;
     save := save cfg; time_out_scale := time_out_scale cfg;
     rec_width := rec_width cfg; rec_height := rec_height cfg;
     print_dlg_name := print_dlg_name cfg;
     select_a_filename := select_a_filename cfg;
     pcbnew_pid := pcbnew_pid cfg; pcb_size := size;
     pcb_date := date; errs := errs cfg; wrns := wrns cfg |}.

Definition set_layers (cfg : Config) (l : list string) : Config :=
  {| input_file := input_file cfg; output_file := output_file cfg;
     pcbnew := pcbnew cfg; kicad_version := kicad_version cfg;
     board := board cfg; layers := l; fill_zones := fill_zones cfg;
     save := save cfg; time_out_scale := time_out_scale cfg;
     rec_width := rec_width cfg; rec_height := rec_height cfg;
     print_dlg_name := print_dlg_name cfg;
     select_a_filename := select_a_filename cfg;
     pcbnew_pid := pcbnew_pid cfg; pcb_size := pcb_size cfg;
     pcb_date := pcb_date cfg; errs := errs cfg; wrns := wrns cfg |}.

Definition set_time_out_scale (cfg : Config) (scale : Qc) : Config :=
  {| input_file := input_file cfg; output_file := output_file cfg;
     pcbnew := pcbnew cfg; kicad_version := kicad_version cfg;
     board := board cfg; layers := layers cfg; fill_zones := fill_zones cfg;
     save := save cfg; time_out_scale := scale;
     rec_width := rec_width cfg; rec_height := rec_height cfg;
     print_dlg_name := print_dlg_name cfg;
     select_a_filename := select_a_filename cfg;
     pcbnew_pid := pcbnew_pid cfg; pcb_size := pcb_size cfg;
     pcb_date := pcb_date cfg; errs := errs cfg; wrns := wrns cfg |}.

Definition set_pcbnew_pid (cfg : Config) (pid : Z) : Config :=
  {| input_file := input_file cfg; output_file := output_file cfg;
     pcbnew := pcbnew cfg; kicad_version := kicad_version cfg;
     board := board cfg; layers := layers cfg; fill_zones := fill_zones cfg;
     save := save cfg; time_out_scale := time_out_scale cfg;
     rec_width := rec_width cfg; rec_height := rec_height cfg;
     print_dlg_name := print_dlg_name cfg;
     select_a_filename := select_a_filename cfg;
     pcbnew_pid := pid; pcb_size := pcb_size cfg;
     pcb_date := pcb_date cfg; errs := errs cfg; wrns := wrns cfg |}.

Inductive Command : Type := cmd_export | cmd_render_3d | cmd_run_drc.

#[global] Instance Command_eq_dec : EqDecision Command.
Proof. solve_decision. Defined.

(** The fields of the parsed command line ([args]) read after parsing. *)
Record Args : Type := {
  command : Command;
  wait_start : Z;
  ignore_unconnected : bool
}.

(** Truth value of a [str]: the empty string is false. *)
Definition nonempty (s : string) : bool :=
  match s with EmptyString => false | String _ _ => true end.

(** ** Filter rules *)

Inductive rule_kind : Type := for_errors | for_unconnected.

#[global] Instance rule_kind_eq_dec : EqDecision rule_kind.
Proof. solve_decision. Defined.

(** Modelled from the spec: a [FilterRule] (section 3), a pattern over the
    code and message of a record with a kind tag; the compiled pattern is
    given by the records it matches. *)
Record FilterRule : Type := {
  kind : rule_kind;
  matches : string -> bool
}.

Definition elided (k : rule_kind) (rules : list FilterRule) (record : string) : bool :=
  existsb (fun r => bool_decide (kind r = k) && matches r record) rules.

(** Modelled from the spec: [apply_filters] of [kiauto.file_util] (section
    4.6): every rule whose pattern matches a record elides that record and
    takes one off the matching total; the result is the number of records
    elided in each list. *)
Definition apply_filters_model (rules : list FilterRule) (cfg : Config)
    (err_name wrn_name : string) : Z * Z * list string * list string :=
  let skip_err := Z.of_nat (length (filter (fun r => elided for_errors rules r = true) (errs cfg))) in
  let skip_unc := Z.of_nat (length (filter (fun r => elided for_unconnected rules r = true) (wrns cfg))) in
  let kept_errs := filter (fun r => elided for_errors rules r = false) (errs cfg) in
  let kept_wrns := filter (fun r => elided for_unconnected rules r = false) (wrns cfg) in
  (skip_err, skip_unc, kept_errs, kept_wrns).

(** * electronics-ci.py: the driver that runs the CI of every project

    The driver of [src/electronics-ci.py] looks for the configuration files
    of the projects below the current directory and runs one container for
    each project.  A [pathlib.Path] is modelled by its text ([str(path)]),
    which [pathlib] keeps in normal form: components joined by single
    slashes, no component empty or equal to a single dot.  The file system,
    the container and the terminal are the outside world: what the driver
    does to it is recorded as a list of actions, and what it asks of it is
    answered by an oracle, one [answer] for each call of [run_CI]; an answer
    is a value or the name of the exception the library raises. *)
Module electronics_ci.

Inductive action : Type :=
  | Print (text : string)          (* [print(text)] *)
  | Rmtree (path : string)         (* [shutil.rmtree(path)] *)
  | Mkdir (path : string)          (* [Path.mkdir(path, parents=True)] *)
  | Run (argv : list string).      (* [subprocess.run(argv, ...)] *)

Inductive error : Type :=
  | Exception (name : string)      (* an exception raised by a library call *)
  | SystemExit (code : Z).         (* [exit(code)] *)

Inductive outcome (A : Type) : Type :=
  | Ok (a : A)
  | Raise (e : error).

Arguments Ok {A} a.
Arguments Raise {A} e.

(** What a library call gives: a value, or the name of an exception. *)
Inductive reply (A : Type) : Type :=
  | Done (a : A)
  | Failed (exception : string).

Arguments Done {A} a.
Arguments Failed {A} exception.

(** The [CompletedProcess] of [subprocess.run]; an output is [None] when its
    bytes are not UTF-8, so that [decode('utf-8')] fails. *)
Record CompletedProcess : Type := {
  returncode : Z;
  stdout : option string;
  stderr : option string
}.

(** The answers of the outside world during one call of [run_CI]. *)
Record answer : Type := {
  a_exists : reply bool;           (* [out_dir.exists()] *)
  a_is_dir : reply bool;           (* [out_dir.is_dir()] *)
  a_rmtree : reply unit;           (* [shutil.rmtree(out_dir)] *)
  a_mkdir : reply unit;            (* [Path.mkdir(out_dir, parents=True)] *)
  a_resolve : string -> reply string;   (* [str(path.resolve())] *)
  a_uid : N;                       (* [os.getuid()] *)
  a_gid : N;                       (* [os.getgid()] *)
  a_run : reply CompletedProcess   (* [subprocess.run(...)] *)
}.

(** The state of a run: the number of calls of [run_CI] so far and the
    actions so far, the oldest first. *)
Record state : Type := {
  s_calls : nat;
  s_log : list action
}.

Definition M (A : Type) : Type := state -> outcome A * state.

#[local] Instance M_ret : MRet M := fun A a s => (Ok a, s).

#[local] Instance M_bind : MBind M := fun A B k c s =>
  match c s with
  | (Ok a, s') => k a s'
  | (Raise e, s') => (Raise e, s')
  end.

Definition raise {A} (e : error) : M A := fun s => (Raise e, s).

Definition act (a : action) : M unit := fun s =>
  (Ok tt, {| s_calls := s_calls s; s_log := s_log s ++ [a] |}).

Definition print (text : string) : M unit := act (Print text).

Definition lift {A} (r : reply A) : M A :=
  match r with
  | Done a => mret a
  | Failed name => raise (Exception name)
  end.

(** ** Paths *)

Definition slash : ascii := "/".

Definition tab : string := String "009" EmptyString.

(** [s.split('/')], with [cur] the characters of the current piece. *)
Fixpoint split_from (cur : string) (s : string) : list string :=
  match s with
  | EmptyString => [cur]
  | String c s' =>
      if Ascii.eqb c slash then cur :: split_from EmptyString s'
      else split_from (cur +:+ String c EmptyString) s'
  end.

Definition split_slash (s : string) : list string := split_from EmptyString s.

(** The components [pathlib] keeps of a text: neither empty nor a single
    dot. *)
Definition components (s : string) : list string :=
  List.filter (fun p => negb (String.eqb p EmptyString || String.eqb p "."))
    (split_slash s).

(** ['/'.join(parts)] *)
Fixpoint join_slash (parts : list string) : string :=
  match parts with
  | [] => EmptyString
  | [p] => p
  | p :: rest => p +:+ "/" +:+ join_slash rest
  end.

(** The root of an absolute text: two leading slashes are kept, one or
    three and more are one. *)
Definition root (s : string) : string :=
  match s with
  | String a (String b rest) =>
      if Ascii.eqb a slash && Ascii.eqb b slash then
        match rest with
        | String c _ => if Ascii.eqb c slash then "/" else "//"
        | EmptyString => "//"
        end
      else "/"
  | _ => "/"
  end.

(** [str(Path(base) / s)], for a relative [base]. *)
Definition path_join (base s : string) : string :=
  match s with
  | String c _ =>
      if Ascii.eqb c slash then root s +:+ join_slash (components s)
      else
        match (components base ++ components s)%list with
        | [] => "."
        | parts => join_slash parts
        end
  | EmptyString =>
      match components base with
      | [] => "."
      | parts => join_slash parts
      end
  end.

(** [path.name], the last component of the text of a path. *)
Definition path_name (path : string) : string :=
  List.last (split_slash path) EmptyString.

(** [str(path.parent)] for the text of a relative path. *)
Definition path_parent (path : string) : string :=
  match removelast (split_slash path) with
  | [] => "."
  | parts => join_slash parts
  end.

(** ** The projects *)

Definition cfg_suffix : string := ".kibot.yaml".

Definition ci_folder : string := "ci".

(** The dictionary of a project; a path is kept as its text. *)
Record project : Type := {
  p_name : string;
  p_path : string;
  p_cfg : string
}.

(** [d[k] = v] on a dictionary kept in the order of its keys: a key that is
    there keeps its place and takes the new value. *)
Fixpoint dict_set {V : Type} (k : string) (v : V) (d : list (string * V))
    : list (string * V) :=
  match d with
  | [] => [(k, v)]
  | (k', v') :: rest =>
      if String.eqb k' k then (k', v) :: rest else (k', v') :: dict_set k v rest
  end.

(** [name[:-len(cfg_suffix)]] *)
Definition project_name (name : string) : string :=
  String.substring 0 (String.length name - String.length cfg_suffix) name.

Definition project_of (cfg : string) : project :=
  {| p_name := project_name (path_name cfg);
     p_path := path_parent cfg;
     p_cfg := cfg |}.

Section Driver.

(** [list(Path(".").rglob("*" + cfg_suffix))], as texts. *)
Variable rglob : list string.

Variable answers : nat -> answer.

(** [for cfg in configs] of [find_projects]. *)
Fixpoint find_loop (configs : list string) (projects : list (string * project))
    : M (list (string * project)) :=
  match configs with
  | [] => mret projects
  | cfg :: rest =>
      let project := project_name (path_name cfg) in
      let projects := dict_set project (project_of cfg) projects in
      print (tab +:+ "Found '" +:+ project +:+ "'");;
      find_loop rest projects
  end.

Definition find_projects (path : string) : M (list (string * project)) :=
  print "Scanning for projects...";;
  let configs := rglob in
  if (length configs =? 0)%nat then
    print (tab +:+ "No electronics projects found!");;
    print (tab +:+ "Note: each project should have a " +:+ cfg_suffix +:+ "-file.");;
    mret []
  else
    (if (1 <? length configs)%nat then
       print (tab +:+ "Found " +:+ pretty (length configs) +:+ " projects:")
     else mret tt : M unit);;
    find_loop configs [].

Definition run_docker (a : answer) (project : project) (out_dir : string) : M bool :=
  path ← lift (a_resolve a (p_path project));
  out ← lift (a_resolve a out_dir);
  let argv :=
    [ "docker"; "run";
      "--rm"; "-it";
      "--volume"; path +:+ ":/build/" +:+ p_name project;
      "--volume"; out +:+ ":/build/out_dir";
      "--env"; "HOST_UID=" +:+ pretty (a_uid a);
      "--env"; "HOST_GID=" +:+ pretty (a_gid a);
      "jittercompany/jitter_electronics_ci:0.1";
      "/jitter/run_ci.sh " +:+ p_name project +:+ " " +:+ "out_dir" ] in
  act (Run argv);;
  proc ← lift (a_run a);
  print (nl +:+ "++++ RESULT:");;
  match stdout proc with
  | None => raise (Exception "UnicodeDecodeError")
  | Some text =>
      print text;;
      match stderr proc with
      | None => raise (Exception "UnicodeDecodeError")
      | Some text =>
          print text;;
          mret (returncode proc =? 0)%Z
      end
  end.

(** The answers of the outside world for the next call of [run_CI]. *)
Definition next_answer : M answer := fun s =>
  (Ok (answers (s_calls s)), {| s_calls := S (s_calls s); s_log := s_log s |}).

Definition run_CI (project : project) : M bool :=
  a ← next_answer;
  print (nl +:+ "==== Running CI for '" +:+ p_name project +:+ "' ====");;
  let out_dir := path_join ci_folder (p_name project) in
  if (String.length out_dir <? 5)%nat then
    print ("Error: path " +:+ out_dir +:+ " may be invalid");;
    mret false
  else
    let make_and_run : M bool :=
      act (Mkdir out_dir);;
      lift (a_mkdir a);;
      run_docker a project out_dir in
    found ← lift (a_exists a);
    (if found : bool then
       is_dir ← lift (a_is_dir a);
       (if negb is_dir then
          print ("Error: path " +:+ out_dir +:+ " is not a directory");;
          mret false
        else
          act (Rmtree out_dir);;
          lift (a_rmtree a);;
          make_and_run : M bool)
     else make_and_run : M bool).

(** [for _, project in projects.items()] at the top of the script. *)
Fixpoint run_all (projects : list (string * project)) (ok : bool) : M bool :=
  match projects with
  | [] => mret ok
  | (_, project) :: rest =>
      passed ← run_CI project;
      if passed : bool then
        print "__ OK __";;
        run_all rest ok
      else
        print "__ FAIL __";;
        run_all rest false
  end.

(** The script; it ends normally, with [exit(1)] or with an exception no
    one catches. *)
Definition script : M unit :=
  projects ← find_projects ".";
  ok ← run_all projects true;
  if negb (ok : bool) then
    print "__ CI FAILED! __";;
    raise (SystemExit 1)
  else mret tt.

(** The exit status of the script. *)
Definition status (r : outcome unit) : Z :=
  match r with
  | Ok _ => 0
  | Raise (SystemExit code) => code
  | Raise (Exception _) => 1
  end.

End Driver.

(** ** Vocabulary of the properties *)

Definition start : state := {| s_calls := 0; s_log := [] |}.

(** The actions a run has added to the log. *)
Definition new_actions (s s' : state) : list action :=
  drop (length (s_log s)) (s_log s').

(** The command lines given to the containers: the last argument of every
    [subprocess.run]. *)
Definition commands (log : list action) : list string :=
  omap (fun a => match a with Run argv => last argv | _ => None end) log.

(** The command line [run_docker] gives to the container of a project. *)
Definition command_of (project : project) : string :=
  "/jitter/run_ci.sh " +:+ p_name project +:+ " out_dir".

Definition is_print (a : action) : bool :=
  match a with Print _ => true | _ => false end.

(** What a run does to the file system and the containers: its actions
    other than [print]. *)
Definition deeds (log : list action) : list action :=
  List.filter (fun a => negb (is_print a)) log.

(** The dictionary [find_projects] builds from the configuration files
    found, starting from the dictionary [projects]. *)
Fixpoint projects_from (configs : list string) (projects : list (string * project))
    : list (string * project) :=
  match configs with
  | [] => projects
  | cfg :: rest =>
      projects_from rest (dict_set (project_name (path_name cfg)) (project_of cfg) projects)
  end.

Definition no_slash (s : string) : bool :=
  all_chars (fun c => negb (Ascii.eqb c slash)) s.

(** [d.get(k)] *)
Fixpoint dict_get {V : Type} (k : string) (d : list (string * V)) : option V :=
  match d with
  | [] => None
  | (k', v) :: rest => if String.eqb k' k then Some v else dict_get k rest
  end.

(** ** Sample runs *)

(** The output folder is there, everything works and the container is
    content. *)
Definition all_is_well : answer :=
  {| a_exists := Done true; a_is_dir := Done true;
     a_rmtree := Done tt; a_mkdir := Done tt;
     a_resolve := fun path => Done ("/work/" +:+ path);
     a_uid := 1000; a_gid := 100;
     a_run := Done {| returncode := 0; stdout := Some "done"; stderr := Some EmptyString |} |}.

End electronics_ci.

(** * pcbnew_do.py: the script *)

Section Script.

(** The constants of [kiauto.misc] the script imports; their values are
    not part of the script. *)
Variable KICAD_VERSION_5_99 : Z.
Variable PCBNEW_ERROR : Z.
Variable WRONG_LAYER_NAME : Z.

(** ** Saving and restoring the design file *)

Definition restore_pcb (cfg : Config) : M unit :=
  if nonempty (input_file cfg) && (0 <=? pcb_size cfg) && (0 <=? pcb_date cfg) then
    cur_date ← getmtime (input_file cfg);
    let bkp := input_file cfg +:+ "-bak" in
    (if negb (cur_date =? pcb_date cfg) then
       log DEBUG "Current pcb date: {} (!={}), trying to restore it";;
       has_bkp ← isfile bkp;
       if (has_bkp : bool) then
         bkp_size ← getsize bkp;
         if bkp_size =? pcb_size cfg then
           remove (input_file cfg);;
           rename bkp (input_file cfg);;
           log DEBUG "Moved {} -> {}"
         else
           log ERROR "Corrupted back-up file! (size = {})"
       else
         log ERROR "No back-up available!"
     else mret tt : M unit);;
    if KICAD_VERSION_5_99 <=? kicad_version cfg then
      has_bkp ← isfile bkp;
      if (has_bkp : bool) then remove bkp else mret tt
    else mret tt
  else mret tt.

Definition memorize_pcb (cfg : Config) : M Config :=
  size ← getsize (input_file cfg);
  date ← getmtime (input_file cfg);
  let cfg := set_pcb_memo cfg size date in
  log DEBUG "Current pcb ({}) size: {} date: {}";;
  (if KICAD_VERSION_5_99 <=? kicad_version cfg then
     copy2 (input_file cfg) (input_file cfg +:+ "-bak")
   else mret tt : M unit);;
  emit (AtexitRegister "restore_pcb");;
  mret cfg.

(** ** Reading the report *)

(** Characters at which [str.splitlines] breaks a line (code points below
    256); a carriage return followed by a line feed is one break. *)
Definition is_linebreak (c : ascii) : bool :=
  let n := nat_of_ascii c in
  ((10 <=? n)%nat && (n <=? 13)%nat) || ((28 <=? n)%nat && (n <=? 30)%nat)
  || (n =? 133)%nat.

Definition carriage_return : ascii := "013".

Fixpoint splitlines_from (cur : string) (s : string) : list string :=
  match s with
  | EmptyString =>
      match cur with EmptyString => [] | _ => [String.rev cur] end
  | String c s' =>
      if is_linebreak c then
        String.rev cur ::
        (if Ascii.eqb c carriage_return then
           match s' with
           | String d s'' =>
               if Ascii.eqb d newline then splitlines_from EmptyString s''
               else splitlines_from EmptyString s'
           | EmptyString => splitlines_from EmptyString s'
           end
         else splitlines_from EmptyString s')
      else splitlines_from (String c cur) s'
  end.

Definition splitlines (s : string) : list string := splitlines_from EmptyString s.

(** [open(path, 'rt').read().splitlines()]. *)
Definition read_lines (path : string) : M (list string) :=
  fs ← get_fs;
  match fs !! path with
  | Some f => mret (splitlines (f_data f))
  | None => raise (OSError path)
  end.

(** The local variables of [parse_drc], together with the two lists of
    [cfg] the loop appends to. *)
Record parse_state : Type := {
  drc_errors : option string;
  unconnected_pads : option string;
  in_errs : bool;
  in_wrns : bool;
  st_errs : list string;
  st_wrns : list string
}.

Inductive flow : Type :=
  | Continue (st : parse_state)
  | Break (st : parse_state).

Definition len (s : string) : Z := Z.of_nat (String.length s).

(** ['({}) {}'.format(g1, g2)]. *)
Definition format_record (g : string * string) : string :=
  "(" +:+ g.1 +:+ ") " +:+ g.2.

(** [l.append(l.pop() + '\n' + line)] on a list that is not empty. *)
Definition merge_into_last (l : list string) (line : string) : list string :=
  removelast l ++ [List.last l EmptyString +:+ nl +:+ line].

Definition set_st_errs (st : parse_state) (l : list string) : parse_state :=
  {| drc_errors := drc_errors st; unconnected_pads := unconnected_pads st;
     in_errs := in_errs st; in_wrns := in_wrns st;
     st_errs := l; st_wrns := st_wrns st |}.

Definition set_st_wrns (st : parse_state) (l : list string) : parse_state :=
  {| drc_errors := drc_errors st; unconnected_pads := unconnected_pads st;
     in_errs := in_errs st; in_wrns := in_wrns st;
     st_errs := st_errs st; st_wrns := l |}.

(** The part [if in_wrns: ...] of the loop body. *)
Definition parse_drc_in_wrns (err_regex : string -> option (string * string))
    (st : parse_state) (line : string) : flow :=
  if in_wrns st then
    match err_regex line with
    | Some g => Continue (set_st_wrns st (st_wrns st ++ [format_record g]))
    | None =>
        if (4 <? len line) && (0 <? Z.of_nat (length (st_wrns st))) then
          Continue (set_st_wrns st (merge_into_last (st_wrns st) line))
        else Continue st
    end
  else Continue st.

(** One round of the [for line in lines] loop of [parse_drc]. *)
Definition parse_drc_line (err_regex : string -> option (string * string))
    (st : parse_state) (line : string) : flow :=
  match re_found_errors line with
  | Some g1 =>
      Continue {| drc_errors := Some g1; unconnected_pads := unconnected_pads st;
                  in_errs := true; in_wrns := in_wrns st;
                  st_errs := st_errs st; st_wrns := st_wrns st |}
  | None =>
  match re_found_unconnected line with
  | Some g1 =>
      Continue {| drc_errors := drc_errors st; unconnected_pads := Some g1;
                  in_errs := false; in_wrns := true;
                  st_errs := st_errs st; st_wrns := st_wrns st |}
  | None =>
  if re_end_of_report line then Break st else
  if in_errs st then
    match err_regex line with
    | Some g => Continue (set_st_errs st (st_errs st ++ [format_record g]))
    | None =>
        if (4 <? len line) && (0 <? Z.of_nat (length (st_errs st))) then
          Continue (set_st_errs st (merge_into_last (st_errs st) line))
        else parse_drc_in_wrns err_regex st line
    end
  else parse_drc_in_wrns err_regex st line
  end
  end.

Fixpoint parse_drc_loop (err_regex : string -> option (string * string))
    (st : parse_state) (lines : list string) : parse_state :=
  match lines with
  | [] => st
  | line :: rest =>
      match parse_drc_line err_regex st line with
      | Continue st' => parse_drc_loop err_regex st' rest
      | Break st' => st'
      end
  end.

Definition err_regex (cfg : Config) : string -> option (string * string) :=
  if KICAD_VERSION_5_99 <=? kicad_version cfg then re_err_6_0 else re_err_5_1.

Definition parse_drc_start (cfg : Config) : parse_state :=
  {| drc_errors := None; unconnected_pads := None;
     in_errs := false; in_wrns := false;
     st_errs := errs cfg; st_wrns := wrns cfg |}.

(** [int(x)] where [x] is [None] or a string of digits (the bound that
    newer interpreters put on the number of digits is left out). *)
Definition int (x : option string) : M Z :=
  match x with
  | Some s => mret (int_of_digits s)
  | None => raise TypeError
  end.

(** The lists [cfg.errs] and [cfg.wrns] are updated in place by the loop;
    the updated [cfg] is returned with the two counts. *)
Definition parse_drc (cfg : Config) : M (Z * Z * Config) :=
  lines ← read_lines (output_file cfg);
  let st := parse_drc_loop (err_regex cfg) (parse_drc_start cfg) lines in
  n ← int (drc_errors st);
  m ← int (unconnected_pads st);
  mret (n, m, set_wrns (set_errs cfg (st_errs st)) (st_wrns st)).

(** ** The verdict of a DRC run *)

(** The helpers of [kiauto.file_util] that [process_drc_out] calls; they
    compute and write to the log only.  [apply_filters] gives the number of
    error records and of warning records it elided, and what it leaves in
    [cfg.errs] and [cfg.wrns] (its own log records are left out);
    [list_errors] and [list_warnings] are given by the records they log. *)
Variable apply_filters :
  Config -> string -> string -> Z * Z * list string * list string.
Variable list_errors : Config -> list string.
Variable list_warnings : Config -> list string.

Fixpoint log_all (lvl : level) (msgs : list string) : M unit :=
  match msgs with
  | [] => mret tt
  | msg :: rest => log lvl msg;; log_all lvl rest
  end.

Definition process_drc_out (args : Args) (cfg : Config) : M (Z * Config) :=
  let error_level := 0 in
  '(drc_errors, unconnected_pads, cfg) ← parse_drc cfg;
  log DEBUG "Found {} DRC errors and {} unconnected pads";;
  let '(skip_err, skip_unc, errs', wrns') :=
    apply_filters cfg "DRC error/s" "unconnected pad/s" in
  let cfg := set_wrns (set_errs cfg errs') wrns' in
  let drc_errors := drc_errors - skip_err in
  let unconnected_pads := unconnected_pads - skip_unc in
  if (drc_errors =? 0) && (unconnected_pads =? 0) then
    log INFO "No errors";;
    mret (error_level, cfg)
  else
    log ERROR "Found {} DRC errors and {} unconnected pads";;
    log_all ERROR (list_errors cfg);;
    unconnected_pads ←
      (if ignore_unconnected args then mret 0
       else log_all WARNING (list_warnings cfg);; mret unconnected_pads : M Z);
    let error_level := - (drc_errors + unconnected_pads) in
    mret (error_level, cfg).

(** ** Choosing the layers to print *)

(** The loop of [create_pcbnew_config] over [cfg.layers]. *)
Fixpoint mark_layers (layer_cnt : Z) (brd : Board) (todo : list string)
    (used_layers : gset Z) : M (gset Z) :=
  match todo with
  | [] => mret used_layers
  | layer :: rest =>
      if startswith layer "Inner" then
        match re_inner layer with
        | None =>
            log ERROR ("Malformed inner layer name: " +:+ layer +:+ ", use Inner.N");;
            raise (SystemExit WRONG_LAYER_NAME)
        | Some g1 =>
            let layer_n := int_of_digits g1 in
            if (layer_n <? 1) || (layer_cnt - 1 <=? layer_n) then
              log ERROR (layer +:+ " isn't a valid layer");;
              raise (SystemExit WRONG_LAYER_NAME)
            else mark_layers layer_cnt brd rest ({[layer_n]} ∪ used_layers)
        end
      else
        let id := GetLayerID brd layer in
        if id <? 0 then
          log ERROR ("Unknown layer " +:+ layer);;
          raise (SystemExit WRONG_LAYER_NAME)
        else mark_layers layer_cnt brd rest ({[id]} ∪ used_layers)
  end.

(** The set of requested layers is computed as in the script, by the loop
    [mark_layers].  Of the rest of the function, which opens
    [cfg.conf_pcbnew] and writes the configuration, one event is kept: that
    this part is reached, and with which set of layers.  The text written,
    the debug record of that text for a tool of version 6 and the failure
    of [int(cfg.scaling)] for a scaling that is infinite or not a number are
    not part of the model, which says nothing of them. *)
Definition create_pcbnew_config (cfg : Config) : M (gset Z) :=
  let layer_cnt := GetCopperLayerCount (board cfg) in
  used_layers ← mark_layers layer_cnt (board cfg) (layers cfg) ∅;
  emit (WritePcbnewConfig used_layers);;
  mret used_layers.

(** ** The primitives of [kiauto.ui_automation] *)

(** The outside world: the windowing system, the supervised process and
    the process table, as seen through the questions of the script. *)
Variable answers : nat -> answer.

Definition ask : M answer := fun w =>
  (Ok (answers (w_tick w)),
   {| w_fs := w_fs w; w_trace := w_trace w; w_tick := S (w_tick w) |}).

(** Modelled from the spec: [wait_for_window] of [kiauto.ui_automation]
    (section 4.1).  It returns the windows whose title matches, or fails:
    [ValueError] naming a window of the exclusion list [others] that showed
    up, [CalledProcessError] when the process [popen_obj] was given and has
    ended, [RuntimeError] when the time is over. *)
Definition wait_for_window (label title : string) (timeout : option Z)
    (others : list string) (popen_obj : bool) : M (list string) :=
  emit (WaitForWindow label title timeout);;
  a ← ask;
  match a_wait a with
  | Found ids => mret ids
  | TimedOut => emit TimeOut;; raise RuntimeError
  | Unexpected t =>
      if bool_decide (t ∈ others) then raise (ValueError t)
      else emit TimeOut;; raise RuntimeError
  | ProcessGone =>
      if popen_obj then raise CalledProcessError
      else emit TimeOut;; raise RuntimeError
  end.

(** Modelled from the spec: [wait_not_focused] of [kiauto.ui_automation]
    (section 4.1): it returns once the window has lost the focus and fails
    with [RuntimeError] when the time is over. *)
Definition wait_not_focused (id : string) (timeout : option Z) : M unit :=
  emit (WaitNotFocused id timeout);;
  a ← ask;
  if a_focus_lost a then mret tt else emit TimeOut;; raise RuntimeError.

(** What the tool writes at a path when it is told to write there (a
    report, a printed document, an image, the saved board). *)
Variable tool_output : string -> file.

Definition tool_writes (path : string) : M unit :=
  fs ← get_fs; put_fs (<[path := tool_output path]> fs).

(** Modelled from the spec: [wait_for_file_created_by_process] of
    [kiauto.file_util] (section 4.4): it returns once the file is there
    and written, and fails with [RuntimeError] when the time is over. *)
Definition wait_for_file_created_by_process (pid : Z) (path : string) : M unit :=
  emit (WaitForFile pid path);;
  a ← ask;
  if a_file_created a then tool_writes path else emit TimeOut;; raise RuntimeError.

(** Modelled from the spec: [xdotool], [text_replace] and [wait_point] of
    [kiauto.ui_automation] (section 4.3): the injection of keys and of text,
    and the point where a debugging session waits for a key. *)
Definition xdotool (args : list string) : M unit := emit (Xdotool args).

Definition text_replace (text : string) : M unit := emit (TextReplace text).

Definition wait_point (cfg : Config) : M unit := emit WaitPoint.

(** [time.sleep]. *)
Definition sleep (secs : Qc) : M unit := emit (Sleep secs).

Definition print (msg : string) : M unit := emit (Print msg).

(** [l[i]]. *)
Definition item (l : list string) (i : nat) : M string :=
  match l !! i with
  | Some x => mret x
  | None => raise IndexError
  end.

(** Modelled from the spec: the context [recorded_xvfb] of
    [kiauto.ui_automation] (section 4.2): a virtual display that lives as
    long as the body runs. *)
Definition recorded_xvfb {A} (cfg : Config) (retry : nat) (body : M A) : M A :=
  with_context (emit (XvfbStart retry)) (emit XvfbStop) body.

(** Modelled from the spec: the context [PopenContext] of
    [kiauto.ui_automation] (section 4.2): a new process that is ended when
    the body is left.  The body receives the process identifier. *)
Definition PopenContext {A} (cmd : list string) (body : Z -> M A) : M A :=
  fun w =>
    match (emit (Popen cmd);; a ← ask; mret (a_pid a)) w with
    | (Raise e, w1) => (Raise e, w1)
    | (Ok pid, w1) => with_context (mret tt) (emit PopenExit) (body pid) w1
    end.

(** [popen_obj.poll()]: the exit code of the process once it has ended. *)
Definition poll : M (option Z) := a ← ask; mret (a_poll a).

Definition seconds (n : Z) : Qc := Q2Qc (inject_Z n).

Definition half_a_second : Qc := Q2Qc (1 # 2).

(** ** Dialogs at start-up *)

Definition TITLE_CONFIRMATION : string := "^Confirmation$".
Definition TITLE_ERROR : string := "^Error$".
Definition TITLE_WARNING : string := "^Warning$".

Definition dismiss_already_running : M unit :=
  let nf_title := TITLE_CONFIRMATION in
  wait_for_window nf_title nf_title (Some 1) [] false;;
  log INFO "Dismiss pcbnew already running";;
  xdotool ["search"; "--onlyvisible"; "--name"; nf_title; "windowfocus"];;
  log DEBUG "Found, sending Return";;
  xdotool ["key"; "Return"];;
  log DEBUG "Wait a little, this dialog is slow";;
  sleep (seconds 5).

Definition dismiss_warning : M unit :=
  let nf_title := TITLE_WARNING in
  wait_for_window nf_title nf_title (Some 1) [] false;;
  log ERROR "Dismiss pcbnew warning, will fail";;
  xdotool ["search"; "--onlyvisible"; "--name"; nf_title; "windowfocus"];;
  xdotool ["key"; "Return"].

Definition dismiss_error : M unit :=
  let nf_title := TITLE_ERROR in
  wait_for_window nf_title nf_title (Some 1) [] false;;
  log DEBUG "Dismiss pcbnew error";;
  xdotool ["search"; "--onlyvisible"; "--name"; nf_title; "windowfocus"];;
  log DEBUG "Found, sending Return";;
  xdotool ["key"; "Return"].

Definition wait_pcbnew (time : Z) (others : list string) (popen_obj : bool)
    : M (list string) :=
  wait_for_window "Main pcbnew window" "Pcbnew" (Some time) others popen_obj.

Definition wait_pcbew_start (args : Args) (cfg : Config) : M unit :=
  '(failed_focuse, other) ←
    try_except
      (wait_pcbnew (wait_start args)
         [TITLE_CONFIRMATION; TITLE_WARNING; TITLE_ERROR] true;;
       mret (false, None))
      (fun e =>
         match e with
         | RuntimeError =>
             Some (log DEBUG "Time-out waiting for pcbnew, will retry";;
                   mret (true, None))
         | ValueError err =>
             Some (log DEBUG "Found {} window instead of pcbnew";;
                   mret (true, Some err))
         | CalledProcessError =>
             Some (poll;;
                   log DEBUG "Pcbnew is no longer running (returned {})";;
                   mret (false, None))
         | _ => None
         end);
  if (failed_focuse : bool) then
    wait_point cfg;;
    (if bool_decide (other = Some TITLE_ERROR) then
       dismiss_error;;
       log ERROR "pcbnew reported an error";;
       raise (SystemExit PCBNEW_ERROR)
     else mret tt : M unit);;
    (if bool_decide (other = Some TITLE_CONFIRMATION) then dismiss_already_running
     else mret tt : M unit);;
    (if bool_decide (other = Some TITLE_WARNING) then dismiss_warning
     else mret tt : M unit);;
    try_except (wait_pcbnew 5 [] false;; mret tt)
      (fun e =>
         match e with
         | RuntimeError =>
             Some (log ERROR "Time-out waiting for pcbnew, giving up";;
                   raise (SystemExit PCBNEW_ERROR))
         | _ => None
         end)
  else mret tt.

Definition exit_pcbnew (cfg : Config) : M unit :=
  id ← wait_pcbnew 10 [] false;
  log INFO "Exiting pcbnew";;
  wait_point cfg;;
  xdotool ["key"; "ctrl+q"];;
  try_except (id0 ← item id 0; wait_not_focused id0 (Some 5))
    (fun e =>
       match e with
       | RuntimeError => Some (log DEBUG "PCBnew not exiting, will retry")
       | _ => None
       end);;
  log INFO "Retry pcbnew exit";;
  wait_point cfg;;
  xdotool ["key"; "Return"; "ctrl+q"];;
  try_except (id0 ← item id 0; wait_not_focused id0 (Some 5))
    (fun e =>
       match e with
       | RuntimeError => Some (log DEBUG "PCBnew not exiting, will kill")
       | _ => None
       end);;
  wait_point cfg.

(** ** The work flows *)

Definition open_print_dialog (cfg : Config) (print_dialog_keys : list string)
    : M (list string) :=
  log INFO "Open File->Print";;
  wait_point cfg;;
  xdotool ("key" :: print_dialog_keys);;
  (* [found] is [None] when [retry] is set *)
  found ←
    try_except
      (id ← wait_for_window "Print dialog" "Print" None [] false; mret (Some id))
      (fun e => match e with RuntimeError => Some (mret None) | _ => None end);
  match found with
  | None =>
      log INFO "Open File->Print (retrying)";;
      wait_point cfg;;
      xdotool ("key" :: print_dialog_keys);;
      wait_for_window "Print dialog" "Print" None [] false
  | Some id => mret id
  end.

Definition open_3d_view (cfg : Config) : M (option string) :=
  log INFO "Open View->3D Viewer";;
  wait_point cfg;;
  sleep (seconds 1 * time_out_scale cfg)%Qc;;
  xdotool ["key"; "alt+3"];;
  found ←
    try_except
      (id ← wait_for_window "3D Viewer" "3D Viewer" None [] false; mret (Some id))
      (fun e => match e with RuntimeError => Some (mret None) | _ => None end);
  match found with
  | None => mret None
  | Some id =>
      sleep (seconds 1 * time_out_scale cfg)%Qc;;
      let width := rec_width cfg in
      let height := rec_height cfg in
      log DEBUG "Moving 3D viewer window...";;
      xdotool ["search"; "--name"; "3D Viewer"; "windowmove"; "0"; "0"];;
      sleep (seconds 1 * time_out_scale cfg)%Qc;;
      log DEBUG "Resizing 3D viewer window...";;
      xdotool ["search"; "--name"; "3D Viewer"; "windowsize"; pretty width; pretty height];;
      sleep (seconds 1 * time_out_scale cfg)%Qc;;
      log DEBUG "Waiting for render (sleep 1s)...";;
      sleep (seconds 1 * time_out_scale cfg)%Qc;;
      match id with
      | [] => mret None
      | id0 :: _ => mret (Some id0)
      end
  end.

Definition print_layers (cfg : Config) : M unit :=
  let print_dialog_keys :=
    if KICAD_VERSION_5_99 <=? kicad_version cfg then ["ctrl+p"] else ["alt+f"; "p"] in
  (if fill_zones cfg then
     log INFO "Fill zones";;
     wait_point cfg;;
     id ← open_print_dialog cfg print_dialog_keys;
     xdotool ["key"; "Escape"];;
     id0 ← item id 0;
     wait_not_focused id0 None;;
     wait_pcbnew 10 [] false;;
     xdotool ["key"; "b"];;
     sleep (seconds 1);;
     wait_pcbnew 10 [] false;;
     mret tt
   else mret tt : M unit);;
  id ← open_print_dialog cfg print_dialog_keys;
  wait_point cfg;;
  xdotool ["key"; "shift+Tab"; "shift+Tab"; "shift+Tab"; "shift+Tab"; "Return"];;
  let printer_title := "^(Print|" +:+ print_dlg_name cfg +:+ ")$" in
  item id 0;;
  id2 ← wait_for_window "Printer dialog" printer_title None [] false;
  wait_point cfg;;
  xdotool ["key"; "Tab"; "Home"; "Tab"; "Return"];;
  id_sel_f ← wait_for_window "Select a filename"
    ("(Select a filename|" +:+ select_a_filename cfg +:+ ")") (Some 2) [] false;
  log INFO "Pasting output dir";;
  wait_point cfg;;
  text_replace (output_file cfg);;
  xdotool ["key"; "Return"];;
  id_sel_f0 ← item id_sel_f 0;
  wait_not_focused id_sel_f0 None;;
  item id 0;;
  wait_for_window "Printer dialog" printer_title None [] false;;
  wait_point cfg;;
  xdotool ["key"; "Tab"; "Left"; "Left"; "Left"; "Return"];;
  wait_for_file_created_by_process (pcbnew_pid cfg) (output_file cfg);;
  id21 ← item id2 1;
  wait_not_focused id21 None;;
  id ← wait_for_window "Print dialog" "Print" None [] false;
  wait_point cfg;;
  xdotool ["key"; "Escape"];;
  id20 ← item id2 0;
  wait_not_focused id20 None;;
  exit_pcbnew cfg.

(** [_find_proc('pcbnew')]: whether the process table has such a process. *)
Definition _find_proc (name : string) : M bool := a ← ask; mret (a_proc_found a).

(** The loop [for t in range(2*timeout)] of [_wait_for_pcbnew_idle];
    [todo] counts the rounds that are left. *)
Fixpoint idle_loop (render_proc : bool) (todo : nat) (finished : Z) : M bool :=
  match todo with
  | O => mret false
  | S todo' =>
      sleep half_a_second;;
      (if render_proc then mret tt else raise AttributeError : M unit);;
      emit CpuPercent;;
      a ← ask;
      let pct := a_cpu a in
      print "Rendering... (CPU load {}%)";;
      if bool_decide (seconds 5 < pct)%Qc then idle_loop render_proc todo' 0
      else
        let finished := finished + 1 in
        if 4 <=? finished then mret true
        else idle_loop render_proc todo' finished
  end.

Definition _wait_for_pcbnew_idle (timeout : Z) : M bool :=
  render_proc ← _find_proc "pcbnew";
  idle_loop render_proc (Z.to_nat (2 * timeout)) 0.

Definition render_3d (cfg : Config) : M unit :=
  log INFO "Creating 3D render..";;
  (if KICAD_VERSION_5_99 <=? kicad_version cfg then
     log WARNING "Note: render_3d has never been tested with Kicad V6!"
   else mret tt : M unit);;
  log DEBUG "Preparing PCBnew window...";;
  id ← wait_pcbnew 5 [] false;
  id0 ← item id 0;
  xdotool ["windowmove"; "--sync"; id0; "0"; "0"];;
  xdotool ["windowsize"; "--sync"; id0; pretty (rec_width cfg); pretty (rec_height cfg)];;
  xdotool ["windowfocus"; "--sync"; id0];;
  id_3d ← open_3d_view cfg;
  match id_3d with
  | None => log WARNING "Failed to open 3D Viewer"
  | Some id_3d =>
      _wait_for_pcbnew_idle 30;;
      log DEBUG "Zoom to fit..";;
      xdotool ["key"; "--window"; id_3d; "Home"; "F1"];;
      _wait_for_pcbnew_idle 30;;
      log DEBUG "Render with raytracing..";;
      xdotool ["key"; "--window"; id_3d; "alt+p"; "Down"; "Return"];;
      _wait_for_pcbnew_idle 300;;
      log DEBUG "File -> Export current view as PNG";;
      xdotool ["key"; "--window"; id_3d; "alt+f"; "Return"];;
      xdotool ["key"; "--window"; id_3d; "ctrl+a"];;
      log DEBUG "typing '{}'...";;
      xdotool ["type"; output_file cfg];;
      xdotool ["key"; "--window"; id_3d; "Return"];;
      log DEBUG "waiting for output file to be written...";;
      wait_for_file_created_by_process (pcbnew_pid cfg) (output_file cfg);;
      log INFO "3D view saved as {}"
  end.

Definition run_drc_5_1 (cfg : Config) : M unit :=
  log INFO "Open Inspect->DRC";;
  wait_point cfg;;
  xdotool ["key"; "alt+i"; "d"];;
  wait_for_window "DRC modal window" "DRC Control" None [] false;;
  log INFO "Enable reporting all errors for tracks";;
  wait_point cfg;;
  xdotool ["key"; "Tab"; "Tab"; "Tab"; "Tab"; "space"; "Tab"; "Tab"; "Tab"; "Tab"];;
  log INFO "Pasting output dir";;
  wait_point cfg;;
  text_replace (output_file cfg);;
  xdotool ["key"; "Return"];;
  wait_for_window "Report completed dialog" "Disk File Report Completed" None [] false;;
  (* the tool shows this dialog once the report is on disk *)
  tool_writes (output_file cfg);;
  wait_point cfg;;
  xdotool ["key"; "Return"];;
  wait_for_window "DRC modal window" "DRC Control" None [] false;;
  log INFO "Closing the DRC dialog";;
  wait_point cfg;;
  xdotool ["key"; "shift+Tab"; "Return"];;
  wait_pcbnew 10 [] false;;
  mret tt.

Definition run_drc_6_0 (cfg : Config) : M unit :=
  log INFO "Open Inspect->DRC";;
  wait_point cfg;;
  xdotool ["key"; "ctrl+shift+i"];;
  wait_for_window "DRC modal window" "DRC Control" None [] false;;
  log INFO "Run DRC";;
  wait_point cfg;;
  xdotool ["key"; "Return"];;
  sleep (seconds 12 * time_out_scale cfg)%Qc;;
  log INFO "Open the save dialog";;
  wait_point cfg;;
  log INFO "Save DRC";;
  wait_point cfg;;
  xdotool ["key"; "shift+Tab"; "shift+Tab"; "shift+Tab"; "shift+Tab"; "shift+Tab"; "Return"];;
  wait_for_window "DRC File save dialog" "Save Report to File" None [] false;;
  log INFO "Pasting output file";;
  wait_point cfg;;
  text_replace (output_file cfg);;
  log INFO "Wait for DRC file creation";;
  wait_point cfg;;
  xdotool ["key"; "Return"];;
  wait_for_file_created_by_process (pcbnew_pid cfg) (output_file cfg);;
  log INFO "Closing the DRC dialog";;
  wait_point cfg;;
  xdotool ["key"; "Escape"];;
  wait_pcbnew 10 [] false;;
  mret tt.

(** The calls into the [pcbnew] Python module are kept as events; the
    report and the saved board are what the tool writes. *)
Definition run_drc_python (cfg : Config) : M unit :=
  log DEBUG "Using Python interface instead of running KiCad";;
  log DEBUG "Re-filling zones";;
  emit ZoneFill;;
  log DEBUG "Running DRC";;
  emit (WriteDRCReport (output_file cfg));;
  tool_writes (output_file cfg);;
  if save cfg then
    log INFO "Saving PCB";;
    rename (input_file cfg) (input_file cfg +:+ "-bak");;
    emit (BoardSave (input_file cfg));;
    tool_writes (input_file cfg)
  else mret tt.

Definition run_drc (cfg : Config) : M unit :=
  (if KICAD_VERSION_5_99 <=? kicad_version cfg then run_drc_6_0 cfg
   else run_drc_5_1 cfg);;
  (if save cfg then
     log INFO "Saving PCB";;
     wait_point cfg;;
     rename (input_file cfg) (input_file cfg +:+ "-bak");;
     xdotool ["key"; "ctrl+s"];;
     log INFO "Wait for PCB file creation";;
     wait_point cfg;;
     wait_for_file_created_by_process (pcbnew_pid cfg) (input_file cfg)
   else mret tt : M unit);;
  exit_pcbnew cfg.

(** ** The main program, from "Do all the work" on

    The session is set up; [get_log_files], which only opens the two files
    the output of the tool goes to, is left out. *)

(** The local variables the retry loop hands on. *)
Record loop_vars : Type := {
  lv_error_level : Z;
  lv_do_retry : bool;
  lv_cfg : Config
}.

(** One start attempt: the body of [for retry in range(3)] up to the test
    of [do_retry]. *)
Definition start_attempt (args : Args) (cfg : Config) (error_level : Z) (retry : nat)
    : M loop_vars :=
  recorded_xvfb cfg retry
    (log DEBUG ("Starting " +:+ pcbnew cfg);;
     PopenContext [pcbnew cfg; input_file cfg] (fun pid =>
       let cfg := set_pcbnew_pid cfg pid in
       wait_pcbew_start args cfg;;
       code ← poll;
       match code with
       | Some _ =>
           mret {| lv_error_level := error_level; lv_do_retry := true; lv_cfg := cfg |}
       | None =>
           match command args with
           | cmd_export =>
               print_layers cfg;;
               mret {| lv_error_level := error_level; lv_do_retry := false; lv_cfg := cfg |}
           | cmd_render_3d =>
               render_3d cfg;;
               mret {| lv_error_level := error_level; lv_do_retry := false; lv_cfg := cfg |}
           | cmd_run_drc =>
               run_drc cfg;;
               '(error_level, cfg) ← process_drc_out args cfg;
               mret {| lv_error_level := error_level; lv_do_retry := false; lv_cfg := cfg |}
           end
       end)).

(** [for retry in range(3)], over the values of [retry] still to come. *)
Fixpoint retry_loop (args : Args) (retries : list nat) (vars : loop_vars)
    : M loop_vars :=
  match retries with
  | [] => mret vars
  | retry :: rest =>
      vars ← start_attempt args (lv_cfg vars) (lv_error_level vars) retry;
      if negb (lv_do_retry vars) then mret vars
      else
        log WARNING "Pcbnew failed to start retrying ...";;
        retry_loop args rest vars
  end.

(** Modelled from the spec: [restore_config] and [restore_project] of
    [kiauto.file_util] (section 4.7), kept as events. *)
Definition restore_config (cfg : Config) : M unit := emit RestoreConfig.

Definition restore_project (cfg : Config) : M unit := emit RestoreProject.

Definition main (args : Args) (cfg : Config) : M unit :=
  let error_level := 0 in
  vars ←
    (if bool_decide (command args = cmd_run_drc)
        && (KICAD_VERSION_5_99 <=? kicad_version cfg) then
       run_drc_python cfg;;
       '(error_level, cfg) ← process_drc_out args cfg;
       mret {| lv_error_level := error_level; lv_do_retry := false; lv_cfg := cfg |}
     else
       retry_loop args (seq 0 3)
         {| lv_error_level := error_level; lv_do_retry := false; lv_cfg := cfg |}
     : M loop_vars);
  let cfg := lv_cfg vars in
  error_level ←
    (if lv_do_retry vars then
       log ERROR "Pcbnew failed to start try with --time_out_scale";;
       mret PCBNEW_ERROR
     else mret (lv_error_level vars) : M Z);
  (if negb (save cfg) then
     emit (AtexitUnregister "restore_pcb");;
     restore_pcb cfg
   else mret tt : M unit);;
  emit (AtexitUnregister "restore_config");;
  restore_config cfg;;
  emit (AtexitUnregister "restore_project");;
  restore_project cfg;;
  raise (SystemExit error_level).

(** ** Vocabulary of the properties *)

(** The path of the back-up of the design file. *)
Definition bak (cfg : Config) : string := input_file cfg +:+ "-bak".

(** The session has recorded the size and the date of the design file: the
    guard of [restore_pcb]. *)
Definition recorded (cfg : Config) : Prop :=
  nonempty (input_file cfg) = true ∧ 0 <= pcb_size cfg ∧ 0 <= pcb_date cfg.

Definition size (f : file) : Z := Z.of_nat (String.length (f_data f)).

(** The events a run has added to the trace. *)
Definition new_events (w w' : world) : list event :=
  drop (length (w_trace w)) (w_trace w').

Definition is_error_log (ev : event) : bool :=
  match ev with Log ERROR _ => true | _ => false end.

(** The file system [restore_pcb] leaves behind when it does not fail. *)
Definition restored_fs (cfg : Config) (fs : gmap string file) : gmap string file :=
  match fs !! input_file cfg with
  | None => fs
  | Some f =>
      let fs1 :=
        if bool_decide (f_mtime f = pcb_date cfg) then fs
        else
          match fs !! bak cfg with
          | Some b =>
              if bool_decide (size b = pcb_size cfg) then
                <[input_file cfg := b]> (delete (bak cfg) (delete (input_file cfg) fs))
              else fs
          | None => fs
          end in
      if KICAD_VERSION_5_99 <=? kicad_version cfg then delete (bak cfg) fs1 else fs1
  end.

(** The design file has changed and there is no back-up of the recorded
    size: none at all, or one of another size. *)
Definition corrupted (cfg : Config) (w : world) (f : file) : Prop :=
  f_mtime f ≠ pcb_date cfg ∧
  ∀ b, w_fs w !! bak cfg = Some b → size b ≠ pcb_size cfg.

(** The three cases of a restore, with both files kept in the third. *)
Definition restore_pcb_keeps_both (cfg : Config) (w : world) : Prop :=
  ∀ f, recorded cfg → w_fs w !! input_file cfg = Some f →
  ∃ w', restore_pcb cfg w = (Ok tt, w') ∧
    (f_mtime f = pcb_date cfg → w_fs w' !! input_file cfg = Some f) ∧
    (f_mtime f ≠ pcb_date cfg →
     ∀ b, w_fs w !! bak cfg = Some b → size b = pcb_size cfg →
       w_fs w' !! input_file cfg = Some b ∧ w_fs w' !! bak cfg = None) ∧
    (corrupted cfg w f →
       existsb is_error_log (new_events w w') = true ∧
       w_fs w' !! input_file cfg = w_fs w !! input_file cfg ∧
       w_fs w' !! bak cfg = w_fs w !! bak cfg).

(** The state a round of the loop hands on. *)
Definition flow_state (fl : flow) : parse_state :=
  match fl with Continue st => st | Break st => st end.

(** The rounds of the loop of [parse_drc] over the first lines of a report:
    [Continue st] when the loop goes on to the next line in state [st]. *)
Fixpoint parse_drc_prefix (err_regex : string -> option (string * string))
    (st : parse_state) (lines : list string) : flow :=
  match lines with
  | [] => Continue st
  | line :: rest =>
      match parse_drc_line err_regex st line with
      | Continue st' => parse_drc_prefix err_regex st' rest
      | Break st' => Break st'
      end
  end.

(** What [parse_drc] returns when its loop ends in state [st]: the two
    counts and the two lists, or the [TypeError] of [int(None)] when a
    header was not met. *)
Definition parse_drc_result (cfg : Config) (st : parse_state)
    : result (Z * Z * Config) :=
  match drc_errors st, unconnected_pads st with
  | Some n, Some m =>
      Ok (int_of_digits n, int_of_digits m,
          set_wrns (set_errs cfg (st_errs st)) (st_wrns st))
  | _, _ => Raise TypeError
  end.

(** A line that is neither one of the three marker lines nor a record. *)
Definition plain_line (err_regex : string -> option (string * string))
    (line : string) : Prop :=
  re_found_errors line = None ∧ re_found_unconnected line = None ∧
  re_end_of_report line = false ∧ err_regex line = None.

(** The report has a line "** Found N DRC errors **" (or "violations"). *)
Definition has_errors_header (lines : list string) : Prop :=
  ∃ line, line ∈ lines ∧ is_Some (re_found_errors line).

(** The report has a line "** Found N unconnected pads **". *)
Definition has_unconnected_header (lines : list string) : Prop :=
  ∃ line, line ∈ lines ∧ is_Some (re_found_unconnected line).

(** [w'] comes out of a run started in [w]: the trace has grown by
    events that all satisfy [P], and, unless [may_ask] is set, no question
    was asked of the outside world. *)
Definition grows (P : event -> Prop) (may_ask : bool) (w w' : world) : Prop :=
  (∃ evs, w_trace w' = w_trace w ++ evs ∧ Forall P evs) ∧
  (may_ask = false → w_tick w' = w_tick w).

(** Every run of [c], whatever its outcome, ends in a world related to the
    one it started in. *)
Definition preserves {A} (R : world -> world -> Prop) (c : M A) : Prop :=
  ∀ w, R w (c w).2.

(** The durations of the sleeps of a trace, in order. *)
Definition sleeps (tr : list event) : list Qc :=
  omap (fun ev => match ev with Sleep d => Some d | _ => None end) tr.

Definition sleep_lasts (d : Qc) (ev : event) : Prop :=
  match ev with Sleep d' => d' = d | _ => True end.

(** The sleeps of [c] scale with the time-out multiplier: in the same
    world, each lasts its duration under a multiplier of 1 times the
    multiplier of the session. *)
Definition sleeps_scale {A} (c : Config -> M A) : Prop :=
  ∀ cfg w,
    sleeps (new_events w (c cfg w).2) =
    map (fun base => (base * time_out_scale cfg)%Qc)
        (sleeps (new_events w (c (set_time_out_scale cfg (seconds 1)) w).2)).



(** The events that open a start attempt. *)
Definition is_start_event (ev : event) : bool :=
  match ev with XvfbStart _ | Popen _ => true | _ => false end.

Definition is_loud_log (ev : event) : bool :=
  match ev with Log WARNING _ | Log ERROR _ => true | _ => false end.

(** A run of [c] from [w] goes on after a time-out without a word at the
    level of a warning or above. *)
Definition swallows_time_out {A} (c : M A) (w : world) : Prop :=
  (∃ a, (c w).1 = Ok a) ∧
  TimeOut ∈ new_events w (c w).2 ∧
  existsb is_loud_log (new_events w (c w).2) = false.

(** The steps of the script that catch the time-out of a wait. *)
Definition time_out_handlers (args : Args) (cfg : Config) (keys : list string)
    : list (string * M unit) :=
  [ ("wait_pcbew_start", wait_pcbew_start args cfg);
    ("exit_pcbnew", exit_pcbnew cfg);
    ("open_print_dialog", open_print_dialog cfg keys;; mret tt);
    ("open_3d_view", open_3d_view cfg;; mret tt) ].

(** Of these steps only the recovery at start-up and the opening of the
    print dialog go on silently after a time-out (the third bounded retry,
    the three start attempts, reacts to the end of the process). *)
Definition only_bounded_silent_retries (args : Args) (cfg : Config)
    (keys : list string) : Prop :=
  ∀ name step w,
    (name, step) ∈ time_out_handlers args cfg keys →
    swallows_time_out step w →
    name = "wait_pcbew_start" ∨ name = "open_print_dialog".

(** The world after a run that added the events [evs] to the trace and
    asked [n] questions, the files being as before. *)
Definition after (w : world) (evs : list event) (n : nat) : world :=
  {| w_fs := w_fs w; w_trace := w_trace w ++ evs; w_tick := (n + w_tick w)%nat |}.

(** What one try at opening the print dialog adds to the trace. *)
Definition opening_events (keys : list string) : list event :=
  [ Xdotool ("key" :: keys); WaitForWindow "Print dialog" "Print" None ].

(** What a start attempt adds to the trace when the process ends before
    its main window shows up. *)
Definition failed_attempt_events (args : Args) (cfg : Config) (retry : nat) : list event :=
  [ XvfbStart retry;
    Log DEBUG ("Starting " +:+ pcbnew cfg);
    Popen [pcbnew cfg; input_file cfg];
    WaitForWindow "Main pcbnew window" "Pcbnew" (Some (wait_start args));
    Log DEBUG "Pcbnew is no longer running (returned {})";
    PopenExit;
    XvfbStop ].

(** The session drives the tool through its windows: it is not a DRC run
    with a tool of version 5.99 or later. *)
Definition gui_session (args : Args) (cfg : Config) : Prop :=
  ¬ (command args = cmd_run_drc ∧ KICAD_VERSION_5_99 <= kicad_version cfg).


(** ** Sample sessions *)

(** Values of the constants of [kiauto.misc] for the samples, and the
    numbers of a tool of version 5.1.9 and of version 6.0.0. *)
Definition version_5_99 : Z := 5099000.
Definition version_5_1_9 : Z := 5001009.
Definition version_6_0_0 : Z := 6000000.
Definition sample_PCBNEW_ERROR : Z := 9.
Definition sample_WRONG_LAYER_NAME : Z := 6.

Definition sample_board : Board :=
  {| GetCopperLayerCount := 4;
     GetLayerID := fun name =>
       if String.eqb name "F.Cu" then 0
       else if String.eqb name "B.Cu" then 31 else -1 |}.

(** A session on [board.kicad_pcb] that recorded a size of 3 and a date of
    100, for a tool of the given version. *)
Definition sample_cfg (version : Z) : Config :=
  {| input_file := "board.kicad_pcb"; output_file := "out/drc_result.rpt";
     pcbnew := "pcbnew"; kicad_version := version; board := sample_board;
     layers := []; fill_zones := false; save := false;
     time_out_scale := seconds 2; rec_width := 1366; rec_height := 960;
     print_dlg_name := "Print"; select_a_filename := "Select a filename";
     pcbnew_pid := 0; pcb_size := 3; pcb_date := 100;
     errs := []; wrns := [] |}.

Definition world_of (fs : gmap string file) : world :=
  {| w_fs := fs; w_trace := []; w_tick := 0 |}.

Definition original_pcb : file := {| f_data := "pcb"; f_mtime := 100 |}.
Definition modified_pcb : file := {| f_data := "pcb+zones"; f_mtime := 250 |}.
Definition truncated_pcb : file := {| f_data := "pc"; f_mtime := 100 |}.

(** The design file is as recorded and a back-up lies next to it. *)
Definition fs_unchanged : gmap string file :=
  {[ "board.kicad_pcb" := original_pcb; "board.kicad_pcb-bak" := original_pcb ]}.

(** The design file was rewritten and the back-up is intact. *)
Definition fs_modified : gmap string file :=
  {[ "board.kicad_pcb" := modified_pcb; "board.kicad_pcb-bak" := original_pcb ]}.

(** The design file was rewritten and the back-up has another size. *)
Definition fs_bad_backup : gmap string file :=
  {[ "board.kicad_pcb" := modified_pcb; "board.kicad_pcb-bak" := truncated_pcb ]}.

(** The text of a report made of the given lines. *)
Fixpoint text_of (lines : list string) : string :=
  match lines with
  | [] => EmptyString
  | line :: rest => line +:+ nl +:+ text_of rest
  end.

(** A report of KiCad 6: one violation, no unconnected pad, one footprint
    error. *)
Definition footprint_report : list string :=
  [ "** Drc report for board.kicad_pcb **";
    "** Found 1 DRC violations **";
    "[clearance]: Clearance violation (netclass 'Default' clearance 0.2000 mm)";
    "    Rule: netclass 'Default'; Severity: error";
    "** Found 0 unconnected pads **";
    "** Found 1 Footprint errors **";
    "[lib_footprint_issues]: Footprint not found in libraries";
    "** End of Report **" ].

(** A filter that hides the problems of the footprint libraries. *)
Definition footprint_rule : FilterRule :=
  {| kind := for_unconnected;
     matches := fun record => startswith record "(lib_footprint_issues)" |}.

Definition fs_with_report (lines : list string) : gmap string file :=
  {[ "board.kicad_pcb" := original_pcb;
     "out/drc_result.rpt" := {| f_data := text_of lines; f_mtime := 300 |} ]}.

Definition sample_args (cmd : Command) : Args :=
  {| command := cmd; wait_start := 25; ignore_unconnected := false |}.

(** The windows are there whenever the script waits for one, the focus moves
    on, the process runs, files get written. *)
Definition all_goes_well : answer :=
  {| a_wait := Found ["4194305"; "4194306"]; a_focus_lost := true; a_poll := None;
     a_cpu := Q2Qc 0; a_file_created := true; a_pid := 4242; a_proc_found := true |}.

Definition answers_well : nat -> answer := fun _ => all_goes_well.

(** The process is gone whenever the script looks. *)
Definition answers_gone : nat -> answer := fun _ =>
  {| a_wait := ProcessGone; a_focus_lost := false; a_poll := Some 1;
     a_cpu := Q2Qc 0; a_file_created := false; a_pid := 4242; a_proc_found := false |}.

(** The main window is there but never gives up the focus. *)
Definition answers_stuck : nat -> answer := fun _ =>
  {| a_wait := Found ["4194305"]; a_focus_lost := false; a_poll := None;
     a_cpu := Q2Qc 0; a_file_created := true; a_pid := 4242; a_proc_found := true |}.

(** The tool greets the script with an error dialog (the second question,
    after the one for the process identifier). *)
Definition answers_error_dialog : nat -> answer := fun n =>
  match n with
  | 1%nat =>
      {| a_wait := Unexpected TITLE_ERROR; a_focus_lost := true; a_poll := None;
         a_cpu := Q2Qc 0; a_file_created := true; a_pid := 4242; a_proc_found := true |}
  | _ => all_goes_well
  end.

(** The print dialog is late once: the first wait times out. *)
Definition answers_late_dialog : nat -> answer := fun n =>
  match n with
  | 0%nat =>
      {| a_wait := TimedOut; a_focus_lost := true; a_poll := None;
         a_cpu := Q2Qc 0; a_file_created := true; a_pid := 4242; a_proc_found := true |}
  | _ => all_goes_well
  end.

(** The print dialog never shows up. *)
Definition answers_no_dialog : nat -> answer := fun _ =>
  {| a_wait := TimedOut; a_focus_lost := true; a_poll := None;
     a_cpu := Q2Qc 0; a_file_created := true; a_pid := 4242; a_proc_found := true |}.

Definition sample_tool_output : string -> file := fun path =>
  {| f_data := text_of footprint_report; f_mtime := 300 |}.

(** The state of the loop of [parse_drc] after the header of the errors and
    one record. *)
Definition after_one_record : parse_state :=
  {| drc_errors := Some "1"; unconnected_pads := None;
     in_errs := true; in_wrns := false;
     st_errs := ["(clearance) Clearance violation"]; st_wrns := [] |}.

(** A report of KiCad 5 that stops after its errors. *)
Definition cut_report : list string :=
  [ "** Found 1 DRC errors **";
    "ErrType(4): Track too close to pad" ].

(** An export session of a tool of version 5.1.9 that fills the zones
    first. *)
Definition sample_fill_cfg : Config :=
  {| input_file := "board.kicad_pcb"; output_file := "out/printed.pdf";
     pcbnew := "pcbnew"; kicad_version := version_5_1_9; board := sample_board;
     layers := ["F.Cu"; "B.Cu"]; fill_zones := true; save := false;
     time_out_scale := seconds 2; rec_width := 1366; rec_height := 960;
     print_dlg_name := "Print"; select_a_filename := "Select a filename";
     pcbnew_pid := 4242; pcb_size := 3; pcb_date := 100;
     errs := []; wrns := [] |}.

(** ** Vocabulary of further properties *)

(** The world in which the file at [path] has been rewritten as [g]. *)
Definition rewritten (w : world) (path : string) (g : file) : world :=
  {| w_fs := <[path := g]> (w_fs w); w_trace := w_trace w; w_tick := w_tick w |}.

(** A line of a section of the report: none of the three marker lines. *)
Definition section_line (line : string) : Prop :=
  re_found_errors line = None ∧ re_found_unconnected line = None ∧
  re_end_of_report line = false.

(** What a line of a section does to the records of that section: a record
    line adds a record, a longer line that is no record goes to the end of
    the last record, any other line is dropped. *)
Definition collect_line (err_regex : string -> option (string * string))
    (records : list string) (line : string) : list string :=
  match err_regex line with
  | Some g => records ++ [format_record g]
  | None =>
      if (4 <? len line) && (0 <? Z.of_nat (length records)) then
        merge_into_last records line
      else records
  end.

Definition collect (err_regex : string -> option (string * string))
    (records : list string) (lines : list string) : list string :=
  foldl (collect_line err_regex) records lines.

(** The number a requested layer stands for when its name is accepted: the
    [N] of ["Inner.N"] in the range of the inner copper layers, or what the
    board answers for any other name it knows. *)
Definition layer_number (layer_cnt : Z) (brd : Board) (layer : string) : option Z :=
  if startswith layer "Inner" then
    g1 ← re_inner layer;
    let layer_n := int_of_digits g1 in
    if (layer_n <? 1) || (layer_cnt - 1 <=? layer_n) then None else Some layer_n
  else
    let id := GetLayerID brd layer in
    if id <? 0 then None else Some id.

(** The arguments of the calls of [xdotool] of a trace, in order. *)
Definition keys_sent (tr : list event) : list (list string) :=
  omap (fun ev => match ev with Xdotool args => Some args | _ => None end) tr.

(** The [n]-th answer of the outside world reports a load of the processor
    of 5 per cent or less. *)
Definition idle (n : nat) : Prop := ¬ (seconds 5 < a_cpu (answers n))%Qc.

(** Events of a virtual display or of a supervised process. *)
Definition is_session_event (ev : event) : bool :=
  match ev with
  | XvfbStart _ | XvfbStop | Popen _ | PopenExit => true
  | _ => false
  end.

Definition is_display_start (ev : event) : bool :=
  match ev with XvfbStart _ => true | _ => false end.

Definition is_log (ev : event) : bool :=
  match ev with Log _ _ => true | _ => false end.

(** What a start attempt shows of its display and its process. *)
Definition attempt_events (cfg : Config) (retry : nat) : list event :=
  [ XvfbStart retry; Popen [pcbnew cfg; input_file cfg]; PopenExit; XvfbStop ].

(** The runs of [c] that return a value return one that satisfies [Q]. *)
Definition returns {A} (Q : A -> Prop) (c : M A) : Prop :=
  ∀ w a w', c w = (Ok a, w') → Q a.

(** No file outside of [paths] is created, changed or removed. *)
Definition touches_only (paths : list string) (w w' : world) : Prop :=
  ∀ p, p ∉ paths → w_fs w' !! p = w_fs w !! p.

(** A relation between the world before and the world after a run that the
    steps of the script keep: the events that are not those of a display or
    of a supervised process, and the writes and renames at the paths that
    satisfy [ok]. *)
Record quiet_steps (R : world -> world -> Prop) (ok : string -> Prop) : Prop := {
  qs_refl : ∀ w, R w w;
  qs_trans : ∀ w1 w2 w3, R w1 w2 → R w2 w3 → R w1 w3;
  qs_emit : ∀ ev, is_session_event ev = false → preserves R (emit ev);
  qs_tool_writes : ∀ p, ok p → preserves R (tool_writes p);
  qs_rename : ∀ a b, ok a → ok b → preserves R (rename a b)
}.

(** The same, with the questions asked of the outside world. *)
Record steps (R : world -> world -> Prop) (ok : string -> Prop) : Prop := {
  st_quiet : quiet_steps R ok;
  st_ask : preserves R ask
}.

(** Two sessions work on the same files with the same program. *)
Definition same_session (cfg cfg' : Config) : Prop :=
  input_file cfg' = input_file cfg ∧ output_file cfg' = output_file cfg ∧
  pcbnew cfg' = pcbnew cfg.

(** The files of a session: the design file, its back-up and the output
    file. *)
Definition session_paths (cfg : Config) : list string :=
  [input_file cfg; bak cfg; output_file cfg].

(** ** Listing the layers of a design file *)

Definition quote : ascii := "034".

Definition is_quote (c : ascii) : bool := Ascii.eqb c quote.

Definition a_quote : string := String quote EmptyString.

(** The lines of a file opened in text mode, as the loop [for line in f]
    sees them: every line end (a line feed, a carriage return, or both) is
    read as a line feed, and a line keeps its line feed. *)
Fixpoint file_lines_from (cur : string) (s : string) : list string :=
  match s with
  | EmptyString =>
      match cur with EmptyString => [] | _ => [String.rev cur] end
  | String c s' =>
      if Ascii.eqb c newline then
        String.rev (String newline cur) :: file_lines_from EmptyString s'
      else if Ascii.eqb c carriage_return then
        String.rev (String newline cur) ::
        match s' with
        | String d s'' =>
            if Ascii.eqb d newline then file_lines_from EmptyString s''
            else file_lines_from EmptyString s'
        | EmptyString => file_lines_from EmptyString s'
        end
      else file_lines_from (String c cur) s'
  end.

Definition file_lines (s : string) : list string := file_lines_from EmptyString s.

(** [\s+\((\d+)\s+"[^"]+"\s+\S+\s+"([^"]+)"] at the start of the line,
    groups 1 and 2: the number of a layer and its user name. *)
Definition re_layer_user (line : string) : option (string * string) :=
  plus_then is_space (fun _ rest =>
    rest ← strip_prefix "(" rest;
    plus_then is_digit (fun g1 rest =>
      plus_then is_space (fun _ rest =>
        rest ← strip_prefix a_quote rest;
        plus_then (fun c => negb (is_quote c)) (fun _ rest =>
          rest ← strip_prefix a_quote rest;
          plus_then is_space (fun _ rest =>
            plus_then (fun c => negb (is_space c)) (fun _ rest =>
              plus_then is_space (fun _ rest =>
                rest ← strip_prefix a_quote rest;
                plus_then (fun c => negb (is_quote c)) (fun g2 rest =>
                  rest ← strip_prefix a_quote rest;
                  Some (g1, g2)) EmptyString rest) EmptyString rest)
              EmptyString rest) EmptyString rest) EmptyString rest)
        EmptyString rest) EmptyString rest) EmptyString line.

(** [\s+\((\d+)\s+(\S+)] at the start of the line, groups 1 and 2. *)
Definition re_layer_plain (line : string) : option (string * string) :=
  plus_then is_space (fun _ rest =>
    rest ← strip_prefix "(" rest;
    plus_then is_digit (fun g1 rest =>
      plus_then is_space (fun _ rest =>
        plus_then (fun c => negb (is_space c)) (fun g2 _ => Some (g1, g2))
          EmptyString rest) EmptyString rest) EmptyString rest) EmptyString line.

(** [^\s+\)$]. *)
Definition re_layers_end (line : string) : bool :=
  match plus_then is_space (fun _ rest =>
          rest ← strip_prefix ")" rest;
          if at_end rest then Some tt else None) EmptyString line with
  | Some _ => true
  | None => false
  end.

(** [\s+\(layers] anywhere in the line. *)
Fixpoint re_layers_start (line : string) : bool :=
  match plus_then is_space (fun _ rest => strip_prefix "(layers" rest)
          EmptyString line with
  | Some _ => true
  | None =>
      match line with
      | EmptyString => false
      | String _ rest => re_layers_start rest
      end
  end.

Fixpoint drop_last (s : string) : string :=
  match s with
  | EmptyString => EmptyString
  | String c EmptyString => EmptyString
  | String c s' => String c (drop_last s')
  end.

(** [name[1:-1]]. *)
Definition strip_ends (name : string) : string :=
  match name with
  | EmptyString => EmptyString
  | String _ rest => drop_last rest
  end.

(** The two patterns of a layer, tried in turn. *)
Definition layer_match (line : string) : option (string * string) :=
  match re_layer_user line with
  | Some z => Some z
  | None => re_layer_plain line
  end.

(** The loop [for line in pcb_file] of [load_layers]. *)
Fixpoint load_layers_loop (collect_layers : bool) (layer_names : list string)
    (lines : list string) : M (list string) :=
  match lines with
  | [] => mret layer_names
  | line :: rest =>
      if collect_layers then
        match layer_match line with
        | Some (id, name) =>
            name ←
              match name with
              | EmptyString => raise IndexError
              | String c _ => mret (if is_quote c then strip_ends name else name)
              end;
            let i := Z.to_nat (int_of_digits id) in
            if (i <? length layer_names)%nat then
              load_layers_loop true (<[i := name]> layer_names) rest
            else raise IndexError
        | None =>
            if re_layers_end line then mret layer_names
            else load_layers_loop true layer_names rest
        end
      else
        if re_layers_start line then load_layers_loop true layer_names rest
        else load_layers_loop false layer_names rest
  end.

Definition load_layers (pcb : string) : M (list string) :=
  let layer_names := replicate 50 "-" in
  fs ← get_fs;
  match fs !! pcb with
  | Some f => load_layers_loop false layer_names (file_lines (f_data f))
  | None => raise (OSError pcb)
  end.

Fixpoint print_layer_names (layer_names : list string) : M unit :=
  match layer_names with
  | [] => mret tt
  | layer :: rest =>
      (if negb (String.eqb layer "-") then print layer else mret tt);;
      print_layer_names rest
  end.

(** The action of the option [--list]: [parser.exit()] ends the program
    with status 0. *)
Definition ListLayers (values : list string) : M unit :=
  pcb ← item values 0;
  layer_names ← load_layers pcb;
  print_layer_names layer_names;;
  raise (SystemExit 0).

(** What a line of the layers section says: the index of a layer and its
    name, without the double quotes around a quoted name. *)
Definition layer_entry (line : string) : option (nat * string) :=
  match layer_match line with
  | Some (id, name) =>
      Some (Z.to_nat (int_of_digits id),
            match name with
            | String c _ => if is_quote c then strip_ends name else name
            | EmptyString => name
            end)
  | None => None
  end.

(** The names after the assignments of a list of entries, in order. *)
Definition assign_layers (layer_names : list string) (entries : list (nat * string))
    : list string :=
  foldl (fun names e => <[e.1 := e.2]> names) layer_names entries.

(** ** Further sample sessions *)

(** The tool starts and shows its main window, but the 3D viewer never
    shows up (the fifth question of a session). *)
Definition answers_no_viewer : nat -> answer := fun n =>
  match n with
  | 4%nat =>
      {| a_wait := TimedOut; a_focus_lost := true; a_poll := None;
         a_cpu := Q2Qc 0; a_file_created := true; a_pid := 4242; a_proc_found := true |}
  | _ => all_goes_well
  end.

(** The windows of the DRC show up, but the saved board does not (the
    fifth question of [run_drc]). *)
Definition answers_no_save : nat -> answer := fun n =>
  match n with
  | 4%nat =>
      {| a_wait := Found ["4194305"]; a_focus_lost := true; a_poll := None;
         a_cpu := Q2Qc 0; a_file_created := false; a_pid := 4242; a_proc_found := true |}
  | _ => all_goes_well
  end.

(** A DRC session of a tool of version 5.1.9 that saves the board. *)
Definition sample_save_cfg : Config :=
  {| input_file := "board.kicad_pcb"; output_file := "out/drc_result.rpt";
     pcbnew := "pcbnew"; kicad_version := version_5_1_9; board := sample_board;
     layers := []; fill_zones := false; save := true;
     time_out_scale := seconds 1; rec_width := 1366; rec_height := 960;
     print_dlg_name := "Print"; select_a_filename := "Select a filename";
     pcbnew_pid := 4242; pcb_size := -1; pcb_date := -1;
     errs := []; wrns := [] |}.

(** A report of KiCad 5 with both headers, the end marker and a line after
    it. *)
Definition short_report : list string :=
  [ "** Found 1 DRC errors **";
    "ErrType(4): Track too close to pad";
    "** Found 0 unconnected pads **" ].

(** The head of a design file with three layers, the last with a user
    name. *)
Definition layers_before : list string :=
  [ "(kicad_pcb (version 20211014) (generator pcbnew)" +:+ nl;
    nl ].

Definition layers_body : list string :=
  [ "    (0 F.Cu signal)" +:+ nl;
    "    (31 " +:+ a_quote +:+ "B.Cu" +:+ a_quote +:+ " signal)" +:+ nl;
    "    (32 " +:+ a_quote +:+ "B.Adhes" +:+ a_quote +:+ " user " +:+
      a_quote +:+ "B.Adhesive" +:+ a_quote +:+ ")" +:+ nl ].

Definition layers_after : list string :=
  [ "  (setup" +:+ nl; "    (0 not.a.layer)" +:+ nl; "  )" +:+ nl; ")" +:+ nl ].

Definition sample_pcb_lines : list string :=
  layers_before ++ ("  (layers" +:+ nl) :: layers_body ++ ("  )" +:+ nl) :: layers_after.

Fixpoint concat_lines (lines : list string) : string :=
  match lines with
  | [] => EmptyString
  | line :: rest => line +:+ concat_lines rest
  end.

Definition fs_with_layers : gmap string file :=
  {[ "layers.kicad_pcb" := {| f_data := concat_lines sample_pcb_lines; f_mtime := 100 |} ]}.

(** * Properties *)

(** ** The patterns on sample lines *)

Example re_found_errors_ex1 : re_found_errors "** Found 12 DRC errors **" = Some "12".
Proof. reflexivity. Qed.

Example re_found_errors_ex2 : re_found_errors "** Found 0 DRC violations **" = Some "0".
Proof. reflexivity. Qed.

Example re_found_errors_ex3 : re_found_errors "** Found DRC errors **" = None.
Proof. reflexivity. Qed.

Example re_err_6_0_ex1 :
  re_err_6_0 "[clearance]: Clearance violation" = Some ("clearance", "Clearance violation").
Proof. reflexivity. Qed.

Example re_err_6_0_ex2 : re_err_6_0 "[a]:]: b" = Some ("a]:", "b").
Proof. reflexivity. Qed.

Example re_err_5_1_ex1 :
  re_err_5_1 "ErrType(4): Track too close to pad" = Some ("4", "Track too close to pad").
Proof. reflexivity. Qed.

Example re_inner_ex1 : re_inner "Inner.12" = Some "12".
Proof. reflexivity. Qed.

Example int_of_digits_ex1 : int_of_digits "0042" = 42.
Proof. reflexivity. Qed.

Example re_inner_ex2 : re_inner ("Inner.1" +:+ nl) = Some "1".
Proof. reflexivity. Qed.

Example re_inner_ex3 : re_inner ("Inner.1" +:+ nl +:+ nl) = None.
Proof. reflexivity. Qed.

Example re_inner_ex4 : re_inner "Inner.1x" = None.
Proof. reflexivity. Qed.

Example re_found_unconnected_ex1 :
  re_found_unconnected "** Found 3 unconnected pads **" = Some "3".
Proof. reflexivity. Qed.

Example re_found_unconnected_ex2 :
  re_found_unconnected "** Found 1 Footprint errors **" = None.
Proof. reflexivity. Qed.

Example splitlines_ex1 :
  splitlines ("a" +:+ String carriage_return nl +:+ "b" +:+ nl +:+ nl +:+ "c")
  = ["a"; "b"; EmptyString; "c"].
Proof. reflexivity. Qed.

Example splitlines_ex2 : splitlines nl = [EmptyString].
Proof. reflexivity. Qed.

Example splitlines_ex3 : splitlines EmptyString = [].
Proof. reflexivity. Qed.


(** ** Strings and patterns *)

Lemma append_cons (c : ascii) (s t : string) : String c s +:+ t = String c (s +:+ t).
Proof. reflexivity. Qed.

Lemma append_empty_l (s : string) : EmptyString +:+ s = s.
Proof. reflexivity. Qed.

Lemma append_assoc (s t u : string) : (s +:+ t) +:+ u = s +:+ (t +:+ u).
Proof.
  induction s as [|c s IH]; [reflexivity |]. rewrite !append_cons, IH. reflexivity.
Qed.

Lemma append_empty_r (s : string) : s +:+ EmptyString = s.
Proof.
  induction s as [|c s IH]; [reflexivity |]. rewrite append_cons, IH. reflexivity.
Qed.

Lemma strip_prefix_app (p s : string) : strip_prefix p (p +:+ s) = Some s.
Proof.
  induction p as [|c p IH]; [reflexivity |].
  rewrite append_cons. simpl. rewrite Ascii.eqb_refl. exact IH.
Qed.

Lemma strip_prefix_Some (p s r : string) :
  strip_prefix p s = Some r → s = p +:+ r.
Proof.
  revert s. induction p as [|c p IH]; intros s; simpl.
  - intros [= ->]. reflexivity.
  - destruct s as [|d s]; [discriminate |].
    destruct (Ascii.eqb_spec c d) as [-> | _]; [| discriminate].
    intros H. rewrite (IH _ H). reflexivity.
Qed.

(** The run [ds] is taken whole when the rest of the pattern accepts what
    follows it. *)
Lemma plus_then_longest {A} (P : ascii → bool) (k : string → string → option A)
    (ds e taken : string) (r : A) :
  ds ≠ EmptyString →
  all_chars P ds = true →
  (∀ c e', e = String c e' → P c = false) →
  k (taken +:+ ds) e = Some r →
  plus_then P k taken (ds +:+ e) = Some r.
Proof.
  intros Hne Hall He. revert taken.
  induction ds as [|c ds IH]; intros taken Hk; [congruence |].
  simpl in Hall. apply andb_prop in Hall as [Hc Hds].
  rewrite append_cons. simpl. rewrite Hc.
  destruct ds as [|d ds].
  - rewrite append_empty_l. rewrite Hk.
    destruct e as [|c' e']; simpl; [reflexivity |].
    rewrite (He c' e' eq_refl). reflexivity.
  - rewrite (IH ltac:(discriminate) Hds (taken +:+ String c EmptyString)).
    + reflexivity.
    + rewrite append_assoc. exact Hk.
Qed.

(** What an accepted run looks like. *)
Lemma plus_then_Some {A} (P : ascii → bool) (k : string → string → option A)
    (s taken : string) (r : A) :
  plus_then P k taken s = Some r →
  ∃ ds e, s = ds +:+ e ∧ ds ≠ EmptyString ∧ all_chars P ds = true ∧
          k (taken +:+ ds) e = Some r.
Proof.
  revert taken. induction s as [|c s IH]; intros taken; simpl; [discriminate |].
  destruct (P c) eqn:Hc; [| discriminate].
  destruct (plus_then P k (taken +:+ String c EmptyString) s) as [r' |] eqn:Hrec.
  - intros [= ->]. destruct (IH _ Hrec) as (ds & e & -> & _ & Hall & Hk).
    exists (String c ds), e. simpl. rewrite Hc, Hall.
    rewrite append_assoc in Hk. repeat split; [discriminate | exact Hk].
  - intros Hk. exists (String c EmptyString), s. simpl. rewrite Hc.
    repeat split; [discriminate | exact Hk].
Qed.

Lemma at_end_no_digit (e : string) :
  at_end e = true → ∀ c e', e = String c e' → is_digit c = false.
Proof.
  intros He c e' ->. change (String.eqb (String c e') nl = true) in He.
  apply String.eqb_eq in He. injection He as -> _. reflexivity.
Qed.

(** The names the pattern of inner layers accepts: "Inner.", digits, and
    nothing more but for a final line break. *)
Lemma re_inner_digits (ds e : string) :
  ds ≠ EmptyString → all_chars is_digit ds = true → at_end e = true →
  re_inner ("Inner." +:+ ds +:+ e) = Some ds.
Proof.
  intros Hne Hall He. unfold re_inner.
  rewrite strip_prefix_app. simpl.
  apply plus_then_longest; [assumption .. | apply at_end_no_digit; assumption |].
  rewrite append_empty_l, He. reflexivity.
Qed.

Lemma re_inner_Some (layer g : string) :
  re_inner layer = Some g →
  ∃ e, layer = "Inner." +:+ g +:+ e ∧ g ≠ EmptyString ∧
       all_chars is_digit g = true ∧ at_end e = true.
Proof.
  unfold re_inner. destruct (strip_prefix "Inner." layer) as [rest |] eqn:Hp;
    [| discriminate].
  simpl. intros H. apply plus_then_Some in H as (ds & e & -> & Hne & Hall & Hk).
  rewrite append_empty_l in Hk. destruct (at_end e) eqn:He; [| discriminate].
  injection Hk as <-. exists e.
  rewrite (strip_prefix_Some _ _ _ Hp). auto.
Qed.

(** ** Saving and restoring the design file *)

Lemma length_append (s t : string) :
  String.length (s +:+ t) = (String.length s + String.length t)%nat.
Proof.
  induction s as [|c s IH]; [reflexivity |].
  rewrite append_cons. simpl. rewrite IH. reflexivity.
Qed.

Lemma append_ne (s t : string) : t ≠ EmptyString → s +:+ t ≠ s.
Proof.
  intros Ht Heq. apply (f_equal String.length) in Heq.
  rewrite length_append in Heq. destruct t; [congruence | simpl in Heq; lia].
Qed.

Lemma bak_ne (cfg : Config) : bak cfg ≠ input_file cfg.
Proof. apply append_ne. discriminate. Qed.

Lemma recorded_guard (cfg : Config) :
  recorded cfg →
  nonempty (input_file cfg) && (0 <=? pcb_size cfg) && (0 <=? pcb_date cfg) = true.
Proof.
  intros (Hn & Hs & Hd). rewrite Hn. simpl.
  apply andb_true_intro. split; apply Z.leb_le; assumption.
Qed.

Lemma not_recorded_guard (cfg : Config) :
  ¬ recorded cfg →
  nonempty (input_file cfg) && (0 <=? pcb_size cfg) && (0 <=? pcb_date cfg) = false.
Proof.
  intros Hn. apply not_true_is_false. intros H. apply Hn.
  apply andb_prop in H as [H Hd]. apply andb_prop in H as [H Hs].
  repeat split; [assumption | apply Z.leb_le; assumption ..].
Qed.

(** Unfolding the monad in a goal or a hypothesis. *)
Ltac run_M :=
  cbv [mbind M_bind mret M_ret raise log emit get_fs put_fs isfile getsize
       getmtime remove rename copy2] in *; simpl in *.

(** A run of [restore_pcb] on a recorded session whose design file exists
    does not fail, leaves [restored_fs] behind, asks nothing of the outside
    world and only adds log records to the trace. *)
Lemma restore_pcb_run (cfg : Config) (w : world) (f : file) :
  recorded cfg →
  w_fs w !! input_file cfg = Some f →
  ∃ logs,
    restore_pcb cfg w =
      (Ok tt, {| w_fs := restored_fs cfg (w_fs w);
                 w_trace := w_trace w ++ logs;
                 w_tick := w_tick w |}) ∧
    (existsb is_error_log logs = true ↔
       f_mtime f ≠ pcb_date cfg ∧
       ∀ b, w_fs w !! bak cfg = Some b → size b ≠ pcb_size cfg) ∧
    (f_mtime f = pcb_date cfg → logs = []).
Proof.
  intros Hrec Hf. pose proof (bak_ne cfg) as Hne.
  unfold restore_pcb, restored_fs. rewrite (recorded_guard _ Hrec).
  fold (bak cfg). destruct w as [fs tr tk]. simpl in Hf. run_M. rewrite Hf. simpl.
  destruct (Z.eqb_spec (f_mtime f) (pcb_date cfg)) as [Hd | Hd]; simpl.
  - rewrite (bool_decide_eq_true_2 _ Hd).
    exists []. rewrite app_nil_r.
    split; [| split; [split; [discriminate | intros [? _]; contradiction] | reflexivity]].
    destruct (KICAD_VERSION_5_99 <=? kicad_version cfg); [| reflexivity].
    simpl. destruct (fs !! bak cfg) as [b|] eqn:Hb; simpl.
    + rewrite Hb. reflexivity.
    + rewrite delete_id by assumption. reflexivity.
  - rewrite (bool_decide_eq_false_2 _ Hd).
    destruct (fs !! bak cfg) as [b|] eqn:Hb; simpl.
    + rewrite Hb. simpl. fold (size b).
      destruct (Z.eqb_spec (size b) (pcb_size cfg)) as [Hs | Hs]; simpl.
      * rewrite (bool_decide_eq_true_2 _ Hs). rewrite Hf. simpl.
        rewrite lookup_delete_ne by congruence. rewrite Hb. simpl.
        eexists [_; _]. rewrite <- !app_assoc. simpl. split.
        { destruct (KICAD_VERSION_5_99 <=? kicad_version cfg); [| reflexivity].
          simpl. rewrite lookup_insert_ne by congruence. rewrite lookup_delete_eq.
          simpl.
          rewrite (delete_id (<[_ := _]> _)); [reflexivity |].
          rewrite lookup_insert_ne by congruence. apply lookup_delete_eq. }
        simpl. split; [| contradiction].
        split; [discriminate | intros [_ H]; exfalso; eapply H; eauto].
      * rewrite (bool_decide_eq_false_2 _ Hs).
        eexists [_; _]. rewrite <- !app_assoc. simpl. split.
        { destruct (KICAD_VERSION_5_99 <=? kicad_version cfg); [| reflexivity].
          simpl. rewrite Hb. simpl. rewrite Hb. reflexivity. }
        simpl. split; [| contradiction].
        split; [intros _; split; [assumption | congruence] | reflexivity].
    + eexists [_; _]. rewrite <- !app_assoc. simpl. split.
      { destruct (KICAD_VERSION_5_99 <=? kicad_version cfg); [| reflexivity].
        simpl. rewrite Hb. simpl.
        rewrite delete_id by assumption. reflexivity. }
      simpl. split; [| contradiction].
      split; [intros _; split; [assumption | congruence] | reflexivity].
Qed.

Lemma restore_pcb_not_recorded (cfg : Config) (w : world) :
  ¬ recorded cfg → restore_pcb cfg w = (Ok tt, w).
Proof.
  intros H. unfold restore_pcb. rewrite (not_recorded_guard _ H). reflexivity.
Qed.

Lemma restore_pcb_no_file (cfg : Config) (w : world) :
  recorded cfg →
  w_fs w !! input_file cfg = None →
  restore_pcb cfg w = (Raise (OSError (input_file cfg)), w).
Proof.
  intros Hrec Hf. unfold restore_pcb. rewrite (recorded_guard _ Hrec).
  run_M. rewrite Hf. reflexivity.
Qed.

Lemma recorded_dec (cfg : Config) : recorded cfg ∨ ¬ recorded cfg.
Proof.
  unfold recorded.
  destruct (nonempty (input_file cfg)); [| right; intros [? _]; discriminate].
  destruct (Z.le_gt_cases 0 (pcb_size cfg)); [| right; intros (_ & ? & _); lia].
  destruct (Z.le_gt_cases 0 (pcb_date cfg)); [| right; intros (_ & _ & ?); lia].
  left. auto.
Qed.

(** Whatever the outcome, the file system after [restore_pcb] is
    [restored_fs] for a recorded session and is unchanged otherwise. *)
Lemma restore_pcb_fs (cfg : Config) (w : world) :
  (recorded cfg → w_fs (restore_pcb cfg w).2 = restored_fs cfg (w_fs w)) ∧
  (¬ recorded cfg → w_fs (restore_pcb cfg w).2 = w_fs w).
Proof.
  split; intros Hrec.
  - destruct (w_fs w !! input_file cfg) as [f|] eqn:Hf.
    + destruct (restore_pcb_run cfg w f Hrec Hf) as (logs & -> & _). reflexivity.
    + rewrite restore_pcb_no_file by assumption.
      unfold restored_fs. rewrite Hf. reflexivity.
  - rewrite restore_pcb_not_recorded by assumption. reflexivity.
Qed.

Lemma restored_fs_idempotent (cfg : Config) (fs : gmap string file) :
  restored_fs cfg (restored_fs cfg fs) = restored_fs cfg fs.
Proof.
  pose proof (bak_ne cfg) as Hne.
  unfold restored_fs at 2 3.
  destruct (fs !! input_file cfg) as [f|] eqn:Hf;
    [| unfold restored_fs; rewrite Hf; reflexivity].
  assert (Hclean : ∀ m : gmap string file, m !! bak cfg = None → delete (bak cfg) m = m)
    by (intros; apply delete_id; assumption).
  case_bool_decide as Hd.
  - (* the date is the recorded one *)
    destruct (KICAD_VERSION_5_99 <=? kicad_version cfg) eqn:Hv;
      unfold restored_fs; rewrite ?lookup_delete_ne by congruence; rewrite Hf;
      rewrite (bool_decide_eq_true_2 _ Hd), Hv; [| reflexivity].
    apply Hclean, lookup_delete_eq.
  - destruct (fs !! bak cfg) as [b|] eqn:Hb; [case_bool_decide as Hs |].
    + (* restored from the back-up *)
      set (fs1 := <[input_file cfg := b]> (delete (bak cfg) (delete (input_file cfg) fs))).
      assert (Hk : fs1 !! bak cfg = None)
        by (unfold fs1; rewrite lookup_insert_ne by congruence; apply lookup_delete_eq).
      assert (Hi : fs1 !! input_file cfg = Some b) by apply lookup_insert_eq.
      assert (Hr : (if KICAD_VERSION_5_99 <=? kicad_version cfg
                    then delete (bak cfg) fs1 else fs1) = fs1)
        by (destruct (_ <=? _); [apply Hclean; assumption | reflexivity]).
      rewrite Hr. unfold restored_fs. rewrite Hi, Hk.
      case_bool_decide; exact Hr.
    + (* a back-up of another size *)
      destruct (KICAD_VERSION_5_99 <=? kicad_version cfg) eqn:Hv;
        unfold restored_fs; rewrite ?lookup_delete_ne by congruence; rewrite Hf;
        rewrite (bool_decide_eq_false_2 _ Hd), Hv.
      * rewrite lookup_delete_eq. apply Hclean, lookup_delete_eq.
      * rewrite Hb, (bool_decide_eq_false_2 _ Hs). reflexivity.
    + (* no back-up *)
      assert (Hr : (if KICAD_VERSION_5_99 <=? kicad_version cfg
                    then delete (bak cfg) fs else fs) = fs)
        by (destruct (_ <=? _); [apply Hclean; assumption | reflexivity]).
      rewrite Hr. unfold restored_fs. rewrite Hf, Hb.
      rewrite (bool_decide_eq_false_2 _ Hd). exact Hr.
Qed.

Lemma new_events_app (w : world) (fs : gmap string file) (logs : list event) (tk : nat) :
  new_events w {| w_fs := fs; w_trace := w_trace w ++ logs; w_tick := tk |} = logs.
Proof. unfold new_events. simpl. apply drop_app_length. Qed.

(** C1 (amended).  For a session that recorded the size and date of the
    design file, the file being in place, [restore_pcb] does not fail and: if the date of the file is
    the recorded one, the file is left as it is; if the date differs and a
    back-up of the recorded size exists, the file becomes the back-up and
    the back-up is gone; if the date differs and there is no back-up of the
    recorded size, an error is logged, the design file is left as it is, and
    nothing at all is deleted when the back-up is missing or the tool is
    older than 5.99.  No other path is ever touched. *)
Theorem restore_pcb_cases (cfg : Config) (w : world) (f : file) :
  recorded cfg →
  w_fs w !! input_file cfg = Some f →
  ∃ w', restore_pcb cfg w = (Ok tt, w') ∧
    (f_mtime f = pcb_date cfg → w_fs w' !! input_file cfg = Some f) ∧
    (f_mtime f ≠ pcb_date cfg →
     ∀ b, w_fs w !! bak cfg = Some b → size b = pcb_size cfg →
       w_fs w' !! input_file cfg = Some b ∧ w_fs w' !! bak cfg = None) ∧
    (corrupted cfg w f →
       existsb is_error_log (new_events w w') = true ∧
       w_fs w' !! input_file cfg = Some f ∧
       (kicad_version cfg < KICAD_VERSION_5_99 ∨ w_fs w !! bak cfg = None →
        w_fs w' = w_fs w)) ∧
    (∀ p, p ≠ input_file cfg → p ≠ bak cfg → w_fs w' !! p = w_fs w !! p).
Proof.
  intros Hrec Hf. pose proof (bak_ne cfg) as Hne.
  destruct (restore_pcb_run cfg w f Hrec Hf) as (logs & Hrun & Hlogs & _).
  eexists. split; [exact Hrun |]. rewrite new_events_app. simpl.
  assert (Hclean : ∀ m : gmap string file, m !! bak cfg = None → delete (bak cfg) m = m)
    by (intros; apply delete_id; assumption).
  unfold restored_fs. rewrite Hf. repeat split.
  - intros Hd. rewrite (bool_decide_eq_true_2 _ Hd).
    destruct (_ <=? _); rewrite ?lookup_delete_ne by congruence; exact Hf.
  - rewrite (bool_decide_eq_false_2 _ H), H0, (bool_decide_eq_true_2 _ H1).
    destruct (_ <=? _); rewrite ?lookup_delete_ne by congruence;
      apply lookup_insert_eq.
  - rewrite (bool_decide_eq_false_2 _ H), H0, (bool_decide_eq_true_2 _ H1).
    destruct (_ <=? _); rewrite ?lookup_delete_eq; [reflexivity |].
    rewrite lookup_insert_ne by congruence. apply lookup_delete_eq.
  - apply Hlogs. exact H.
  - destruct H as [Hd Hb]. rewrite (bool_decide_eq_false_2 _ Hd).
    destruct (w_fs w !! bak cfg) as [b|] eqn:Hbk.
    + rewrite (bool_decide_eq_false_2 _ (Hb b eq_refl)).
      destruct (_ <=? _); rewrite ?lookup_delete_ne by congruence; exact Hf.
    + destruct (_ <=? _); rewrite ?lookup_delete_ne by congruence; exact Hf.
  - destruct H as [Hd Hb]. rewrite (bool_decide_eq_false_2 _ Hd).
    intros Hcase.
    destruct (w_fs w !! bak cfg) as [b|] eqn:Hbk.
    + rewrite (bool_decide_eq_false_2 _ (Hb b eq_refl)).
      destruct Hcase as [Hv | ?]; [| discriminate].
      apply Z.leb_gt in Hv. rewrite Hv. reflexivity.
    + destruct (_ <=? _); [apply Hclean; assumption | reflexivity].
  - intros p Hpi Hpb.
    assert (Hdel : ∀ m : gmap string file,
               (if KICAD_VERSION_5_99 <=? kicad_version cfg
                then delete (bak cfg) m else m) !! p = m !! p)
      by (intros m; destruct (_ <=? _); rewrite ?lookup_delete_ne by congruence;
          reflexivity).
    rewrite Hdel. case_bool_decide; [reflexivity |].
    destruct (w_fs w !! bak cfg) as [b|]; [| reflexivity].
    case_bool_decide; [| reflexivity].
    rewrite lookup_insert_ne, !lookup_delete_ne by congruence. reflexivity.
Qed.

(** C7.  Running [restore_pcb] a second time leaves the file system as the
    first run left it; and when the size and date were never recorded, or
    the design file still has its recorded date, a run does not fail, logs
    nothing and changes nothing but for the removal of the back-up file. *)
Theorem restore_pcb_idempotent (cfg : Config) (w : world) :
  w_fs (restore_pcb cfg (restore_pcb cfg w).2).2 = w_fs (restore_pcb cfg w).2 ∧
  ((¬ recorded cfg ∨
    ∃ f, w_fs w !! input_file cfg = Some f ∧ f_mtime f = pcb_date cfg) →
   ∃ fs', restore_pcb cfg w =
            (Ok tt, {| w_fs := fs'; w_trace := w_trace w; w_tick := w_tick w |}) ∧
          (fs' = w_fs w ∨ fs' = delete (bak cfg) (w_fs w))).
Proof.
  split.
  - destruct (recorded_dec cfg) as [Hrec | Hrec].
    + rewrite !(proj1 (restore_pcb_fs cfg _) Hrec). apply restored_fs_idempotent.
    + rewrite !(proj2 (restore_pcb_fs cfg _) Hrec). reflexivity.
  - intros H. destruct (recorded_dec cfg) as [Hrec | Hrec].
    + destruct H as [? | (f & Hf & Hd)]; [contradiction |].
      destruct (restore_pcb_run cfg w f Hrec Hf) as (logs & Hrun & _ & Hnil).
      specialize (Hnil Hd).
      assert (Hfs : restored_fs cfg (w_fs w) =
                    if KICAD_VERSION_5_99 <=? kicad_version cfg
                    then delete (bak cfg) (w_fs w) else w_fs w)
        by (unfold restored_fs; rewrite Hf, (bool_decide_eq_true_2 _ Hd); reflexivity).
      exists (restored_fs cfg (w_fs w)). rewrite Hrun, Hnil, app_nil_r.
      split; [reflexivity |]. rewrite Hfs. destruct (_ <=? _); auto.
    + exists (w_fs w). rewrite restore_pcb_not_recorded by assumption.
      destruct w; auto.
Qed.

(** ** Parsing the report *)

Lemma parse_drc_loop_app (rx : string → option (string * string))
    (st : parse_state) (pre rest : list string) :
  parse_drc_loop rx st (pre ++ rest) =
  match parse_drc_prefix rx st pre with
  | Continue st' => parse_drc_loop rx st' rest
  | Break st' => st'
  end.
Proof.
  revert st. induction pre as [|line pre IH]; intros st; simpl; [reflexivity |].
  destruct (parse_drc_line rx st line); [apply IH | reflexivity].
Qed.

(** What a round does with a plain line. *)
Lemma parse_drc_line_plain (rx : string → option (string * string))
    (st : parse_state) (line : string) :
  plain_line rx line →
  parse_drc_line rx st line =
    if in_errs st && (4 <? len line) && (0 <? Z.of_nat (length (st_errs st))) then
      Continue (set_st_errs st (merge_into_last (st_errs st) line))
    else if in_wrns st && (4 <? len line) && (0 <? Z.of_nat (length (st_wrns st))) then
      Continue (set_st_wrns st (merge_into_last (st_wrns st) line))
    else Continue st.
Proof.
  intros (H1 & H2 & H3 & H4). unfold parse_drc_line, parse_drc_in_wrns.
  rewrite H1, H2, H3, H4.
  destruct (in_errs st), (in_wrns st), (4 <? len line),
    (0 <? Z.of_nat (length (st_errs st))), (0 <? Z.of_nat (length (st_wrns st)));
    reflexivity.
Qed.

Lemma merge_into_last_snoc (records : list string) (rec line : string) :
  merge_into_last (records ++ [rec]) line = records ++ [rec +:+ nl +:+ line].
Proof. unfold merge_into_last. rewrite removelast_last, last_last. reflexivity. Qed.

Lemma length_pos_snoc (records : list string) (rec : string) :
  (0 <? Z.of_nat (length (records ++ [rec]))) = true.
Proof. apply Z.ltb_lt. rewrite length_app. simpl. lia. Qed.

(** A record line met in the errors section is appended to the errors, and
    one met in the warnings section to the warnings. *)
Lemma parse_drc_line_record (rx : string → option (string * string))
    (st : parse_state) (line : string) (g : string * string) :
  re_found_errors line = None → re_found_unconnected line = None →
  re_end_of_report line = false → rx line = Some g →
  parse_drc_line rx st line =
    if in_errs st then Continue (set_st_errs st (st_errs st ++ [format_record g]))
    else if in_wrns st then Continue (set_st_wrns st (st_wrns st ++ [format_record g]))
    else Continue st.
Proof.
  intros H1 H2 H3 H4. unfold parse_drc_line, parse_drc_in_wrns.
  rewrite H1, H2, H3, H4. reflexivity.
Qed.

(** The two lists never get shorter; so once a record has been parsed in a
    section its list has the form [records ++ [rec]] from then on. *)
Lemma parse_drc_line_errs_grow (rx : string → option (string * string))
    (st : parse_state) (line : string) :
  (length (st_errs st) ≤ length (st_errs (flow_state (parse_drc_line rx st line))))%nat ∧
  (length (st_wrns st) ≤ length (st_wrns (flow_state (parse_drc_line rx st line))))%nat.
Proof.
  assert (Hm : ∀ l : list string, l ≠ [] → length (merge_into_last l line) = length l).
  { intros l Hl. destruct (exists_last Hl) as (l' & x & ->).
    rewrite merge_into_last_snoc, !length_app. reflexivity. }
  assert (Hpos : ∀ l : list string, (0 <? Z.of_nat (length l)) = true → l ≠ [])
    by (intros [|] H; [discriminate | discriminate]).
  unfold parse_drc_line, parse_drc_in_wrns.
  destruct (re_found_errors line); [simpl; lia |].
  destruct (re_found_unconnected line); [simpl; lia |].
  destruct (re_end_of_report line); [simpl; lia |].
  destruct (in_errs st), (in_wrns st), (rx line),
    (4 <? len line),
    (0 <? Z.of_nat (length (st_errs st))) eqn:He,
    (0 <? Z.of_nat (length (st_wrns st))) eqn:Hw;
    simpl; rewrite ?length_app, ?Hm by auto; simpl; lia.
Qed.

(** [parse_drc] on a report that can be read: the result is decided by the
    state in which the loop ends, and the world is as before. *)
Lemma parse_drc_run (cfg : Config) (w : world) (f : file) :
  w_fs w !! output_file cfg = Some f →
  parse_drc cfg w =
    (parse_drc_result cfg
       (parse_drc_loop (err_regex cfg) (parse_drc_start cfg) (splitlines (f_data f))),
     w).
Proof.
  intros Hf. unfold parse_drc, read_lines, parse_drc_result. run_M. rewrite Hf. simpl.
  destruct (drc_errors _) as [n |]; simpl; [| reflexivity].
  destruct (unconnected_pads _) as [m |]; reflexivity.
Qed.

(** C5.  Let the report that [parse_drc] reads have a line that is neither
    a marker line nor a record, and let [st] be the state in which the loop
    reaches that line.  If the line has more than 4 characters and the
    section it lies in (the errors section when [in_errs] is set, else the
    warnings section) already has records, the line is appended to the last
    record of that section after a line break and nothing else changes: the
    loop goes on from that state, and what [parse_drc] returns is what the
    rest of the report makes of it.  If the line has 4 characters or fewer,
    no record is changed: [parse_drc] returns what the rest of the report
    makes of [st], which is what it returns for the report without the
    line. *)
Theorem parse_drc_continuation_line (cfg : Config) (w : world) (f : file)
    (pre post : list string) (line : string) (st : parse_state) :
  w_fs w !! output_file cfg = Some f →
  splitlines (f_data f) = pre ++ line :: post →
  parse_drc_prefix (err_regex cfg) (parse_drc_start cfg) pre = Continue st →
  plain_line (err_regex cfg) line →
  (4 < len line → in_errs st = true →
   ∀ records rec, st_errs st = records ++ [rec] →
     let st' := set_st_errs st (records ++ [rec +:+ nl +:+ line]) in
     parse_drc_loop (err_regex cfg) (parse_drc_start cfg) (pre ++ line :: post) =
       parse_drc_loop (err_regex cfg) st' post ∧
     parse_drc cfg w =
       (parse_drc_result cfg (parse_drc_loop (err_regex cfg) st' post), w)) ∧
  (4 < len line → in_errs st = false → in_wrns st = true →
   ∀ records rec, st_wrns st = records ++ [rec] →
     let st' := set_st_wrns st (records ++ [rec +:+ nl +:+ line]) in
     parse_drc_loop (err_regex cfg) (parse_drc_start cfg) (pre ++ line :: post) =
       parse_drc_loop (err_regex cfg) st' post ∧
     parse_drc cfg w =
       (parse_drc_result cfg (parse_drc_loop (err_regex cfg) st' post), w)) ∧
  (len line <= 4 →
     parse_drc_loop (err_regex cfg) (parse_drc_start cfg) (pre ++ line :: post) =
       parse_drc_loop (err_regex cfg) (parse_drc_start cfg) (pre ++ post) ∧
     parse_drc cfg w =
       (parse_drc_result cfg (parse_drc_loop (err_regex cfg) st post), w) ∧
     ∀ f', splitlines (f_data f') = pre ++ post →
       (parse_drc cfg (rewritten w (output_file cfg) f')).1 = (parse_drc cfg w).1).
Proof.
  intros Hf Hlines Hpre Hplain.
  rewrite (parse_drc_run cfg w f Hf), Hlines.
  rewrite !parse_drc_loop_app, Hpre. simpl.
  rewrite (parse_drc_line_plain _ st line Hplain).
  split; [| split].
  - intros Hlen Hin records rec Hrec.
    rewrite Hin, (proj2 (Z.ltb_lt _ _) Hlen), Hrec, length_pos_snoc. simpl.
    rewrite merge_into_last_snoc. split; reflexivity.
  - intros Hlen Hin Hw records rec Hrec.
    rewrite Hin, Hw, (proj2 (Z.ltb_lt _ _) Hlen), Hrec, length_pos_snoc. simpl.
    rewrite merge_into_last_snoc. split; reflexivity.
  - intros Hlen. rewrite (proj2 (Z.ltb_ge _ _) Hlen), !andb_false_r. simpl.
    split; [reflexivity |]. split; [reflexivity |].
    intros f' Hf'.
    rewrite (parse_drc_run cfg (rewritten w (output_file cfg) f') f')
      by apply lookup_insert_eq.
    rewrite Hf', parse_drc_loop_app, Hpre. reflexivity.
Qed.

Lemma parse_drc_line_counts (rx : string → option (string * string))
    (st : parse_state) (line : string) :
  (drc_errors (flow_state (parse_drc_line rx st line)) = drc_errors st ∨
   is_Some (re_found_errors line)) ∧
  (unconnected_pads (flow_state (parse_drc_line rx st line)) = unconnected_pads st ∨
   is_Some (re_found_unconnected line)).
Proof.
  unfold parse_drc_line, parse_drc_in_wrns.
  destruct (re_found_errors line); [simpl; eauto |].
  destruct (re_found_unconnected line); [simpl; eauto |].
  destruct (re_end_of_report line); [simpl; eauto |].
  destruct (in_errs st), (in_wrns st), (rx line), (4 <? len line),
    (0 <? Z.of_nat (length (st_errs st))), (0 <? Z.of_nat (length (st_wrns st)));
    simpl; eauto.
Qed.

(** A count the loop ends with was there at the start or comes from a
    header line of the report. *)
Lemma parse_drc_loop_counts (rx : string → option (string * string))
    (lines : list string) (st : parse_state) :
  (is_Some (drc_errors (parse_drc_loop rx st lines)) →
   is_Some (drc_errors st) ∨ has_errors_header lines) ∧
  (is_Some (unconnected_pads (parse_drc_loop rx st lines)) →
   is_Some (unconnected_pads st) ∨ has_unconnected_header lines).
Proof.
  revert st. induction lines as [|line lines IH]; intros st; simpl; [auto |].
  destruct (parse_drc_line_counts rx st line) as [He Hu].
  assert (Hin : line ∈ line :: lines) by apply list_elem_of_here.
  assert (Hweak_e : has_errors_header lines → has_errors_header (line :: lines))
    by (intros (l & Hl & ?); exists l; split; [apply list_elem_of_further |]; assumption).
  assert (Hweak_u : has_unconnected_header lines → has_unconnected_header (line :: lines))
    by (intros (l & Hl & ?); exists l; split; [apply list_elem_of_further |]; assumption).
  destruct (parse_drc_line rx st line) as [st' | st']; simpl in He, Hu.
  - destruct (IH st') as [IHe IHu]. split; intros H.
    + destruct (IHe H) as [H' | H']; [| auto].
      destruct He as [He | He]; [rewrite He in H'; auto | right; exists line; auto].
    + destruct (IHu H) as [H' | H']; [| auto].
      destruct Hu as [Hu | Hu]; [rewrite Hu in H'; auto | right; exists line; auto].
  - split; intros H.
    + destruct He as [He | He]; [rewrite He in H; auto | right; exists line; auto].
    + destruct Hu as [Hu | Hu]; [rewrite Hu in H; auto | right; exists line; auto].
Qed.

(** C9.  On a report that can be read, [parse_drc] returns only if the
    report has both header lines; if one of them is missing, it fails with
    the [TypeError] of [int(None)]. *)
Theorem parse_drc_needs_headers (cfg : Config) (w : world) (f : file) :
  w_fs w !! output_file cfg = Some f →
  (∀ r w', parse_drc cfg w = (Ok r, w') →
     has_errors_header (splitlines (f_data f)) ∧
     has_unconnected_header (splitlines (f_data f))) ∧
  (¬ has_errors_header (splitlines (f_data f)) ∨
   ¬ has_unconnected_header (splitlines (f_data f)) →
   parse_drc cfg w = (Raise TypeError, w)).
Proof.
  intros Hf.
  destruct (parse_drc_loop_counts (err_regex cfg) (splitlines (f_data f))
              (parse_drc_start cfg)) as [He Hu].
  assert (Hnone : ∀ o : option string, is_Some o ∨ is_Some (@None string) → is_Some o)
    by (intros o [H | [x H]]; [assumption | discriminate]).
  unfold parse_drc, read_lines, int. run_M. rewrite Hf. simpl. split.
  - intros r w'.
    destruct (drc_errors _) eqn:E; [| discriminate].
    destruct (unconnected_pads _) eqn:U; [| discriminate].
    intros _. split.
    + destruct He as [[x ?] | ?]; [eauto | discriminate | assumption].
    + destruct Hu as [[x ?] | ?]; [eauto | discriminate | assumption].
  - intros Hmiss.
    destruct (drc_errors _) eqn:E; [| reflexivity].
    destruct (unconnected_pads _) eqn:U; [| reflexivity].
    exfalso. destruct Hmiss as [Hm | Hm]; apply Hm.
    + destruct He as [[x ?] | ?]; [eauto | discriminate | assumption].
    + destruct Hu as [[x ?] | ?]; [eauto | discriminate | assumption].
Qed.

(** ** The verdict of a DRC run *)

Lemma log_all_run (lvl : level) (msgs : list string) (w : world) :
  log_all lvl msgs w =
  (Ok tt, {| w_fs := w_fs w; w_trace := w_trace w ++ map (Log lvl) msgs;
             w_tick := w_tick w |}).
Proof.
  revert w. induction msgs as [|msg msgs IH]; intros w; simpl.
  - rewrite app_nil_r. destruct w; reflexivity.
  - run_M. rewrite IH. simpl. rewrite <- app_assoc. reflexivity.
Qed.

(** The level [process_drc_out] returns, from the counts of [parse_drc]
    and the numbers of elided records of [apply_filters]. *)
Lemma process_drc_out_level (args : Args) (cfg cfg1 : Config) (w w1 : world)
    (n m skip_err skip_unc : Z) (errs' wrns' : list string) :
  parse_drc cfg w = (Ok (n, m, cfg1), w1) →
  apply_filters cfg1 "DRC error/s" "unconnected pad/s" =
    (skip_err, skip_unc, errs', wrns') →
  ∃ w' cfg2,
    process_drc_out args cfg w =
      (Ok (if (n - skip_err =? 0) && (m - skip_unc =? 0) then 0
           else - ((n - skip_err) + (if ignore_unconnected args then 0 else m - skip_unc)),
           cfg2), w').
Proof.
  intros Hparse Hfilter. unfold process_drc_out.
  unfold mbind at 1. unfold M_bind. rewrite Hparse. simpl.
  run_M. rewrite Hfilter.
  destruct ((n - skip_err =? 0) && (m - skip_unc =? 0)); simpl; [eauto |].
  rewrite log_all_run. simpl.
  destruct (ignore_unconnected args); simpl; [eauto |].
  rewrite log_all_run. simpl. eauto.
Qed.

(** X18.  [process_drc_out]: when neither count is negative after the
    filters, the level is 0 exactly when no error is left and the
    unconnected pads are none or ignored; otherwise it is minus the sum,
    which is not 0. *)
Lemma process_drc_out_verdict (args : Args) (cfg cfg1 : Config) (w w1 : world)
    (n m skip_err skip_unc : Z) (errs' wrns' : list string) :
  parse_drc cfg w = (Ok (n, m, cfg1), w1) →
  apply_filters cfg1 "DRC error/s" "unconnected pad/s" =
    (skip_err, skip_unc, errs', wrns') →
  0 <= n - skip_err → 0 <= m - skip_unc →
  ∃ level w' cfg2,
    process_drc_out args cfg w = (Ok (level, cfg2), w') ∧
    (level = 0 ↔
       n - skip_err = 0 ∧ (m - skip_unc = 0 ∨ ignore_unconnected args = true)) ∧
    (level ≠ 0 →
       level = - ((n - skip_err) + (if ignore_unconnected args then 0 else m - skip_unc))).
Proof.
  intros Hparse Hfilter He Hu.
  destruct (process_drc_out_level args cfg cfg1 w w1 n m skip_err skip_unc
              errs' wrns' Hparse Hfilter) as (w' & cfg2 & Hrun).
  eexists _, w', cfg2. split; [exact Hrun |].
  destruct (Z.eqb_spec (n - skip_err) 0) as [E | E];
    destruct (Z.eqb_spec (m - skip_unc) 0) as [U | U];
    destruct (ignore_unconnected args); simpl;
    (split; [split; [intros; split; [| try auto] | intros (? & [? | ?])] | intros]);
    try lia; try discriminate; try reflexivity; auto.
Qed.

(** ** Choosing the layers to print *)

Lemma startswith_inner (s : string) : startswith ("Inner." +:+ s) "Inner" = true.
Proof.
  unfold startswith. change ("Inner." +:+ s) with ("Inner" +:+ ("." +:+ s)).
  rewrite strip_prefix_app. reflexivity.
Qed.

(** C6.  A requested layer ["Inner."] followed by the digits of [N] (and at
    most a final line break) is accepted, the loop going on with layer [N]
    marked, if and only if [1 <= N <= C - 2] for the copper layer count [C];
    for any other [N], and for any other name that starts with ["Inner"],
    the script exits with [WRONG_LAYER_NAME].  On a board with 4 copper
    layers ["Inner.1"] is accepted and ["Inner.3"] is rejected. *)
Theorem mark_layers_inner (layer_cnt : Z) (brd : Board) (layer : string)
    (rest : list string) (used : gset Z) (w : world) :
  (∀ ds e, ds ≠ EmptyString → all_chars is_digit ds = true → at_end e = true →
     layer = "Inner." +:+ ds +:+ e →
     (1 <= int_of_digits ds <= layer_cnt - 2 →
      mark_layers layer_cnt brd (layer :: rest) used w =
      mark_layers layer_cnt brd rest ({[int_of_digits ds]} ∪ used) w) ∧
     (¬ (1 <= int_of_digits ds <= layer_cnt - 2) →
      ∃ w', mark_layers layer_cnt brd (layer :: rest) used w =
            (Raise (SystemExit WRONG_LAYER_NAME), w'))) ∧
  (startswith layer "Inner" = true →
   (∀ ds e, ds ≠ EmptyString → all_chars is_digit ds = true → at_end e = true →
      layer ≠ "Inner." +:+ ds +:+ e) →
   ∃ w', mark_layers layer_cnt brd (layer :: rest) used w =
         (Raise (SystemExit WRONG_LAYER_NAME), w')) ∧
  (create_pcbnew_config
     (set_layers (sample_cfg 0) ["F.Cu"; "B.Cu"; "Inner.1"]) w).1 = Ok {[0; 31; 1]} ∧
  (create_pcbnew_config
     (set_layers (sample_cfg 0) ["Inner.3"]) w).1 = Raise (SystemExit WRONG_LAYER_NAME).
Proof.
  split; [| split; [| split; [vm_compute; reflexivity | vm_compute; reflexivity]]];
    [intros ds e Hne Hall He ->; split |].
  - intros Hn. simpl.
    rewrite ?startswith_inner, re_inner_digits by assumption.
    destruct (Z.ltb_spec (int_of_digits ds) 1); [lia |].
    destruct (Z.leb_spec (layer_cnt - 1) (int_of_digits ds)); [lia |].
    reflexivity.
  - intros Hn. simpl.
    rewrite ?startswith_inner, re_inner_digits by assumption.
    destruct (Z.ltb_spec (int_of_digits ds) 1); simpl; [run_M; eauto |].
    destruct (Z.leb_spec (layer_cnt - 1) (int_of_digits ds)); [run_M; eauto | lia].
  - intros Hs Hmal. simpl. rewrite Hs.
    destruct (re_inner layer) as [g |] eqn:Hre; [| run_M; eauto].
    apply re_inner_Some in Hre as (e & Heq & Hne & Hall & He).
    exfalso. exact (Hmal g e Hne Hall He Heq).
Qed.

(** ** What the runs of the script add to the trace *)

Lemma bind_run {A B} (c : M A) (k : A → M B) (w : world) :
  (c ≫= k) w =
  match c w with
  | (Ok a, w') => k a w'
  | (Raise e, w') => (Raise e, w')
  end.
Proof. reflexivity. Qed.

Section Preservation.

Variable R : world → world → Prop.
Hypothesis R_refl : ∀ w, R w w.
Hypothesis R_trans : ∀ w1 w2 w3, R w1 w2 → R w2 w3 → R w1 w3.

Lemma preserves_ret {A} (a : A) : preserves R (mret a).
Proof. intros w. apply R_refl. Qed.

Lemma preserves_raise {A} (e : exn) : preserves R (@raise A e).
Proof. intros w. apply R_refl. Qed.

Lemma preserves_bind {A B} (c : M A) (k : A → M B) :
  preserves R c → (∀ a, preserves R (k a)) → preserves R (c ≫= k).
Proof.
  intros Hc Hk w. specialize (Hc w). unfold mbind, M_bind.
  destruct (c w) as [[a | e] w1]; simpl in *; [| assumption].
  eapply R_trans; [exact Hc | apply Hk].
Qed.

Lemma preserves_try_except {A} (body : M A) (handler : exn → option (M A)) :
  preserves R body →
  (∀ e h, handler e = Some h → preserves R h) →
  preserves R (try_except body handler).
Proof.
  intros Hb Hh w. specialize (Hb w). unfold try_except.
  destruct (body w) as [[a | e] w1]; simpl in *; [assumption |].
  destruct (handler e) as [h |] eqn:He; simpl; [| assumption].
  eapply R_trans; [exact Hb | apply (Hh e h He)].
Qed.

Lemma preserves_with_context {A} (enter leave : M unit) (body : M A) :
  preserves R enter → preserves R leave → preserves R body →
  preserves R (with_context enter leave body).
Proof.
  intros He Hl Hb w. unfold with_context. specialize (He w).
  destruct (enter w) as [[[] | e] w1]; simpl in *; [| assumption].
  specialize (Hb w1). destruct (body w1) as [r w2]. simpl in Hb.
  specialize (Hl w2). destruct (leave w2) as [[[] | e] w3]; simpl in *;
    eapply R_trans; eauto.
Qed.

Lemma preserves_get_fs : preserves R get_fs.
Proof. intros w. apply R_refl. Qed.

End Preservation.

Lemma grows_refl (P : event → Prop) (b : bool) (w : world) : grows P b w w.
Proof. split; [exists []; rewrite app_nil_r; auto | reflexivity]. Qed.

Lemma grows_trans (P : event → Prop) (b : bool) (w1 w2 w3 : world) :
  grows P b w1 w2 → grows P b w2 w3 → grows P b w1 w3.
Proof.
  intros [(e1 & H1 & F1) T1] [(e2 & H2 & F2) T2]. split.
  - exists (e1 ++ e2). rewrite H2, H1, app_assoc. split; [reflexivity |].
    apply Forall_app; auto.
  - intros Hb. rewrite T2, T1 by assumption. reflexivity.
Qed.

Lemma grows_emit (P : event → Prop) (b : bool) (ev : event) :
  P ev → preserves (grows P b) (emit ev).
Proof.
  intros Hev w. split; [| reflexivity]. exists [ev]. simpl. auto.
Qed.

Lemma grows_put_fs (P : event → Prop) (b : bool) (fs : gmap string file) :
  preserves (grows P b) (put_fs fs).
Proof. intros w. split; [exists []; simpl; rewrite app_nil_r; auto | reflexivity]. Qed.

Lemma grows_ask (P : event → Prop) : preserves (grows P true) ask.
Proof. intros w. split; [exists []; simpl; rewrite app_nil_r; auto | discriminate]. Qed.

Lemma grows_new_events (P : event → Prop) (b : bool) (w w' : world) :
  grows P b w w' → Forall P (new_events w w').
Proof.
  intros [(evs & H & F) _]. unfold new_events. rewrite H, drop_app_length. exact F.
Qed.

(** After [c], the rest of [c ≫= k] only adds what [k] adds. *)
Lemma bind_after {A B} (R : world → world → Prop) (c : M A) (k : A → M B) (w : world) :
  (∀ w0, R w0 w0) →
  (∀ a, preserves R (k a)) →
  R (c w).2 ((c ≫= k) w).2.
Proof.
  intros Hrefl Hk. rewrite bind_run.
  destruct (c w) as [[a | e] w1]; simpl; [apply Hk | apply Hrefl].
Qed.

(** Structural steps shared by the proofs below: binds, handlers, contexts,
    branches, and the primitives down to [emit] and [ask]. *)
Ltac preserve_step :=
  first
    [ apply preserves_ret; [apply grows_refl]
    | apply preserves_raise; [apply grows_refl]
    | apply preserves_get_fs; [apply grows_refl]
    | apply grows_put_fs
    | apply grows_ask
    | apply grows_emit; simpl; auto; fail
    | apply preserves_bind; [apply grows_trans | | intros; cbv beta]
    | apply preserves_try_except; [apply grows_trans | | intros [] ? [= <-]]
    | apply preserves_with_context; [apply grows_trans | | | ]
    | match goal with
      | |- preserves _ (if ?b then _ else _) => destruct b
      | |- preserves _ (match ?x with _ => _ end) => destruct x
      | |- preserves _ (let '(_, _) := ?x in _) => destruct x
      end ].

Ltac preserve := repeat preserve_step.


(** ** Sleeps *)

Ltac unfold_primitives :=
  unfold wait_pcbnew, wait_for_window, wait_not_focused,
    wait_for_file_created_by_process, tool_writes, xdotool, text_replace,
    wait_point, sleep, print, log, item, poll, _find_proc.

Lemma open_3d_view_sleeps (cfg : Config) :
  preserves (grows (sleep_lasts (seconds 1 * time_out_scale cfg)) true)
    (open_3d_view cfg).
Proof. unfold open_3d_view. unfold_primitives. preserve. Qed.

Lemma run_drc_6_0_sleeps (cfg : Config) :
  preserves (grows (sleep_lasts (seconds 12 * time_out_scale cfg)) true)
    (run_drc_6_0 cfg).
Proof. unfold run_drc_6_0. unfold_primitives. preserve. Qed.

Lemma dismiss_already_running_sleeps :
  preserves (grows (sleep_lasts (seconds 5)) true) dismiss_already_running.
Proof. unfold dismiss_already_running. unfold_primitives. preserve. Qed.

Lemma idle_loop_sleeps (render_proc : bool) (todo : nat) (finished : Z) :
  preserves (grows (sleep_lasts half_a_second) true) (idle_loop render_proc todo finished).
Proof.
  revert finished. induction todo as [|todo IH]; intros finished; simpl;
    unfold_primitives; preserve; apply IH.
Qed.

Lemma print_layers_sleeps (cfg : Config) :
  preserves (grows (sleep_lasts (seconds 1)) true) (print_layers cfg).
Proof.
  unfold print_layers, open_print_dialog, exit_pcbnew. unfold_primitives. preserve.
Qed.

Lemma sleeps_of_grows {A} (d : Qc) (c : M A) (w : world) :
  preserves (grows (sleep_lasts d) true) c →
  ∀ d', Sleep d' ∈ new_events w (c w).2 → d' = d.
Proof.
  intros H d' Hin. specialize (H w). apply grows_new_events in H.
  rewrite Forall_forall in H. exact (H _ Hin).
Qed.

(** C4 (amended).  Every sleep of [open_3d_view] lasts 1 second times the
    time-out multiplier of the session and every sleep of [run_drc_6_0] lasts
    12 seconds times the multiplier; [open_3d_view] does sleep in every run.
    The sleeps of [dismiss_already_running] (5 seconds), of [print_layers]
    (1 second) and of [_wait_for_pcbnew_idle] (half a second) do not depend
    on the multiplier. *)
Theorem sleep_durations (cfg : Config) (w : world) (d : Qc) :
  (Sleep d ∈ new_events w (open_3d_view cfg w).2 →
   d = (seconds 1 * time_out_scale cfg)%Qc) ∧
  Sleep (seconds 1 * time_out_scale cfg)%Qc ∈ new_events w (open_3d_view cfg w).2 ∧
  (Sleep d ∈ new_events w (run_drc_6_0 cfg w).2 →
   d = (seconds 12 * time_out_scale cfg)%Qc) ∧
  (Sleep d ∈ new_events w (dismiss_already_running w).2 → d = seconds 5) ∧
  (Sleep d ∈ new_events w (print_layers cfg w).2 → d = seconds 1) ∧
  (∀ timeout, Sleep d ∈ new_events w (_wait_for_pcbnew_idle timeout w).2 →
              d = half_a_second).
Proof.
  split; [apply sleeps_of_grows, open_3d_view_sleeps |].
  split.
  { unfold open_3d_view. unfold_primitives. destruct w as [fs tr tk]. run_M.
    unfold try_except. simpl.
    destruct (a_wait (answers tk)) as [[|id0 ids] | | |]; simpl;
      unfold new_events; simpl;
      rewrite <- ?app_assoc, drop_app_length; simpl;
      do 2 apply list_elem_of_further; apply list_elem_of_here. }
  split; [apply sleeps_of_grows, run_drc_6_0_sleeps |].
  split; [apply sleeps_of_grows, dismiss_already_running_sleeps |].
  split; [apply sleeps_of_grows, print_layers_sleeps |].
  intros timeout. apply sleeps_of_grows.
  unfold _wait_for_pcbnew_idle. unfold_primitives. preserve. apply idle_loop_sleeps.
Qed.

(** ** Opening the print dialog *)

(** C8 (amended).  [open_print_dialog] sends the keys and waits for the
    print dialog; if this first wait times out, it sends the keys a second
    time and waits again; a second time-out is not caught: the keys are sent
    twice at most. *)
Theorem open_print_dialog_retries_once (cfg : Config) (keys : list string) (w : world) :
  (∀ ids, a_wait (answers (w_tick w)) = Found ids →
     open_print_dialog cfg keys w =
     (Ok ids,
      after w ([Log INFO "Open File->Print"; WaitPoint] ++ opening_events keys) 1)) ∧
  (a_wait (answers (w_tick w)) = TimedOut →
   (∀ ids, a_wait (answers (S (w_tick w))) = Found ids →
      open_print_dialog cfg keys w =
      (Ok ids,
       after w ([Log INFO "Open File->Print"; WaitPoint] ++ opening_events keys ++
                [TimeOut; Log INFO "Open File->Print (retrying)"; WaitPoint] ++
                opening_events keys) 2)) ∧
   (a_wait (answers (S (w_tick w))) = TimedOut →
      open_print_dialog cfg keys w =
      (Raise RuntimeError,
       after w ([Log INFO "Open File->Print"; WaitPoint] ++ opening_events keys ++
                [TimeOut; Log INFO "Open File->Print (retrying)"; WaitPoint] ++
                opening_events keys ++ [TimeOut]) 2))).
Proof.
  destruct w as [fs tr tk]. unfold open_print_dialog, after, opening_events.
  unfold_primitives. unfold try_except. run_M.
  split; [intros ids H1 | intros H1]; rewrite H1; simpl.
  - rewrite <- ?app_assoc. reflexivity.
  - split; [intros ids H2 | intros H2]; rewrite H2; simpl;
      rewrite <- ?app_assoc; reflexivity.
Qed.

(** ** Starting the tool *)

Lemma start_attempt_gone (args : Args) (cfg : Config) (lvl : Z) (retry : nat) (w : world) :
  a_wait (answers (S (w_tick w))) = ProcessGone →
  is_Some (a_poll (answers (3 + w_tick w))) →
  start_attempt args cfg lvl retry w =
  (Ok {| lv_error_level := lvl; lv_do_retry := true;
         lv_cfg := set_pcbnew_pid cfg (a_pid (answers (w_tick w))) |},
   after w (failed_attempt_events args cfg retry) 4).
Proof.
  intros Hwait [code Hpoll]. destruct w as [fs tr tk]. simpl in *.
  unfold start_attempt, recorded_xvfb, PopenContext, with_context,
    wait_pcbew_start, try_except, after, failed_attempt_events.
  unfold_primitives. run_M. rewrite Hwait. simpl. rewrite Hpoll. simpl.
  rewrite <- ?app_assoc. reflexivity.
Qed.

(** A fatal error dialog at start-up ends the attempt, and with it the
    session, with [exit(PCBNEW_ERROR)]. *)
Lemma start_attempt_error_dialog (args : Args) (cfg : Config) (lvl : Z) (retry : nat)
    (w : world) (ids : list string) :
  a_wait (answers (S (w_tick w))) = Unexpected TITLE_ERROR →
  a_wait (answers (S (S (w_tick w)))) = Found ids →
  ∃ w', start_attempt args cfg lvl retry w = (Raise (SystemExit PCBNEW_ERROR), w').
Proof.
  intros Hwait Hdismiss. destruct w as [fs tr tk]. simpl in *.
  unfold start_attempt, recorded_xvfb, PopenContext, with_context,
    wait_pcbew_start, try_except, dismiss_error.
  unfold_primitives. run_M. rewrite Hwait. simpl.
  rewrite Hdismiss. simpl. eauto.
Qed.

(** The three attempts of a session in which each start attempt finds the
    process gone. *)
Lemma retry_loop_all_gone (args : Args) (cfg : Config) (lvl : Z) (w : world) :
  (∀ n, a_wait (answers n) = ProcessGone ∧ is_Some (a_poll (answers n))) →
  ∃ cfg',
    retry_loop args (seq 0 3)
      {| lv_error_level := lvl; lv_do_retry := false; lv_cfg := cfg |} w =
    (Ok {| lv_error_level := lvl; lv_do_retry := true; lv_cfg := cfg' |},
     after w (failed_attempt_events args cfg 0 ++
              [Log WARNING "Pcbnew failed to start retrying ..."] ++
              failed_attempt_events args cfg 1 ++
              [Log WARNING "Pcbnew failed to start retrying ..."] ++
              failed_attempt_events args cfg 2 ++
              [Log WARNING "Pcbnew failed to start retrying ..."]) 12) ∧
    input_file cfg' = input_file cfg ∧ save cfg' = save cfg ∧
    pcb_size cfg' = pcb_size cfg ∧ pcb_date cfg' = pcb_date cfg ∧
    kicad_version cfg' = kicad_version cfg.
Proof.
  intros Hgone.
  assert (Hattempt : ∀ c l r w0,
            start_attempt args c l r w0 =
            (Ok {| lv_error_level := l; lv_do_retry := true;
                   lv_cfg := set_pcbnew_pid c (a_pid (answers (w_tick w0))) |},
             after w0 (failed_attempt_events args c r) 4))
    by (intros; apply start_attempt_gone; apply Hgone).
  eexists. split.
  - simpl. unfold mbind at 1, M_bind. rewrite Hattempt. simpl.
    unfold log, emit. unfold mbind at 1, M_bind. simpl.
    unfold mbind at 1, M_bind. rewrite Hattempt. simpl.
    unfold mbind at 1, M_bind. simpl.
    unfold mbind at 1, M_bind. rewrite Hattempt. simpl.
    unfold mbind at 1, M_bind. simpl.
    unfold after, failed_attempt_events. simpl. rewrite <- ?app_assoc. simpl.
    reflexivity.
  - simpl. auto.
Qed.

Ltac unfold_files :=
  unfold getsize, getmtime, isfile, remove, rename, copy2, log.

Lemma restore_pcb_grows (P : event → Prop) (cfg : Config) :
  (∀ lvl msg, P (Log lvl msg)) →
  preserves (grows P false) (restore_pcb cfg).
Proof. intros HP. unfold restore_pcb. unfold_files. preserve. Qed.

Lemma app_self_nil {A} (l l' : list A) : l = l ++ l' → l' = [].
Proof.
  intros H. rewrite <- (app_nil_r l) in H at 1. apply app_inv_head in H. congruence.
Qed.

Lemma filter_none (f : event → bool) (evs : list event) :
  Forall (fun ev => f ev = false) evs → List.filter f evs = [].
Proof.
  induction 1 as [|ev evs Hev _ IH]; [reflexivity |].
  simpl. rewrite Hev. exact IH.
Qed.

(** The end of [main] once the retry loop is over with [do_retry] set. *)
Lemma main_all_gone (args : Args) (cfg : Config) (w : world) :
  gui_session args cfg →
  is_Some (w_fs w !! input_file cfg) →
  (∀ n, a_wait (answers n) = ProcessGone ∧ is_Some (a_poll (answers n))) →
  ∃ w', main args cfg w = (Raise (SystemExit PCBNEW_ERROR), w') ∧
        List.filter is_start_event (new_events w w') =
          [ XvfbStart 0; Popen [pcbnew cfg; input_file cfg];
            XvfbStart 1; Popen [pcbnew cfg; input_file cfg];
            XvfbStart 2; Popen [pcbnew cfg; input_file cfg] ].
Proof.
  intros Hgui [f Hf] Hgone.
  destruct (retry_loop_all_gone args cfg 0 w Hgone)
    as (cfg' & Hloop & Hin & Hsave & Hsize & Hdate & Hver).
  assert (Hbranch : bool_decide (command args = cmd_run_drc)
                    && (KICAD_VERSION_5_99 <=? kicad_version cfg) = false).
  { apply not_true_is_false. intros H. apply andb_prop in H as [Hc Hv].
    apply Hgui. split; [apply (bool_decide_eq_true_1 _ Hc) | apply Z.leb_le, Hv]. }
  unfold main. rewrite Hbranch.
  unfold mbind at 1, M_bind. rewrite Hloop. cbv beta iota. simpl lv_do_retry.
  simpl lv_cfg. cbv iota.
  set (w1 := after w _ 12).
  unfold mbind at 1, M_bind. unfold mbind at 1, M_bind. unfold log at 1, emit at 1.
  cbv beta iota. unfold mret at 1, M_ret. cbv beta iota.
  set (w2 := {| w_fs := w_fs w1; w_trace := _; w_tick := _ |}).
  rewrite bind_run.
  match goal with
  | |- context [match ?c w2 with _ => _ end] =>
      assert (Hrestore : ∃ logs fs',
                c w2 = (Ok tt, {| w_fs := fs'; w_trace := w_trace w2 ++ logs;
                                  w_tick := w_tick w2 |}) ∧
                Forall (fun ev => is_start_event ev = false) logs)
  end.
  { destruct (save cfg'); simpl.
    - exists [], (w_fs w2). rewrite app_nil_r. split; [reflexivity | constructor].
    - unfold mbind, M_bind, emit. cbv beta iota.
      set (w3 := {| w_fs := w_fs w2; w_trace := w_trace w2 ++ _; w_tick := _ |}).
      pose proof (restore_pcb_grows (fun ev => is_start_event ev = false) cfg'
                    ltac:(reflexivity) w3) as [(logs & Htr & Hlogs) Htk].
      assert (Hok : ∃ fs', restore_pcb cfg' w3 =
                      (Ok tt, {| w_fs := fs'; w_trace := w_trace w3 ++ logs;
                                 w_tick := w_tick w3 |})).
      { destruct (recorded_dec cfg') as [Hrec | Hrec].
        - assert (Hf3 : w_fs w3 !! input_file cfg' = Some f)
            by (rewrite Hin; exact Hf).
          destruct (restore_pcb_run cfg' w3 f Hrec Hf3) as (logs' & Hrun & _).
          rewrite Hrun in Htr. simpl in Htr. apply app_inv_head in Htr. subst logs'.
          eexists. exact Hrun.
        - rewrite restore_pcb_not_recorded in Htr |- * by assumption.
          apply app_self_nil in Htr. subst logs. rewrite app_nil_r.
          exists (w_fs w3). destruct w3; reflexivity. }
      destruct Hok as (fs' & Hok). rewrite Hok.
      exists (AtexitUnregister "restore_pcb" :: logs), fs'. split.
      + unfold w3. simpl. rewrite <- app_assoc. reflexivity.
      + constructor; [reflexivity | assumption]. }
  destruct Hrestore as (logs & fs' & Hrestore & Hlogs).
  rewrite Hrestore. cbv beta iota.
  unfold restore_config, restore_project. run_M.
  eexists. split; [reflexivity |].
  unfold new_events, w2, w1, after, failed_attempt_events. simpl.
  rewrite <- ?app_assoc. rewrite drop_app_length. simpl.
  rewrite List.filter_app, (filter_none _ _ Hlogs). reflexivity.
Qed.

(** A fatal error dialog at the first start attempt ends [main] with the
    same [PCBNEW_ERROR]. *)
Lemma main_error_dialog (args : Args) (cfg : Config) (w : world) (ids : list string) :
  gui_session args cfg →
  a_wait (answers (S (w_tick w))) = Unexpected TITLE_ERROR →
  a_wait (answers (S (S (w_tick w)))) = Found ids →
  ∃ w', main args cfg w = (Raise (SystemExit PCBNEW_ERROR), w').
Proof.
  intros Hgui Hwait Hdismiss.
  assert (Hbranch : bool_decide (command args = cmd_run_drc)
                    && (KICAD_VERSION_5_99 <=? kicad_version cfg) = false).
  { apply not_true_is_false. intros H. apply andb_prop in H as [Hc Hv].
    apply Hgui. split; [apply (bool_decide_eq_true_1 _ Hc) | apply Z.leb_le, Hv]. }
  destruct (start_attempt_error_dialog args cfg 0 0 w ids Hwait Hdismiss) as (w' & Hrun).
  exists w'. unfold main. rewrite Hbranch. rewrite bind_run.
  simpl retry_loop. rewrite bind_run. simpl lv_cfg. simpl lv_error_level.
  rewrite Hrun. reflexivity.
Qed.

(** ** A DRC run through the Python interface *)






(** * Further properties of the script *)

(** ** Memorizing, then restoring the design file *)

Lemma memorize_pcb_run (cfg : Config) (w : world) (f : file) :
  w_fs w !! input_file cfg = Some f →
  memorize_pcb cfg w =
  (Ok (set_pcb_memo cfg (size f) (f_mtime f)),
   {| w_fs := if KICAD_VERSION_5_99 <=? kicad_version cfg
              then <[bak cfg := f]> (w_fs w) else w_fs w;
      w_trace := w_trace w ++ [Log DEBUG "Current pcb ({}) size: {} date: {}";
                               AtexitRegister "restore_pcb"];
      w_tick := w_tick w |}).
Proof.
  intros Hf. destruct w as [fs tr tk]. simpl in Hf.
  unfold memorize_pcb, bak, size. run_M.
  destruct (KICAD_VERSION_5_99 <=? kicad_version cfg); simpl;
    repeat (rewrite Hf; simpl); rewrite <- ?app_assoc; reflexivity.
Qed.

(** X1.  With a tool of version 5.99 or later and a design file whose path
    is not empty, [memorize_pcb] followed by [restore_pcb] undoes what the
    session did to the design file, provided the modification time of the
    file is not negative (a date not before 1970): whether the file was left
    alone or rewritten with another date in between, it has its old content
    again afterwards, no back-up is left, and every other file is as
    before; a file that lay at the back-up path before the session is lost.
    With a negative modification time the guard of [restore_pcb] fails and it
    does nothing: the file stays as the session left it, and so does the
    back-up. *)
Theorem memorize_restore_round_trip (cfg : Config) (w : world) (f g : file) :
  nonempty (input_file cfg) = true →
  KICAD_VERSION_5_99 <= kicad_version cfg →
  w_fs w !! input_file cfg = Some f →
  g = f ∨ f_mtime g ≠ f_mtime f →
  ∃ cfg' w1 w2,
    memorize_pcb cfg w = (Ok cfg', w1) ∧
    w_fs w1 !! bak cfg = Some f ∧
    restore_pcb cfg' (rewritten w1 (input_file cfg) g) = (Ok tt, w2) ∧
    (0 <= f_mtime f → w_fs w2 = delete (bak cfg) (w_fs w)) ∧
    (f_mtime f < 0 → w2 = rewritten w1 (input_file cfg) g).
Proof.
  intros Hname Hver Hf Hg. pose proof (bak_ne cfg) as Hne.
  apply Z.leb_le in Hver.
  pose proof (memorize_pcb_run _ _ _ Hf) as Hmem. rewrite Hver in Hmem.
  set (cfg' := set_pcb_memo cfg (size f) (f_mtime f)) in *.
  match type of Hmem with _ = (_, ?w0) => set (w1 := w0) in * end.
  destruct (Z.le_gt_cases 0 (f_mtime f)) as [Hdate | Hdate].
  2: { assert (Hrec : ¬ recorded cfg').
       { intros (_ & _ & Hd). simpl in Hd. lia. }
       eexists cfg', w1, _. split; [exact Hmem |].
       split; [apply lookup_insert_eq |].
       split; [exact (restore_pcb_not_recorded cfg' _ Hrec) |].
       split; [intros; lia | reflexivity]. }
  assert (Hrec : recorded cfg').
  { repeat split; simpl; [assumption | unfold size; lia | assumption]. }
  assert (Hg1 : w_fs (rewritten w1 (input_file cfg) g) !! input_file cfg' = Some g)
    by apply lookup_insert_eq.
  destruct (restore_pcb_run cfg' _ g Hrec Hg1) as (logs & Hrun & _).
  eexists cfg', w1, _. split; [exact Hmem |].
  split; [apply lookup_insert_eq |].
  split; [exact Hrun |]. split; [intros _ | intros; lia]. simpl. simpl in Hg1.
  unfold restored_fs. change (kicad_version cfg') with (kicad_version cfg).
  change (bak cfg') with (bak cfg). change (input_file cfg') with (input_file cfg).
  change (pcb_date cfg') with (f_mtime f). change (pcb_size cfg') with (size f).
  rewrite Hg1, Hver.
  apply map_eq. intros p.
  destruct (decide (p = bak cfg)) as [-> | Hpb].
  { rewrite !lookup_delete_eq. reflexivity. }
  rewrite !lookup_delete_ne by congruence.
  destruct Hg as [-> | Hg].
  - rewrite bool_decide_eq_true_2 by reflexivity. simpl.
    destruct (decide (p = input_file cfg)) as [-> | Hpi].
    + rewrite lookup_insert_eq. congruence.
    + rewrite !lookup_insert_ne by congruence. reflexivity.
  - rewrite bool_decide_eq_false_2 by assumption. simpl.
    rewrite lookup_insert_ne by congruence. rewrite lookup_insert_eq.
    rewrite bool_decide_eq_true_2 by reflexivity.
    destruct (decide (p = input_file cfg)) as [-> | Hpi].
    + rewrite lookup_insert_eq. congruence.
    + rewrite lookup_insert_ne, !lookup_delete_ne, !lookup_insert_ne by congruence.
      reflexivity.
Qed.

(** X2.  [restore_pcb] fails in one case only: the session has recorded the
    size and date of the design file and the file is no longer there.  It
    then fails with the [OSError] of [os.path.getmtime] before it looks at
    the back-up, so that nothing is restored, removed or logged. *)
Theorem restore_pcb_fails_iff (cfg : Config) (w : world) (e : exn) :
  ((restore_pcb cfg w).1 = Raise e ↔
   recorded cfg ∧ w_fs w !! input_file cfg = None ∧ e = OSError (input_file cfg)) ∧
  ((restore_pcb cfg w).1 = Raise e → (restore_pcb cfg w).2 = w).
Proof.
  destruct (recorded_dec cfg) as [Hrec | Hrec].
  - destruct (w_fs w !! input_file cfg) as [f |] eqn:Hf.
    + destruct (restore_pcb_run cfg w f Hrec Hf) as (logs & -> & _). simpl.
      split; [split |]; [discriminate | intros (_ & ? & _); discriminate | discriminate].
    + rewrite restore_pcb_no_file by assumption. simpl.
      split; [split |]; [intros [= <-]; auto | intros (_ & _ & ->); reflexivity | reflexivity].
  - rewrite restore_pcb_not_recorded by assumption. simpl.
    split; [split |]; [discriminate | intros (? & _); contradiction | discriminate].
Qed.

(** ** The sections of a report *)

Lemma parse_drc_loop_prefix (rx : string → option (string * string))
    (st : parse_state) (lines : list string) :
  parse_drc_loop rx st lines = flow_state (parse_drc_prefix rx st lines).
Proof.
  revert st. induction lines as [|line lines IH]; intros st; simpl; [reflexivity |].
  destruct (parse_drc_line rx st line); [apply IH | reflexivity].
Qed.

Lemma end_of_report_no_header (line : string) :
  re_end_of_report line = true →
  re_found_errors line = None ∧ re_found_unconnected line = None.
Proof.
  unfold re_end_of_report.
  destruct (strip_prefix "** End of Report **" line) as [rest |] eqn:Hp; [| discriminate].
  intros _. apply strip_prefix_Some in Hp as ->. split; reflexivity.
Qed.

(** Two ways of cutting a string into a run of characters satisfying [P]
    and a rest that does not start with such a character are the same. *)
Lemma run_unique (P : ascii → bool) (ds ds' e e' : string) :
  ds +:+ e = ds' +:+ e' →
  all_chars P ds = true → all_chars P ds' = true →
  (∀ c r, e = String c r → P c = false) →
  (∀ c r, e' = String c r → P c = false) →
  e ≠ EmptyString → e' ≠ EmptyString →
  ds = ds' ∧ e = e'.
Proof.
  revert ds'. induction ds as [|c ds IH]; intros [|c' ds'] Heq Hds Hds' He He' Hn Hn'.
  - auto.
  - rewrite append_empty_l, append_cons in Heq. simpl in Hds'.
    apply andb_prop in Hds' as [Hc' _]. rewrite (He c' _ Heq) in Hc'. discriminate.
  - rewrite append_empty_l, append_cons in Heq. simpl in Hds.
    apply andb_prop in Hds as [Hc _]. rewrite (He' c _ (eq_sym Heq)) in Hc. discriminate.
  - rewrite !append_cons in Heq. injection Heq as <- Heq. simpl in Hds, Hds'.
    apply andb_prop in Hds as [_ Hds]. apply andb_prop in Hds' as [_ Hds'].
    destruct (IH ds' Heq Hds Hds' He He' Hn Hn') as [-> ->]. auto.
Qed.

(** A header of the unconnected pads is no header of the errors. *)
Lemma unconnected_header_no_errors_header (line m : string) :
  re_found_unconnected line = Some m → re_found_errors line = None.
Proof.
  unfold re_found_unconnected, re_found_errors.
  destruct (strip_prefix "** Found " line) as [rest |]; [| discriminate].
  cbn [mbind option_bind].
  intros Hu. apply plus_then_Some in Hu as (ds & e & -> & Hne & Hds & Hk).
  destruct (strip_prefix " unconnected pads **" e) as [e1 |] eqn:He;
    [| discriminate].
  apply strip_prefix_Some in He as ->.
  match goal with |- ?lhs = None => destruct lhs as [r |] eqn:Hr; [| reflexivity] end.
  exfalso. apply plus_then_Some in Hr as (ds' & e' & Heq & Hne' & Hds' & Hk').
  destruct (strip_prefix " DRC " e') as [e2 |] eqn:He'; [| discriminate].
  apply strip_prefix_Some in He' as ->.
  destruct (run_unique is_digit _ _ _ _ Heq Hds Hds') as [_ Habs];
    try (rewrite append_cons; discriminate);
    try (intros c r0 H; rewrite append_cons in H; injection H as <- _; reflexivity).
  rewrite !append_cons in Habs. discriminate.
Qed.

(** What a round of the loop does with a line of a section. *)
Lemma parse_drc_line_section (rx : string → option (string * string))
    (st : parse_state) (line : string) :
  section_line line →
  parse_drc_line rx st line =
    Continue
      (if in_errs st && negb (in_wrns st) then
         set_st_errs st (collect_line rx (st_errs st) line)
       else if negb (in_errs st) && in_wrns st then
         set_st_wrns st (collect_line rx (st_wrns st) line)
       else if negb (in_errs st) && negb (in_wrns st) then st
       else flow_state (parse_drc_line rx st line)).
Proof.
  intros (H1 & H2 & H3). unfold parse_drc_line, parse_drc_in_wrns, collect_line.
  rewrite H1, H2, H3. destruct st as [de up ie iw se sw]. simpl.
  destruct ie, iw; simpl; destruct (rx line); simpl;
    repeat match goal with |- context [if ?b then _ else _] => destruct b; simpl end;
    reflexivity.
Qed.

Lemma parse_drc_prefix_section (rx : string → option (string * string))
    (lines : list string) (de up : option string) (ie iw : bool) (se sw : list string) :
  Forall section_line lines →
  ie && iw = false →
  parse_drc_prefix rx
    {| drc_errors := de; unconnected_pads := up; in_errs := ie; in_wrns := iw;
       st_errs := se; st_wrns := sw |} lines =
  Continue
    {| drc_errors := de; unconnected_pads := up; in_errs := ie; in_wrns := iw;
       st_errs := if ie then collect rx se lines else se;
       st_wrns := if iw then collect rx sw lines else sw |}.
Proof.
  intros Hall Hsec. revert se sw.
  induction Hall as [|line lines Hline _ IH]; intros se sw; simpl.
  - destruct ie, iw; reflexivity.
  - rewrite (parse_drc_line_section rx _ line Hline). simpl.
    destruct ie, iw; try discriminate; unfold set_st_errs, set_st_wrns; simpl;
      rewrite IH; reflexivity.
Qed.

(** X3.  [parse_drc] on a report with its sections in their usual order:
    lines that are no marker lines, the header of the errors, the lines of
    the errors, the header of the unconnected pads, the lines that follow it,
    and then the end of the report or the end of the file.  The two counts
    are the numbers of the two headers, whatever the number of records; the
    lines before the first header are dropped; the records after the first
    header go to [cfg.errs] and the records after the second to [cfg.wrns],
    both after what these lists held before; nothing after the end marker
    is read; the world is not changed. *)
Theorem parse_drc_sections (cfg : Config) (w : world) (f : file)
    (pre sec_e sec_u post : list string) (hdr_e hdr_u n m : string) :
  w_fs w !! output_file cfg = Some f →
  splitlines (f_data f) = pre ++ hdr_e :: sec_e ++ hdr_u :: sec_u ++ post →
  Forall section_line pre → Forall section_line sec_e → Forall section_line sec_u →
  re_found_errors hdr_e = Some n →
  re_found_unconnected hdr_u = Some m →
  (post = [] ∨ ∃ eor rest, post = eor :: rest ∧ re_end_of_report eor = true) →
  parse_drc cfg w =
    (Ok (int_of_digits n, int_of_digits m,
         set_wrns (set_errs cfg (collect (err_regex cfg) (errs cfg) sec_e))
                  (collect (err_regex cfg) (wrns cfg) sec_u)), w).
Proof.
  intros Hf Hlines Hpre Hsec_e Hsec_u He Hu Hpost.
  pose proof (unconnected_header_no_errors_header _ _ Hu) as Hue.
  unfold parse_drc, read_lines. run_M. rewrite Hf. simpl. rewrite Hlines.
  set (rx := err_regex cfg).
  assert (Hloop : parse_drc_loop rx (parse_drc_start cfg)
                    (pre ++ hdr_e :: sec_e ++ hdr_u :: sec_u ++ post) =
                  {| drc_errors := Some n; unconnected_pads := Some m;
                     in_errs := false; in_wrns := true;
                     st_errs := collect rx (errs cfg) sec_e;
                     st_wrns := collect rx (wrns cfg) sec_u |}).
  { rewrite parse_drc_loop_app. unfold parse_drc_start.
    rewrite (parse_drc_prefix_section rx pre) by (assumption || reflexivity).
    simpl. unfold parse_drc_line at 1. rewrite He. simpl.
    rewrite parse_drc_loop_app.
    rewrite (parse_drc_prefix_section rx sec_e) by (assumption || reflexivity).
    simpl. unfold parse_drc_line at 1. rewrite Hue, Hu. simpl.
    rewrite parse_drc_loop_app.
    rewrite (parse_drc_prefix_section rx sec_u) by (assumption || reflexivity).
    destruct Hpost as [-> | (eor & rest & -> & Heor)]; simpl; [reflexivity |].
    destruct (end_of_report_no_header _ Heor) as [H1 H2].
    unfold parse_drc_line. rewrite H1, H2, Heor. reflexivity. }
  rewrite Hloop. simpl. destruct w; reflexivity.
Qed.

(** X4.  [parse_drc] reads nothing after the line that ends the report:
    two reports that agree up to that line give the same result, and so does
    the report cut before that line. *)
Theorem parse_drc_stops_at_end (cfg : Config) (w : world) (f f' : file)
    (pre post : list string) (eor : string) :
  splitlines (f_data f) = pre ++ eor :: post →
  splitlines (f_data f') = pre →
  re_end_of_report eor = true →
  (parse_drc cfg (rewritten w (output_file cfg) f)).1 =
  (parse_drc cfg (rewritten w (output_file cfg) f')).1.
Proof.
  intros Hf Hf' Heor.
  assert (Hloop : ∀ st, parse_drc_loop (err_regex cfg) st (pre ++ eor :: post) =
                        parse_drc_loop (err_regex cfg) st pre).
  { intros st. rewrite parse_drc_loop_app, (parse_drc_loop_prefix _ st pre).
    destruct (parse_drc_prefix (err_regex cfg) st pre) as [st' | st']; [| reflexivity].
    destruct (end_of_report_no_header _ Heor) as [H1 H2].
    simpl. unfold parse_drc_line. rewrite H1, H2, Heor. reflexivity. }
  unfold parse_drc, read_lines, rewritten. run_M.
  rewrite !lookup_insert_eq. simpl. rewrite Hf, Hf', Hloop.
  destruct (drc_errors _); simpl; [| reflexivity].
  destruct (unconnected_pads _); reflexivity.
Qed.

(** ** The layers of a print *)

Lemma mark_layers_accepts (layer_cnt : Z) (brd : Board) (todo : list string)
    (used : gset Z) (w : world) :
  Forall (fun layer => is_Some (layer_number layer_cnt brd layer)) todo →
  mark_layers layer_cnt brd todo used w =
  (Ok (list_to_set (omap (layer_number layer_cnt brd) todo) ∪ used), w).
Proof.
  intros Hall. revert used.
  induction Hall as [|layer todo [n Hn] _ IH]; intros used.
  - assert (Hset : list_to_set (omap (layer_number layer_cnt brd) []) ∪ used = used)
      by apply (left_id_L ∅ (∪)).
    rewrite Hset. reflexivity.
  - assert (Hset : list_to_set (omap (layer_number layer_cnt brd) (layer :: todo)) ∪ used =
                   list_to_set (omap (layer_number layer_cnt brd) todo) ∪ ({[n]} ∪ used)).
    { simpl. rewrite Hn, list_to_set_cons.
      rewrite (comm_L (∪) {[n]}), <- (assoc_L (∪)). reflexivity. }
    rewrite Hset. simpl. unfold layer_number in Hn.
    destruct (startswith layer "Inner").
    + destruct (re_inner layer) as [g1 |]; [| discriminate]. simpl in Hn.
      destruct ((int_of_digits g1 <? 1) || (layer_cnt - 1 <=? int_of_digits g1));
        [discriminate |].
      injection Hn as <-. apply IH.
    + simpl in Hn. destruct (GetLayerID brd layer <? 0); [discriminate |].
      injection Hn as <-. apply IH.
Qed.

Lemma mark_layers_rejects (layer_cnt : Z) (brd : Board) (good rest : list string)
    (bad : string) (used : gset Z) (w : world) :
  Forall (fun layer => is_Some (layer_number layer_cnt brd layer)) good →
  layer_number layer_cnt brd bad = None →
  ∃ msg, mark_layers layer_cnt brd (good ++ bad :: rest) used w =
         (Raise (SystemExit WRONG_LAYER_NAME), after w [Log ERROR msg] 0).
Proof.
  intros Hall Hbad. revert used.
  induction Hall as [|layer good [n Hn] _ IH]; intros used; simpl.
  - unfold layer_number in Hbad. destruct w as [fs tr tk].
    destruct (startswith bad "Inner").
    + destruct (re_inner bad) as [g1 |]; simpl in Hbad; [| run_M; eauto].
      destruct ((int_of_digits g1 <? 1) || (layer_cnt - 1 <=? int_of_digits g1));
        [run_M; eauto | discriminate].
    + simpl in Hbad. destruct (GetLayerID brd bad <? 0); [run_M; eauto | discriminate].
  - unfold layer_number in Hn.
    destruct (startswith layer "Inner").
    + destruct (re_inner layer) as [g1 |]; [| discriminate]. simpl in Hn.
      destruct ((int_of_digits g1 <? 1) || (layer_cnt - 1 <=? int_of_digits g1));
        [discriminate | apply IH].
    + simpl in Hn. destruct (GetLayerID brd layer <? 0); [discriminate | apply IH].
Qed.

(** X5.  [create_pcbnew_config] decides on the requested layers before it
    opens the configuration file.  Its loop over [cfg.layers] either accepts
    every name (["Inner.N"] with [N] an inner copper layer, or a name the
    board knows): it then logs nothing, changes nothing and hands the set of
    the numbers of the layers, whatever their order or repetition, to the
    part that writes the file.  Or it logs one error, for the first name that
    is not accepted, and exits with [WRONG_LAYER_NAME]: [create_pcbnew_config]
    then ends there, before the file is opened.  What the part that writes
    the file does is not covered. *)
Theorem layers_decided_before_config (cfg : Config) (w : world) :
  let layer_cnt := GetCopperLayerCount (board cfg) in
  let number := layer_number layer_cnt (board cfg) in
  (Forall (fun layer => is_Some (number layer)) (layers cfg) →
   mark_layers layer_cnt (board cfg) (layers cfg) ∅ w =
     (Ok (list_to_set (omap number (layers cfg))), w)) ∧
  (∀ good bad rest,
     layers cfg = good ++ bad :: rest →
     Forall (fun layer => is_Some (number layer)) good →
     number bad = None →
     ∃ msg,
       mark_layers layer_cnt (board cfg) (layers cfg) ∅ w =
         (Raise (SystemExit WRONG_LAYER_NAME), after w [Log ERROR msg] 0) ∧
       create_pcbnew_config cfg w =
         (Raise (SystemExit WRONG_LAYER_NAME), after w [Log ERROR msg] 0)).
Proof.
  intros layer_cnt number. split.
  - intros Hall. rewrite (mark_layers_accepts _ _ _ _ _ Hall).
    assert (Hset : list_to_set (omap number (layers cfg)) ∪ ∅ =@{gset Z}
                   list_to_set (omap number (layers cfg))) by apply (right_id_L ∅ (∪)).
    fold number. rewrite Hset. reflexivity.
  - intros good bad rest Hlayers Hgood Hbad. unfold create_pcbnew_config.
    rewrite bind_run, Hlayers. fold layer_cnt.
    destruct (mark_layers_rejects _ _ good rest bad ∅ w Hgood Hbad) as (msg & Hrun).
    exists msg. rewrite Hrun. split; reflexivity.
Qed.

(** ** Waiting for the main window, and leaving the tool *)

(** X6.  [wait_pcbew_start] ends in one of three ways: it returns, it exits
    with [PCBNEW_ERROR] right after an error record, or it lets the
    [RuntimeError] of a dialog that could not be dismissed through.  A
    process that is gone is no error here: the call returns and leaves it to
    its caller to look at the process.  An error dialog never lets the call
    return. *)
Theorem wait_pcbew_start_outcomes (args : Args) (cfg : Config) (w : world) :
  let r := wait_pcbew_start args cfg w in
  (∀ e, r.1 = Raise e →
        e = RuntimeError ∨
        (e = SystemExit PCBNEW_ERROR ∧ ∃ msg, last (w_trace r.2) = Some (Log ERROR msg))) ∧
  (a_wait (answers (w_tick w)) = ProcessGone → r.1 = Ok tt) ∧
  (a_wait (answers (w_tick w)) = Unexpected TITLE_ERROR →
   r.1 = Raise RuntimeError ∨ r.1 = Raise (SystemExit PCBNEW_ERROR)).
Proof.
  destruct w as [fs tr tk].
  unfold wait_pcbew_start, try_except, dismiss_error, dismiss_already_running,
    dismiss_warning.
  unfold_primitives. run_M.
  repeat match goal with
         | |- context [match a_wait (answers ?n) with _ => _ end] =>
             destruct (a_wait (answers n)) eqn:?; simpl
         | |- context [bool_decide ?P] => destruct (bool_decide P) eqn:?; simpl
         end.
  all: repeat split; try discriminate; try reflexivity.
  all: try (intros e [= <-];
            first [left; reflexivity
                  | right; split; [reflexivity |]; rewrite last_snoc; eauto]).
  all: intros [= ->]; auto.
  all: match goal with
       | H : bool_decide _ = false |- _ => vm_compute in H; discriminate H
       end.
Qed.

(** X7.  Once the main window is found, [exit_pcbnew] cannot fail: whether
    or not the window gives up the focus, the keys to quit are sent twice,
    the second time after a Return that dismisses a dialog, three questions
    are asked of the windowing system and no file is touched.  When the main
    window is not found in time, no key is sent at all. *)
Theorem exit_pcbnew_sends_both (cfg : Config) (w : world) :
  (∀ id0 ids, a_wait (answers (w_tick w)) = Found (id0 :: ids) →
     ∃ w', exit_pcbnew cfg w = (Ok tt, w') ∧
           w_fs w' = w_fs w ∧ w_tick w' = (3 + w_tick w)%nat ∧
           keys_sent (new_events w w') =
             [["key"; "ctrl+q"]; ["key"; "Return"; "ctrl+q"]]) ∧
  (a_wait (answers (w_tick w)) = TimedOut →
     ∃ w', exit_pcbnew cfg w = (Raise RuntimeError, w') ∧
           keys_sent (new_events w w') = []).
Proof.
  destruct w as [fs tr tk]. unfold exit_pcbnew, try_except, new_events.
  unfold_primitives. run_M. split.
  - intros id0 ids ->. simpl.
    destruct (a_focus_lost (answers (S tk))); simpl;
      destruct (a_focus_lost (answers (S (S tk)))); simpl;
      (eexists; split; [reflexivity |]); simpl;
      rewrite <- ?app_assoc, drop_app_length; auto.
  - intros ->. simpl. eexists. split; [reflexivity |]. simpl.
    rewrite <- ?app_assoc, drop_app_length. reflexivity.
Qed.

(** ** Waiting for the tool to become idle *)

Lemma new_events_step (w w1 w' : world) (pre : list event) :
  w_trace w1 = w_trace w ++ pre →
  (∃ evs, w_trace w' = w_trace w1 ++ evs) →
  new_events w w' = pre ++ new_events w1 w'.
Proof.
  intros H1 [evs H']. unfold new_events.
  rewrite H', drop_app_length, H1, <- app_assoc, drop_app_length. reflexivity.
Qed.

Lemma idle_loop_result (render_proc : bool) (todo : nat) (finished : Z)
    (w w' : world) (b : bool) :
  0 <= finished →
  idle_loop render_proc todo finished w = (Ok b, w') →
  if b then
    ∃ k : nat, (1 ≤ k ≤ todo)%nat ∧ w_tick w' = (k + w_tick w)%nat ∧
      4 - finished <= Z.of_nat k ∧
      (∀ i : nat, (i < k)%nat → (k ≤ 4 + i)%nat → idle (i + w_tick w)) ∧
      sleeps (new_events w w') = replicate k half_a_second
  else
    w_tick w' = (todo + w_tick w)%nat ∧
    sleeps (new_events w w') = replicate todo half_a_second.
Proof.
  revert finished w. induction todo as [|todo IH]; intros finished w Hpos; simpl.
  - intros [= <- <-]. unfold new_events. rewrite drop_all. auto.
  - destruct w as [fs tr tk]. unfold_primitives. run_M.
    destruct render_proc; simpl; [| discriminate].
    set (w0 := {| w_fs := fs; w_trace := tr; w_tick := tk |}).
    set (w1 := {| w_fs := fs; w_trace := _; w_tick := S tk |}).
    assert (Hev : ∀ fin, sleeps (new_events w0 (idle_loop true todo fin w1).2) =
                         half_a_second :: sleeps (new_events w1 (idle_loop true todo fin w1).2)).
    { intros fin.
      rewrite (new_events_step w0 w1 _ [Sleep half_a_second; CpuPercent;
                                        Print "Rendering... (CPU load {}%)"]).
      - reflexivity.
      - unfold w1, w0. simpl. rewrite <- !app_assoc. reflexivity.
      - destruct (idle_loop_sleeps true todo fin w1) as [(evs & Hevs & _) _]. eauto. }
    assert (Hrec : ∀ fin, 0 <= fin → idle_loop true todo fin w1 = (Ok b, w') →
              (if b then
                 ∃ k : nat, (1 ≤ k ≤ S todo)%nat ∧ w_tick w' = (k + tk)%nat ∧
                   4 - fin + 1 <= Z.of_nat k ∧
                   (∀ i : nat, (1 ≤ i < k)%nat → (k ≤ 4 + i)%nat → idle (i + tk)) ∧
                   sleeps (new_events w0 w') = replicate k half_a_second
               else
                 w_tick w' = S (todo + tk) ∧
                 sleeps (new_events w0 w') = half_a_second :: replicate todo half_a_second)).
    { intros fin Hfin0 Hrun. specialize (Hev fin). rewrite Hrun in Hev. simpl in Hev.
      specialize (IH _ _ Hfin0 Hrun). destruct b.
      - destruct IH as (k & Hk & Htk & Hfin & Hidle & Hsl).
        exists (S k). simpl in Htk. repeat split; try lia.
        + intros [|i] Hi Hki; [lia |].
          replace (S i + tk)%nat with (i + S tk)%nat by lia. apply Hidle; lia.
        + rewrite Hev, Hsl. reflexivity.
      - destruct IH as (Htk & Hsl). simpl in Htk. split; [lia |].
        rewrite Hev, Hsl. reflexivity. }
    case_bool_decide as Hbusy; simpl.
    + intros Hrun. specialize (Hrec 0 ltac:(lia) Hrun). destruct b; [| exact Hrec].
      destruct Hrec as (k & Hk & Htk & Hfin & Hidle & Hsl).
      exists k. repeat split; try lia; [| exact Hsl].
      intros [|i] Hi Hki; [lia | apply Hidle; lia].
    + destruct (Z.leb_spec 4 (finished + 1)) as [Hfin | Hfin].
      * intros [= <- <-]. exists 1%nat. repeat split; try lia.
        -- intros [|i] Hi _; [exact Hbusy | lia].
        -- unfold new_events, w1, w0. simpl. rewrite <- !app_assoc, drop_app_length.
           reflexivity.
      * intros Hrun. specialize (Hrec (finished + 1) ltac:(lia) Hrun).
        destruct b; [| exact Hrec].
        destruct Hrec as (k & Hk & Htk & Hfin' & Hidle & Hsl).
        exists k. repeat split; try lia; [| exact Hsl].
        intros [|i] Hi Hki; [exact Hbusy | apply Hidle; lia].
Qed.

(** X8.  [_wait_for_pcbnew_idle] samples the load of the processor every
    half second, [2*timeout] times at most.  It answers [True] as soon as
    four samples in a row were at 5 per cent or less, so after 2 seconds at
    the earliest; it answers [False] when all the samples are used up, after
    [timeout] seconds. *)
Theorem wait_for_pcbnew_idle_result (timeout : Z) (w w' : world) (b : bool) :
  _wait_for_pcbnew_idle timeout w = (Ok b, w') →
  if b then
    ∃ k : nat, (4 ≤ k ≤ Z.to_nat (2 * timeout))%nat ∧
      w_tick w' = (k + S (w_tick w))%nat ∧
      (∀ i : nat, (i < k)%nat → (k ≤ 4 + i)%nat → idle (i + S (w_tick w))) ∧
      sleeps (new_events w w') = replicate k half_a_second
  else
    w_tick w' = (Z.to_nat (2 * timeout) + S (w_tick w))%nat ∧
    sleeps (new_events w w') = replicate (Z.to_nat (2 * timeout)) half_a_second.
Proof.
  destruct w as [fs tr tk]. unfold _wait_for_pcbnew_idle, _find_proc. run_M.
  intros Hrun. apply idle_loop_result in Hrun; [| lia]. unfold new_events in *. simpl in *.
  destruct b.
  - destruct Hrun as (k & Hk & Htk & Hfin & Hidle & Hsl).
    exists k. repeat split; try lia; assumption.
  - exact Hrun.
Qed.

(** X9.  [_wait_for_pcbnew_idle] looks for a process named [pcbnew] and
    does not check that it found one: when there is none, the first sample
    fails with [AttributeError], after one sleep of half a second; with a
    time-out of 0 or less no sample is taken and the answer is [False]. *)
Theorem wait_for_pcbnew_idle_no_process (timeout : Z) (w : world) :
  a_proc_found (answers (w_tick w)) = false →
  (0 < timeout →
   _wait_for_pcbnew_idle timeout w =
     (Raise AttributeError, after w [Sleep half_a_second] 1)) ∧
  (timeout <= 0 → _wait_for_pcbnew_idle timeout w = (Ok false, after w [] 1)).
Proof.
  intros Hnone. destruct w as [fs tr tk]. simpl in Hnone.
  unfold _wait_for_pcbnew_idle, _find_proc, after. run_M. rewrite Hnone. split.
  - intros Hpos. destruct (Z.to_nat (2 * timeout)) as [|todo] eqn:Htodo; [lia |].
    simpl. unfold_primitives. run_M. reflexivity.
  - intros Hneg. replace (Z.to_nat (2 * timeout)) with 0%nat by lia.
    simpl. rewrite app_nil_r. reflexivity.
Qed.


(** ** What the steps of the work flows keep *)

Ltac step Q asks known :=
  first
    [ known
    | lazymatch goal with
      | |- preserves _ (mret _) => apply preserves_ret; apply (qs_refl _ _ Q)
      | |- preserves _ (raise _) => apply preserves_raise; apply (qs_refl _ _ Q)
      | |- preserves _ get_fs => apply preserves_get_fs; apply (qs_refl _ _ Q)
      | |- preserves _ ask => asks
      | |- preserves _ (emit _) => apply (qs_emit _ _ Q); reflexivity
      | |- preserves _ (tool_writes _) => apply (qs_tool_writes _ _ Q); assumption
      | |- preserves _ (rename _ _) => apply (qs_rename _ _ Q); assumption
      | |- preserves _ (_ ≫= _) =>
          apply preserves_bind; [apply (qs_trans _ _ Q) | | intros; cbv beta]
      | |- preserves _ (try_except _ _) =>
          apply preserves_try_except; [apply (qs_trans _ _ Q) | | intros [] ? [= <-]]
      | |- preserves _ (if ?b then _ else _) => destruct b
      | |- preserves _ (match ?x with _ => _ end) => destruct x
      end ].

Ltac unfold_steps :=
  unfold wait_pcbnew, xdotool, text_replace, wait_point, sleep, print, log, item, poll,
    _find_proc.

Section Quiet.

Variable R : world → world → Prop.
Variable ok : string → Prop.
Hypothesis Q : quiet_steps R ok.

Ltac quiet known := repeat step Q ltac:(fail) known.

Lemma log_all_steps (lvl : level) (msgs : list string) : preserves R (log_all lvl msgs).
Proof.
  induction msgs as [|msg msgs IH]; simpl; unfold log;
    quiet ltac:(idtac; lazymatch goal with
                | |- preserves _ (log_all _ _) => apply IH
                end).
Qed.

Lemma process_drc_out_steps (args : Args) (cfg : Config) :
  preserves R (process_drc_out args cfg).
Proof.
  unfold process_drc_out, parse_drc, read_lines, int. unfold_steps.
  quiet ltac:(idtac; lazymatch goal with
              | |- preserves _ (log_all _ _) => apply log_all_steps
              end).
Qed.

Lemma run_drc_python_steps (cfg : Config) :
  ok (output_file cfg) → ok (input_file cfg) → ok (bak cfg) →
  preserves R (run_drc_python cfg).
Proof.
  intros Hout Hin Hbak. unfold bak in Hbak. unfold run_drc_python. unfold_steps.
  quiet ltac:(fail).
Qed.

End Quiet.

Section Steps.

Variable R : world → world → Prop.
Variable ok : string → Prop.
Hypothesis S : steps R ok.

Ltac go known :=
  repeat step (st_quiet R ok S) ltac:(apply (st_ask R ok S)) known.

Lemma wait_for_window_steps (label title : string) (timeout : option Z)
    (others : list string) (popen_obj : bool) :
  preserves R (wait_for_window label title timeout others popen_obj).
Proof. unfold wait_for_window. go ltac:(fail). Qed.

Lemma wait_not_focused_steps (id : string) (timeout : option Z) :
  preserves R (wait_not_focused id timeout).
Proof. unfold wait_not_focused. go ltac:(fail). Qed.

Lemma wait_for_file_steps (pid : Z) (path : string) :
  ok path → preserves R (wait_for_file_created_by_process pid path).
Proof. intros Hpath. unfold wait_for_file_created_by_process. go ltac:(fail). Qed.

Ltac waits :=
  idtac;
  lazymatch goal with
  | |- preserves _ (wait_for_window _ _ _ _ _) => apply wait_for_window_steps
  | |- preserves _ (wait_not_focused _ _) => apply wait_not_focused_steps
  | |- preserves _ (wait_for_file_created_by_process _ _) =>
      apply wait_for_file_steps; assumption
  end.

Lemma wait_pcbew_start_steps (args : Args) (cfg : Config) :
  preserves R (wait_pcbew_start args cfg).
Proof.
  unfold wait_pcbew_start, dismiss_error, dismiss_already_running, dismiss_warning.
  unfold_steps. go waits.
Qed.

Lemma exit_pcbnew_steps (cfg : Config) : preserves R (exit_pcbnew cfg).
Proof. unfold exit_pcbnew. unfold_steps. go waits. Qed.

Lemma open_print_dialog_steps (cfg : Config) (keys : list string) :
  preserves R (open_print_dialog cfg keys).
Proof. unfold open_print_dialog. unfold_steps. go waits. Qed.

Lemma print_layers_steps (cfg : Config) :
  ok (output_file cfg) → preserves R (print_layers cfg).
Proof.
  intros Hout. unfold print_layers. unfold_steps.
  go ltac:(idtac; lazymatch goal with
           | |- preserves _ (exit_pcbnew _) => apply exit_pcbnew_steps
           | |- preserves _ (open_print_dialog _ _) => apply open_print_dialog_steps
           | |- preserves _ (wait_for_window _ _ _ _ _) => apply wait_for_window_steps
           | |- preserves _ (wait_not_focused _ _) => apply wait_not_focused_steps
           | |- preserves _ (wait_for_file_created_by_process _ _) =>
               apply wait_for_file_steps; assumption
           end).
Qed.

Lemma open_3d_view_steps (cfg : Config) : preserves R (open_3d_view cfg).
Proof. unfold open_3d_view. unfold_steps. go waits. Qed.

Lemma idle_loop_steps (render_proc : bool) (todo : nat) (finished : Z) :
  preserves R (idle_loop render_proc todo finished).
Proof.
  revert finished. induction todo as [|todo IH]; intros finished; simpl;
    unfold_steps;
    go ltac:(idtac; lazymatch goal with
             | |- preserves _ (idle_loop _ _ _) => apply IH
             end).
Qed.

Lemma wait_for_pcbnew_idle_steps (timeout : Z) :
  preserves R (_wait_for_pcbnew_idle timeout).
Proof.
  unfold _wait_for_pcbnew_idle. unfold_steps.
  go ltac:(idtac; lazymatch goal with
           | |- preserves _ (idle_loop _ _ _) => apply idle_loop_steps
           end).
Qed.

Lemma render_3d_steps (cfg : Config) :
  ok (output_file cfg) → preserves R (render_3d cfg).
Proof.
  intros Hout. unfold render_3d. unfold_steps.
  go ltac:(idtac; lazymatch goal with
           | |- preserves _ (open_3d_view _) => apply open_3d_view_steps
           | |- preserves _ (_wait_for_pcbnew_idle _) => apply wait_for_pcbnew_idle_steps
           | |- preserves _ (wait_for_window _ _ _ _ _) => apply wait_for_window_steps
           | |- preserves _ (wait_not_focused _ _) => apply wait_not_focused_steps
           | |- preserves _ (wait_for_file_created_by_process _ _) =>
               apply wait_for_file_steps; assumption
           end).
Qed.

Lemma run_drc_steps (cfg : Config) :
  ok (output_file cfg) → ok (input_file cfg) → ok (bak cfg) →
  preserves R (run_drc cfg).
Proof.
  intros Hout Hin Hbak. unfold bak in Hbak.
  unfold run_drc, run_drc_5_1, run_drc_6_0. unfold_steps.
  go ltac:(idtac; lazymatch goal with
           | |- preserves _ (exit_pcbnew _) => apply exit_pcbnew_steps
           | |- preserves _ (wait_for_window _ _ _ _ _) => apply wait_for_window_steps
           | |- preserves _ (wait_not_focused _ _) => apply wait_not_focused_steps
           | |- preserves _ (wait_for_file_created_by_process _ _) =>
               apply wait_for_file_steps; assumption
           end).
Qed.

End Steps.

(** The two relations of the properties below. *)
Lemma grows_quiet_steps (P : event → Prop) (b : bool) :
  (∀ ev, is_session_event ev = false → P ev) →
  quiet_steps (grows P b) (fun _ => True).
Proof.
  intros HP. split.
  - apply grows_refl.
  - apply grows_trans.
  - intros ev Hev. apply grows_emit, HP, Hev.
  - intros p _. unfold tool_writes.
    apply preserves_bind; [apply grows_trans | | intros; apply grows_put_fs].
    apply preserves_get_fs, grows_refl.
  - intros a b' _ _. unfold rename.
    apply preserves_bind; [apply grows_trans | | intros fs; destruct (fs !! a)].
    + apply preserves_get_fs, grows_refl.
    + apply grows_put_fs.
    + apply preserves_raise, grows_refl.
Qed.

Lemma grows_steps (P : event → Prop) :
  (∀ ev, is_session_event ev = false → P ev) → steps (grows P true) (fun _ => True).
Proof. intros HP. split; [apply grows_quiet_steps, HP | apply grows_ask]. Qed.

Lemma touches_only_refl (paths : list string) (w : world) : touches_only paths w w.
Proof. intros p _. reflexivity. Qed.

Lemma touches_only_trans (paths : list string) (w1 w2 w3 : world) :
  touches_only paths w1 w2 → touches_only paths w2 w3 → touches_only paths w1 w3.
Proof. intros H12 H23 p Hp. rewrite (H23 p Hp). apply H12, Hp. Qed.

Lemma touches_only_emit (paths : list string) (ev : event) :
  preserves (touches_only paths) (emit ev).
Proof. intros w p _. reflexivity. Qed.

Lemma touches_only_steps (paths : list string) :
  steps (touches_only paths) (fun p => p ∈ paths).
Proof.
  split; [split |].
  - apply touches_only_refl.
  - apply touches_only_trans.
  - intros ev _. apply touches_only_emit.
  - intros p Hp w q Hq. simpl. apply lookup_insert_ne. congruence.
  - intros a b Ha Hb w q Hq. unfold rename. run_M.
    destruct (w_fs w !! a); simpl; [| reflexivity].
    rewrite lookup_insert_ne, lookup_delete_ne by congruence. reflexivity.
  - intros w p _. reflexivity.
Qed.

(** ** Start attempts *)

Lemma PopenContext_run {A} (cmd : list string) (body : Z → M A) (w : world) :
  PopenContext cmd body w =
  (emit (Popen cmd);; a ← ask;
   with_context (mret tt) (emit PopenExit) (body (a_pid a))) w.
Proof. reflexivity. Qed.

Lemma returns_with_context {A} (Q : A → Prop) (enter leave : M unit) (body : M A) :
  returns Q body → returns Q (with_context enter leave body).
Proof.
  intros Hb w a w'. unfold with_context.
  destruct (enter w) as [[[] | e] w1]; [| discriminate].
  specialize (Hb w1). destruct (body w1) as [r w2].
  destruct (leave w2) as [[[] | e] w3]; [| discriminate].
  intros [= -> _]. eapply Hb. reflexivity.
Qed.

Lemma returns_bind {A B} (Q : B → Prop) (c : M A) (k : A → M B) :
  (∀ a, returns Q (k a)) → returns Q (c ≫= k).
Proof.
  intros Hk w b w'. rewrite bind_run. destruct (c w) as [[a | e] w1]; [| discriminate].
  apply Hk.
Qed.

Lemma process_drc_out_returns (args : Args) (cfg : Config) :
  returns (fun r => same_session cfg r.2) (process_drc_out args cfg).
Proof.
  intros w [l c] w'. unfold process_drc_out, parse_drc, read_lines, int. run_M.
  destruct (w_fs w !! output_file cfg); simpl; [| discriminate].
  destruct (drc_errors _); simpl; [| discriminate].
  destruct (unconnected_pads _); simpl; [| discriminate].
  destruct (apply_filters _ _ _) as [[[skip_err skip_unc] errs'] wrns'].
  destruct (_ && _); simpl; [intros [= _ <- _]; repeat split |].
  rewrite log_all_run. simpl.
  destruct (ignore_unconnected args); simpl; [intros [= _ <- _]; repeat split |].
  rewrite log_all_run. simpl. intros [= _ <- _]. repeat split.
Qed.

(** A start attempt is a display around a process around the body of the
    attempt.  The body takes the steps of the work flows only; what it
    returns is a session on the same files, and, when it asks for another
    attempt, the session it was given with the new process. *)
Lemma start_attempt_shape (args : Args) (cfg : Config) (lvl : Z) (retry : nat) :
  ∃ body : Z → M loop_vars,
    start_attempt args cfg lvl retry =
      recorded_xvfb cfg retry
        (log DEBUG ("Starting " +:+ pcbnew cfg);;
         PopenContext [pcbnew cfg; input_file cfg] body) ∧
    (∀ R ok, steps R ok →
       ok (output_file cfg) → ok (input_file cfg) → ok (bak cfg) →
       ∀ pid, preserves R (body pid)) ∧
    (∀ pid, returns (fun vars => same_session cfg (lv_cfg vars) ∧
                       (lv_do_retry vars = true →
                        lv_cfg vars = set_pcbnew_pid cfg pid)) (body pid)).
Proof.
  eexists. split; [reflexivity |]. split.
  - intros R ok S Hout Hin Hbak pid. unfold poll.
    repeat step (st_quiet R ok S) ltac:(apply (st_ask R ok S))
      ltac:(idtac; lazymatch goal with
            | |- preserves _ (wait_pcbew_start _ _) => apply (wait_pcbew_start_steps R ok S)
            | |- preserves _ (print_layers _) =>
                apply (print_layers_steps R ok S); assumption
            | |- preserves _ (render_3d _) => apply (render_3d_steps R ok S); assumption
            | |- preserves _ (run_drc _) => apply (run_drc_steps R ok S); assumption
            | |- preserves _ (process_drc_out _ _) =>
                apply (process_drc_out_steps R ok (st_quiet R ok S))
            end).
  - intros pid w0 vars w1. rewrite bind_run.
    destruct (wait_pcbew_start _ _ w0) as [[[] | e] w2]; [| discriminate].
    rewrite bind_run. destruct (poll w2) as [[[code |] | e] w3]; try discriminate.
    + intros [= <- _]. split; [repeat split | reflexivity].
    + destruct (command args); rewrite bind_run.
      * destruct (print_layers _ w3) as [[[] | e] w4]; [| discriminate].
        intros [= <- _]. split; [repeat split | discriminate].
      * destruct (render_3d _ w3) as [[[] | e] w4]; [| discriminate].
        intros [= <- _]. split; [repeat split | discriminate].
      * destruct (run_drc _ w3) as [[[] | e] w4]; [| discriminate].
        rewrite bind_run.
        pose proof (process_drc_out_returns args (set_pcbnew_pid cfg pid) w4) as Hret.
        destruct (process_drc_out _ _ w4) as [[[l c] | e] w5]; [| discriminate].
        intros [= <- _]. split; [exact (Hret _ _ eq_refl) | discriminate].
Qed.

Lemma start_attempt_returns (args : Args) (cfg : Config) (lvl : Z) (retry : nat) :
  returns (fun vars => same_session cfg (lv_cfg vars)) (start_attempt args cfg lvl retry).
Proof.
  destruct (start_attempt_shape args cfg lvl retry) as (body & -> & _ & Hret).
  unfold recorded_xvfb. apply returns_with_context, returns_bind. intros _.
  intros w vars w'. rewrite PopenContext_run. revert w vars w'.
  apply returns_bind. intros _. apply returns_bind. intros a.
  apply returns_with_context. intros w vars w' Hrun. apply (Hret _ _ _ _ Hrun).
Qed.

Lemma not_session_grows (b : bool) (w w' : world) :
  grows (fun ev => is_session_event ev = false) b w w' →
  ∃ evs, w_trace w' = w_trace w ++ evs ∧ List.filter is_session_event evs = [].
Proof.
  intros [(evs & Htr & Hall) _]. exists evs. split; [exact Htr |].
  apply filter_none. exact Hall.
Qed.

(** A start attempt, whatever its outcome: one display and one process,
    the process ended before the display is stopped.  When the attempt asks
    for another one, the session goes on with the same program and the same
    design file. *)
Lemma start_attempt_sessions (args : Args) (cfg : Config) (lvl : Z) (retry : nat)
    (w : world) :
  (∃ evs, w_trace (start_attempt args cfg lvl retry w).2 = w_trace w ++ evs ∧
          List.filter is_session_event evs = attempt_events cfg retry) ∧
  (∀ vars, (start_attempt args cfg lvl retry w).1 = Ok vars →
           lv_do_retry vars = true →
           pcbnew (lv_cfg vars) = pcbnew cfg ∧ input_file (lv_cfg vars) = input_file cfg).
Proof.
  split.
  - destruct (start_attempt_shape args cfg lvl retry) as (body & -> & Hsteps & _).
    specialize (Hsteps _ _ (grows_steps (fun ev => is_session_event ev = false)
                              (fun _ H => H)) I I I).
    destruct w as [fs tr tk].
    unfold recorded_xvfb, PopenContext, with_context.
    cbv [log emit ask mbind M_bind mret M_ret]. cbn [w_fs w_trace w_tick].
    set (pid := a_pid (answers tk)).
    match goal with |- context [body pid ?w0] => set (w3 := w0) end.
    specialize (Hsteps pid w3).
    destruct (body pid w3) as [r w4]. simpl in Hsteps.
    apply not_session_grows in Hsteps as (evs & Htr & Hnone).
    exists ([XvfbStart retry; Log DEBUG ("Starting " +:+ pcbnew cfg);
             Popen [pcbnew cfg; input_file cfg]] ++ evs ++ [PopenExit; XvfbStop]).
    split.
    + simpl. rewrite Htr. unfold w3. simpl. rewrite <- !app_assoc. reflexivity.
    + simpl. rewrite List.filter_app, Hnone. reflexivity.
  - intros vars Hr _.
    pose proof (start_attempt_returns args cfg lvl retry w vars
                  (start_attempt args cfg lvl retry w).2) as Hret.
    destruct (start_attempt args cfg lvl retry w) as [r w']. simpl in *. subst r.
    destruct (Hret eq_refl) as (Hi & _ & Hp). auto.
Qed.

Lemma attempt_events_ext (cfg cfg' : Config) (retry : nat) :
  pcbnew cfg' = pcbnew cfg → input_file cfg' = input_file cfg →
  attempt_events cfg' retry = attempt_events cfg retry.
Proof. intros Hp Hi. unfold attempt_events. rewrite Hp, Hi. reflexivity. Qed.

Lemma retry_loop_sessions (args : Args) (retries : list nat) (vars : loop_vars)
    (w : world) :
  ∃ (n : nat) evs, (n ≤ length retries)%nat ∧
    w_trace (retry_loop args retries vars w).2 = w_trace w ++ evs ∧
    List.filter is_session_event evs =
      flat_map (attempt_events (lv_cfg vars)) (take n retries).
Proof.
  revert vars w. induction retries as [|retry rest IH]; intros vars w.
  - exists 0%nat, []. simpl. rewrite app_nil_r. auto.
  - simpl. rewrite bind_run.
    destruct (start_attempt_sessions args (lv_cfg vars) (lv_error_level vars) retry w)
      as [(evs1 & Htr1 & Hev1) Hcfg].
    destruct (start_attempt args (lv_cfg vars) (lv_error_level vars) retry w)
      as [[vars' | e] w1]; simpl in Htr1, Hcfg.
    + destruct (lv_do_retry vars') eqn:Hdo; simpl.
      * destruct (Hcfg vars' eq_refl Hdo) as [Hp Hi].
        rewrite bind_run. unfold log at 1, emit at 1.
        match goal with |- context [retry_loop args rest vars' ?w0] => set (w2 := w0) end.
        destruct (IH vars' w2) as (n & evs2 & Hn & Htr2 & Hev2).
        exists (S n), (evs1 ++ [Log WARNING "Pcbnew failed to start retrying ..."] ++ evs2).
        split; [simpl; lia |]. split.
        -- rewrite Htr2. unfold w2. simpl. rewrite Htr1, <- !app_assoc. reflexivity.
        -- rewrite !List.filter_app, Hev1, Hev2. simpl.
           rewrite (flat_map_ext (attempt_events (lv_cfg vars'))
                      (attempt_events (lv_cfg vars)))
             by (intros; apply attempt_events_ext; assumption).
           reflexivity.
      * exists 1%nat, evs1. split; [simpl; lia |]. split; [exact Htr1 |].
        rewrite Hev1. reflexivity.
    + exists 1%nat, evs1. split; [simpl; lia |]. split; [exact Htr1 |].
      rewrite Hev1. reflexivity.
Qed.

Lemma bind_sessions {A B} (c : M A) (k : A → M B) (w : world) (evs : list event) :
  w_trace (c w).2 = w_trace w ++ evs →
  (∀ a, preserves (grows (fun ev => is_session_event ev = false) false) (k a)) →
  ∃ more, new_events w ((c ≫= k) w).2 = evs ++ more ∧
          List.filter is_session_event more = [].
Proof.
  intros Hc Hk.
  pose proof (bind_after (grows (fun ev => is_session_event ev = false) false)
                c k w (grows_refl _ _) Hk) as Hafter.
  apply not_session_grows in Hafter as (more & Hmore & Hnone).
  exists more. split; [| exact Hnone].
  unfold new_events. rewrite Hmore, Hc, <- app_assoc, drop_app_length. reflexivity.
Qed.

(** X10.  The displays and processes of a session, whatever the outside
    world answers and however the session ends: [main] makes at most three
    start attempts, numbered from 0; each starts one display and in it one
    process for the design file; the process is ended and the display is
    stopped before the next attempt starts or the session goes on. *)
Theorem main_sessions (args : Args) (cfg : Config) (w : world) :
  ∃ n : nat, (n ≤ 3)%nat ∧
    List.filter is_session_event (new_events w (main args cfg w).2) =
      flat_map (attempt_events cfg) (seq 0 n).
Proof.
  pose proof (grows_quiet_steps (fun ev => is_session_event ev = false) false
                (fun _ H => H)) as Q.
  unfold main.
  match goal with
  | |- context [(_ ≫= ?k) w] =>
      assert (Hk : ∀ vars, preserves (grows (fun ev => is_session_event ev = false) false)
                             (k vars))
  end.
  { intros vars. unfold restore_config, restore_project, log.
    repeat step Q ltac:(fail)
      ltac:(idtac; lazymatch goal with
            | |- preserves _ (restore_pcb _) => apply restore_pcb_grows; reflexivity
            end). }
  destruct (bool_decide (command args = cmd_run_drc)
            && (KICAD_VERSION_5_99 <=? kicad_version cfg)).
  - exists 0%nat. split; [lia |].
    match goal with |- context [(?c ≫= _) w] => set (c1 := c) in * end.
    assert (Hc1 : grows (fun ev => is_session_event ev = false) false w (c1 w).2).
    { unfold c1.
      assert (Hpre : preserves (grows (fun ev => is_session_event ev = false) false)
                       (run_drc_python cfg ≫= fun _ =>
                        '(error_level, cfg) ← process_drc_out args cfg;
                        mret {| lv_error_level := error_level; lv_do_retry := false;
                                lv_cfg := cfg |})).
      { repeat step Q ltac:(fail)
          ltac:(idtac; lazymatch goal with
                | |- preserves _ (run_drc_python _) =>
                    apply (run_drc_python_steps _ _ Q); exact I
                | |- preserves _ (process_drc_out _ _) =>
                    apply (process_drc_out_steps _ _ Q)
                end). }
      apply Hpre. }
    apply not_session_grows in Hc1 as (evs & Hevs & Hnone).
    destruct (bind_sessions c1 _ w evs Hevs Hk) as (more & -> & Hmore).
    rewrite List.filter_app, Hnone, Hmore. reflexivity.
  - destruct (retry_loop_sessions args (seq 0 3)
                {| lv_error_level := 0; lv_do_retry := false; lv_cfg := cfg |} w)
      as (n & evs & Hn & Htr & Hev).
    exists n. split; [exact Hn |].
    destruct (bind_sessions _ _ w evs Htr Hk) as (more & -> & Hmore).
    rewrite List.filter_app, Hev, Hmore, app_nil_r. simpl lv_cfg.
    simpl in Hn. f_equal.
    destruct n as [|[|[|[|n]]]]; try reflexivity. lia.
Qed.
(** ** The end of a session *)

Lemma restored_fs_other (cfg : Config) (fs : gmap string file) (p : string) :
  p ≠ input_file cfg → p ≠ bak cfg → restored_fs cfg fs !! p = fs !! p.
Proof.
  intros Hpi Hpb. unfold restored_fs.
  destruct (fs !! input_file cfg) as [f |]; [| reflexivity].
  assert (Hdel : ∀ m : gmap string file,
             (if KICAD_VERSION_5_99 <=? kicad_version cfg
              then delete (bak cfg) m else m) !! p = m !! p)
    by (intros m; destruct (_ <=? _); rewrite ?lookup_delete_ne by congruence;
        reflexivity).
  rewrite Hdel. case_bool_decide; [reflexivity |].
  destruct (fs !! bak cfg) as [b |]; [| reflexivity].
  case_bool_decide; [| reflexivity].
  rewrite lookup_insert_ne, !lookup_delete_ne by congruence. reflexivity.
Qed.

(** The end of [main] once the start attempts are over: the clean-up, and
    the exit with the level of the run, or with [PCBNEW_ERROR] when another
    attempt was still asked for. *)
Lemma main_gui_end (args : Args) (cfg : Config) (w w1 : world) (vars : loop_vars) :
  gui_session args cfg →
  retry_loop args (seq 0 3)
    {| lv_error_level := 0; lv_do_retry := false; lv_cfg := cfg |} w = (Ok vars, w1) →
  save (lv_cfg vars) = true ∨ ¬ recorded (lv_cfg vars) ∨
    is_Some (w_fs w1 !! input_file (lv_cfg vars)) →
  ∃ w', main args cfg w =
          (Raise (SystemExit (if lv_do_retry vars then PCBNEW_ERROR
                              else lv_error_level vars)), w') ∧
        (∃ evs, w_trace w' = w_trace w1 ++ evs) ∧
        (∀ p, p ≠ input_file (lv_cfg vars) → p ≠ bak (lv_cfg vars) →
              w_fs w' !! p = w_fs w1 !! p).
Proof.
  intros Hgui Hloop Hfile.
  assert (Hbranch : bool_decide (command args = cmd_run_drc)
                    && (KICAD_VERSION_5_99 <=? kicad_version cfg) = false).
  { apply not_true_is_false. intros H. apply andb_prop in H as [Hc Hv].
    apply Hgui. split; [apply (bool_decide_eq_true_1 _ Hc) | apply Z.leb_le, Hv]. }
  unfold main. rewrite Hbranch, bind_run, Hloop. cbv beta iota zeta.
  set (cfg' := lv_cfg vars) in *.
  set (code := if lv_do_retry vars then PCBNEW_ERROR else lv_error_level vars).
  rewrite bind_run.
  assert (Hcode : ∃ logs,
            (if lv_do_retry vars
             then log ERROR "Pcbnew failed to start try with --time_out_scale";;
                  mret PCBNEW_ERROR
             else mret (lv_error_level vars)) w1 = (Ok code, after w1 logs 0)).
  { unfold code. destruct (lv_do_retry vars).
    - exists [Log ERROR "Pcbnew failed to start try with --time_out_scale"]. reflexivity.
    - exists []. unfold after. simpl. rewrite app_nil_r. destruct w1; reflexivity. }
  destruct Hcode as (logs & ->). rewrite bind_run.
  assert (Hrestore : ∃ w3,
            (if negb (save cfg')
             then emit (AtexitUnregister "restore_pcb");; restore_pcb cfg'
             else mret tt) (after w1 logs 0) = (Ok tt, w3) ∧
            (∃ evs, w_trace w3 = w_trace w1 ++ evs) ∧
            (∀ p, p ≠ input_file cfg' → p ≠ bak cfg' → w_fs w3 !! p = w_fs w1 !! p)).
  { destruct (save cfg') eqn:Hsave; simpl.
    - eexists. split; [reflexivity |]. simpl. eauto.
    - rewrite bind_run. unfold emit at 1.
      set (w2 := {| w_fs := _; w_trace := _; w_tick := _ |}).
      destruct (restore_pcb_grows (fun _ => True) cfg' (fun _ _ => I) w2)
        as [(evs & Hevs & _) _].
      assert (Hok : (restore_pcb cfg' w2).1 = Ok tt).
      { destruct Hfile as [? | [Hrec | [f Hf]]]; [discriminate | |].
        - rewrite restore_pcb_not_recorded by assumption. reflexivity.
        - destruct (recorded_dec cfg') as [Hrec | Hrec].
          + destruct (restore_pcb_run cfg' w2 f Hrec Hf) as (l & -> & _). reflexivity.
          + rewrite restore_pcb_not_recorded by assumption. reflexivity. }
      assert (Hfs : ∀ p, p ≠ input_file cfg' → p ≠ bak cfg' →
                         w_fs (restore_pcb cfg' w2).2 !! p = w_fs w1 !! p).
      { intros p Hpi Hpb. destruct (recorded_dec cfg') as [Hrec | Hrec].
        - rewrite (proj1 (restore_pcb_fs cfg' w2) Hrec).
          apply restored_fs_other; assumption.
        - rewrite (proj2 (restore_pcb_fs cfg' w2) Hrec). reflexivity. }
      destruct (restore_pcb cfg' w2) as [r w3]. simpl in *. subst r.
      exists w3. split; [reflexivity |]. split; [| exact Hfs].
      rewrite Hevs. rewrite <- !app_assoc. eauto. }
  destruct Hrestore as (w3 & -> & (evs & Hevs) & Hfs).
  unfold restore_config, restore_project. run_M.
  eexists. split; [reflexivity |]. simpl. split; [| exact Hfs].
  rewrite Hevs, <- !app_assoc. eauto.
Qed.

Lemma start_attempt_no_viewer (args : Args) (cfg : Config) (lvl : Z) (retry : nat)
    (w : world) (ids ids' : list string) (id0 : string) :
  command args = cmd_render_3d →
  a_wait (answers (1 + w_tick w)) = Found ids →
  a_poll (answers (2 + w_tick w)) = None →
  a_wait (answers (3 + w_tick w)) = Found (id0 :: ids') →
  a_wait (answers (4 + w_tick w)) = TimedOut →
  ∃ w1, start_attempt args cfg lvl retry w =
          (Ok {| lv_error_level := lvl; lv_do_retry := false;
                 lv_cfg := set_pcbnew_pid cfg (a_pid (answers (w_tick w))) |}, w1) ∧
        w_fs w1 = w_fs w ∧
        Log WARNING "Failed to open 3D Viewer" ∈ new_events w w1 ∧
        keys_sent (new_events w w1) =
          [ ["windowmove"; "--sync"; id0; "0"; "0"];
            ["windowsize"; "--sync"; id0; pretty (rec_width cfg); pretty (rec_height cfg)];
            ["windowfocus"; "--sync"; id0];
            ["key"; "alt+3"] ].
Proof.
  intros Hcmd H1 H2 H3 H4. destruct w as [fs tr tk]. simpl in *.
  unfold start_attempt, recorded_xvfb, PopenContext, with_context,
    wait_pcbew_start, render_3d, open_3d_view, try_except, new_events.
  unfold_primitives. rewrite Hcmd. run_M.
  rewrite H1. simpl. rewrite H2. simpl.
  destruct (KICAD_VERSION_5_99 <=? kicad_version cfg); simpl; rewrite H3; simpl;
    rewrite H4; simpl;
    (eexists; split; [reflexivity |]); simpl;
    rewrite <- ?app_assoc, drop_app_length; simpl;
    (split; [reflexivity |]); (split; [| reflexivity]);
    repeat first [apply list_elem_of_here | apply list_elem_of_further].
Qed.

(** X11.  A [render_3d] session in which the 3D viewer never shows up ends
    as a success.  The main window is found, the process runs, the keys that
    open the viewer are sent and the wait for the viewer times out (these are
    the answers to the second to fifth question of the session); then
    [main] logs a warning and exits with level 0 after its clean-up.  No
    image is awaited or written: apart from the design file and its back-up,
    which the clean-up may restore, every file is as before. *)
Theorem render_3d_without_viewer (args : Args) (cfg : Config) (w : world)
    (ids ids' : list string) (id0 : string) :
  command args = cmd_render_3d →
  a_wait (answers (1 + w_tick w)) = Found ids →
  a_poll (answers (2 + w_tick w)) = None →
  a_wait (answers (3 + w_tick w)) = Found (id0 :: ids') →
  a_wait (answers (4 + w_tick w)) = TimedOut →
  is_Some (w_fs w !! input_file cfg) →
  ∃ w', main args cfg w = (Raise (SystemExit 0), w') ∧
        Log WARNING "Failed to open 3D Viewer" ∈ new_events w w' ∧
        (∀ p, p ≠ input_file cfg → p ≠ bak cfg → w_fs w' !! p = w_fs w !! p).
Proof.
  intros Hcmd H1 H2 H3 H4 Hfile.
  destruct (start_attempt_no_viewer args cfg 0 0 w ids ids' id0 Hcmd H1 H2 H3 H4)
    as (w1 & Hrun & Hfs1 & Hwarn & _).
  assert (Hgui : gui_session args cfg) by (intros [Hc _]; congruence).
  destruct (main_gui_end args cfg w w1
              {| lv_error_level := 0; lv_do_retry := false;
                 lv_cfg := set_pcbnew_pid cfg (a_pid (answers (w_tick w))) |} Hgui)
    as (w' & Hmain & (evs & Hevs) & Hfs).
  - simpl. rewrite bind_run, Hrun. reflexivity.
  - right. right. simpl. rewrite Hfs1. exact Hfile.
  - exists w'. split; [exact Hmain |]. split.
    + unfold new_events in *. rewrite Hevs.
      destruct (start_attempt_sessions args cfg 0 0 w) as [(evs1 & Htr1 & _) _].
      rewrite Hrun in Htr1. simpl in Htr1. rewrite Htr1 in *.
      rewrite <- app_assoc, drop_app_length. rewrite drop_app_length in Hwarn.
      apply elem_of_app. left. exact Hwarn.
    + intros p Hpi Hpb. rewrite <- Hfs1. apply Hfs; assumption.
Qed.

(** ** The files a session touches *)

Lemma preserves_bind_returns {A B} (R : world → world → Prop) (Q : A → Prop)
    (c : M A) (k : A → M B) :
  (∀ w1 w2 w3, R w1 w2 → R w2 w3 → R w1 w3) →
  preserves R c → returns Q c → (∀ a, Q a → preserves R (k a)) →
  preserves R (c ≫= k).
Proof.
  intros Ht Hc Hq Hk w. rewrite bind_run. specialize (Hc w). specialize (Hq w).
  destruct (c w) as [[a | e] w1]; simpl in *; [| exact Hc].
  eapply Ht; [exact Hc | apply Hk; eapply Hq; reflexivity].
Qed.

Lemma same_session_paths (cfg cfg' : Config) :
  same_session cfg cfg' →
  input_file cfg' ∈ session_paths cfg ∧ bak cfg' ∈ session_paths cfg ∧
  output_file cfg' ∈ session_paths cfg.
Proof.
  intros (Hi & Ho & _). unfold session_paths, bak. rewrite Hi, Ho.
  repeat split; repeat first [apply list_elem_of_here | apply list_elem_of_further].
Qed.

Lemma restore_pcb_touches (cfg : Config) (paths : list string) :
  input_file cfg ∈ paths → bak cfg ∈ paths →
  preserves (touches_only paths) (restore_pcb cfg).
Proof.
  intros Hi Hb w p Hp.
  destruct (recorded_dec cfg) as [Hrec | Hrec].
  - rewrite (proj1 (restore_pcb_fs cfg w) Hrec).
    apply restored_fs_other; congruence.
  - rewrite (proj2 (restore_pcb_fs cfg w) Hrec). reflexivity.
Qed.

Lemma start_attempt_touches (args : Args) (cfg : Config) (lvl : Z) (retry : nat)
    (paths : list string) :
  output_file cfg ∈ paths → input_file cfg ∈ paths → bak cfg ∈ paths →
  preserves (touches_only paths) (start_attempt args cfg lvl retry).
Proof.
  intros Hout Hin Hbak.
  destruct (start_attempt_shape args cfg lvl retry) as (body & -> & Hsteps & _).
  specialize (Hsteps _ _ (touches_only_steps paths) Hout Hin Hbak).
  unfold recorded_xvfb.
  apply preserves_with_context;
    [apply touches_only_trans | apply touches_only_emit | apply touches_only_emit |].
  apply preserves_bind; [apply touches_only_trans | apply touches_only_emit |].
  intros _ w. rewrite PopenContext_run. revert w.
  apply preserves_bind; [apply touches_only_trans | apply touches_only_emit |].
  intros _.
  apply preserves_bind;
    [apply touches_only_trans | apply (st_ask _ _ (touches_only_steps paths)) |].
  intros a.
  apply preserves_with_context;
    [apply touches_only_trans | | apply touches_only_emit | apply Hsteps].
  apply preserves_ret, touches_only_refl.
Qed.

Lemma retry_loop_touches (args : Args) (cfg : Config) (retries : list nat)
    (vars : loop_vars) :
  same_session cfg (lv_cfg vars) →
  preserves (touches_only (session_paths cfg)) (retry_loop args retries vars) ∧
  returns (fun vars' => same_session cfg (lv_cfg vars')) (retry_loop args retries vars).
Proof.
  revert vars. induction retries as [|retry rest IH]; intros vars Hsame; simpl.
  - split; [apply preserves_ret, touches_only_refl |].
    intros w a w' [= <- _]. exact Hsame.
  - destruct (same_session_paths _ _ Hsame) as (Hi & Hb & Ho).
    assert (Hret : returns (fun vars' => same_session cfg (lv_cfg vars'))
                     (start_attempt args (lv_cfg vars) (lv_error_level vars) retry)).
    { intros w a w' Hrun.
      destruct (start_attempt_returns _ _ _ _ _ _ _ Hrun) as (Hi' & Ho' & Hp').
      destruct Hsame as (Hi0 & Ho0 & Hp0). repeat split; congruence. }
    split.
    + apply (preserves_bind_returns _ (fun vars' => same_session cfg (lv_cfg vars')));
        [apply touches_only_trans | apply start_attempt_touches; assumption
        | exact Hret |].
      intros vars' Hsame'. destruct (negb (lv_do_retry vars')).
      * apply preserves_ret, touches_only_refl.
      * apply preserves_bind; [apply touches_only_trans | apply touches_only_emit |].
        intros _. apply (IH vars' Hsame').
    + intros w a w'. rewrite bind_run.
      specialize (Hret w).
      destruct (start_attempt _ _ _ _ w) as [[vars' | e] w1]; [| discriminate].
      specialize (Hret _ _ eq_refl).
      destruct (negb (lv_do_retry vars')); [intros [= <- _]; exact Hret |].
      rewrite bind_run. unfold log at 1, emit at 1.
      apply (IH vars' Hret).
Qed.

(** X12.  Whatever the command, the answers of the outside world and the
    way the session ends, [main] creates, changes or removes no file other
    than the design file, its back-up and the output file. *)
Theorem main_touches_only (args : Args) (cfg : Config) (w : world) (p : string) :
  p ∉ session_paths cfg → w_fs (main args cfg w).2 !! p = w_fs w !! p.
Proof.
  revert w p. change (preserves (touches_only (session_paths cfg)) (main args cfg)).
  pose proof (touches_only_steps (session_paths cfg)) as S.
  pose proof (st_quiet _ _ S) as Q.
  assert (Hsame : same_session cfg cfg) by (repeat split).
  destruct (same_session_paths _ _ Hsame) as (Hi & Hb & Ho).
  unfold main.
  apply (preserves_bind_returns _ (fun vars => same_session cfg (lv_cfg vars)));
    [apply touches_only_trans | | |].
  - destruct (_ && _).
    + repeat step Q ltac:(fail)
        ltac:(idtac; lazymatch goal with
              | |- preserves _ (run_drc_python _) =>
                  apply (run_drc_python_steps _ _ Q); assumption
              | |- preserves _ (process_drc_out _ _) =>
                  apply (process_drc_out_steps _ _ Q)
              end).
    + apply retry_loop_touches. exact Hsame.
  - destruct (_ && _).
    + apply returns_bind. intros _ w a w'. rewrite bind_run.
      pose proof (process_drc_out_returns args cfg w) as Hret.
      destruct (process_drc_out args cfg w) as [[[l c] | e] w1]; [| discriminate].
      intros [= <- _]. exact (Hret _ _ eq_refl).
    + apply retry_loop_touches. exact Hsame.
  - intros vars Hvars. destruct (same_session_paths _ _ Hvars) as (Hi' & Hb' & Ho').
    unfold restore_config, restore_project, log.
    repeat step Q ltac:(fail)
      ltac:(idtac; lazymatch goal with
            | |- preserves _ (restore_pcb _) => apply restore_pcb_touches; assumption
            | |- preserves _ (emit _) => apply touches_only_emit
            end).
Qed.

(** ** Saving the board after the DRC *)

(** X13.  [run_drc] with [cfg.save] set, for a tool older than 5.99: the
    design file is renamed to its back-up before the tool is told to save.
    If the saved file does not show up in time, the run ends with the
    [RuntimeError] of the wait and without leaving the tool, and the design
    file is no longer at its path: its old content lies at the back-up
    path. *)
Theorem run_drc_save_time_out (cfg : Config) (w : world) (f : file) :
  kicad_version cfg < KICAD_VERSION_5_99 →
  save cfg = true →
  w_fs w !! input_file cfg = Some f →
  output_file cfg ≠ input_file cfg → output_file cfg ≠ bak cfg →
  (∀ n, (n < 4)%nat → ∃ ids, a_wait (answers (n + w_tick w)) = Found ids) →
  a_file_created (answers (4 + w_tick w)) = false →
  ∃ w', run_drc cfg w = (Raise RuntimeError, w') ∧
        w_fs w' !! input_file cfg = None ∧
        w_fs w' !! bak cfg = Some f ∧
        w_fs w' !! output_file cfg = Some (tool_output (output_file cfg)) ∧
        last (keys_sent (new_events w w')) = Some ["key"; "ctrl+s"].
Proof.
  intros Hver Hsave Hf Hout Hout' Hwin Hfile. pose proof (bak_ne cfg) as Hne.
  destruct (Hwin 0%nat ltac:(lia)) as (ids0 & H0).
  destruct (Hwin 1%nat ltac:(lia)) as (ids1 & H1).
  destruct (Hwin 2%nat ltac:(lia)) as (ids2 & H2).
  destruct (Hwin 3%nat ltac:(lia)) as (ids3 & H3).
  apply Z.leb_gt in Hver.
  destruct w as [fs tr tk]. simpl in *.
  unfold run_drc, run_drc_5_1, new_events, bak in *. rewrite Hver, Hsave.
  unfold_primitives. unfold_files. run_M.
  rewrite H0. simpl. rewrite H1. simpl. rewrite H2. simpl. rewrite H3. simpl.
  rewrite lookup_insert_ne by congruence. rewrite Hf.
  cbv beta iota zeta. cbn [w_fs w_trace w_tick]. rewrite Hfile.
  cbv beta iota zeta. cbn [w_fs w_trace w_tick fst snd].
  eexists. split; [reflexivity |]. cbn [w_fs w_trace w_tick fst snd].
  rewrite lookup_insert_ne by congruence. rewrite lookup_delete_eq.
  rewrite lookup_insert_eq.
  rewrite lookup_insert_ne, lookup_delete_ne, lookup_insert_eq by congruence.
  repeat split.
  rewrite <- ?app_assoc, drop_app_length. reflexivity.
Qed.

(** ** Listing the layers of a design file *)

Lemma load_layers_loop_length (lines : list string) (collect_layers : bool)
    (names names' : list string) (w w' : world) :
  load_layers_loop collect_layers names lines w = (Ok names', w') →
  length names' = length names ∧ w' = w.
Proof.
  revert collect_layers names.
  induction lines as [|line lines IH]; intros collect_layers names; simpl.
  - intros [= <- <-]. auto.
  - destruct collect_layers.
    + destruct (layer_match line) as [[id name] |].
      * destruct name as [|c name]; [discriminate |]. rewrite bind_run. simpl.
        destruct (_ <? _)%nat; [| discriminate].
        intros Hrun. apply IH in Hrun as [Hlen ->].
        rewrite length_insert in Hlen. auto.
      * destruct (re_layers_end line); [intros [= <- <-]; auto | apply IH].
    + destruct (re_layers_start line); apply IH.
Qed.

Lemma load_layers_loop_raises (lines : list string) (collect_layers : bool)
    (names : list string) (w w' : world) (e : exn) :
  load_layers_loop collect_layers names lines w = (Raise e, w') →
  e = IndexError ∧ w' = w.
Proof.
  revert collect_layers names.
  induction lines as [|line lines IH]; intros collect_layers names; simpl.
  - discriminate.
  - destruct collect_layers.
    + destruct (layer_match line) as [[id name] |].
      * destruct name as [|c name]; [intros [= <- <-]; auto |]. rewrite bind_run. simpl.
        destruct (_ <? _)%nat; [apply IH | intros [= <- <-]; auto].
      * destruct (re_layers_end line); [discriminate | apply IH].
    + destruct (re_layers_start line); apply IH.
Qed.

(** X14.  [load_layers] on a path where there is no file, or a file that
    holds text (what [open(pcb, "rt")] can decode; the files of the model
    are texts): it reads and changes nothing else, and it returns a list of
    exactly 50 names, whatever the text, or fails, with the [OSError] of
    [open] when the file is missing and with [IndexError] otherwise. *)
Theorem load_layers_fifty (pcb : string) (w : world) :
  (load_layers pcb w).2 = w ∧
  (∀ names, (load_layers pcb w).1 = Ok names → length names = 50%nat) ∧
  (∀ e, (load_layers pcb w).1 = Raise e →
        (e = OSError pcb ∧ w_fs w !! pcb = None) ∨
        (e = IndexError ∧ is_Some (w_fs w !! pcb))).
Proof.
  unfold load_layers. rewrite bind_run. unfold get_fs.
  destruct (w_fs w !! pcb) as [f |] eqn:Hf.
  - destruct (load_layers_loop false (replicate 50 "-") (file_lines (f_data f)) w)
      as [[names | e] w'] eqn:Hrun.
    + apply load_layers_loop_length in Hrun as [Hlen ->].
      split; [reflexivity |]. split; [| discriminate].
      intros ? [= <-]. rewrite Hlen. apply length_replicate.
    + apply load_layers_loop_raises in Hrun as [-> ->].
      split; [reflexivity |]. split; [discriminate |].
      intros ? [= <-]. right. eauto.
  - split; [reflexivity |]. split; [discriminate |].
    intros ? [= <-]. left. auto.
Qed.

Lemma load_layers_loop_no_start (lines : list string) (names : list string) (w : world) :
  Forall (fun line => re_layers_start line = false) lines →
  load_layers_loop false names lines w = (Ok names, w).
Proof.
  induction 1 as [|line lines Hline _ IH]; simpl; [reflexivity |].
  rewrite Hline. exact IH.
Qed.

Lemma print_layer_names_none (n : nat) (w : world) :
  print_layer_names (replicate n "-") w = (Ok tt, w).
Proof.
  induction n as [|n IH]; simpl; [reflexivity |].
  rewrite bind_run. simpl. exact IH.
Qed.

(** X15.  A design file in which no line has white space followed by
    ["(layers"] has no layer for [load_layers]: all 50 names are ["-"], and
    the option [--list] prints nothing and ends the program with status
    0. *)
Theorem load_layers_no_section (pcb : string) (w : world) (f : file) :
  w_fs w !! pcb = Some f →
  Forall (fun line => re_layers_start line = false) (file_lines (f_data f)) →
  load_layers pcb w = (Ok (replicate 50 "-"), w) ∧
  ListLayers [pcb] w = (Raise (SystemExit 0), w).
Proof.
  intros Hf Hnone.
  assert (Hload : load_layers pcb w = (Ok (replicate 50 "-"), w)).
  { unfold load_layers. rewrite bind_run. unfold get_fs. rewrite Hf.
    apply load_layers_loop_no_start, Hnone. }
  split; [exact Hload |].
  unfold ListLayers, item. simpl. rewrite bind_run. simpl.
  rewrite bind_run, Hload, bind_run, print_layer_names_none. reflexivity.
Qed.

(** The second group of the two patterns of a layer is not empty. *)
Lemma layer_match_name (line id name : string) :
  layer_match line = Some (id, name) → name ≠ EmptyString.
Proof.
  assert (Hne : ∀ ds : string, ds ≠ EmptyString → EmptyString +:+ ds ≠ EmptyString)
    by (intros ds H; rewrite append_empty_l; exact H).
  unfold layer_match.
  destruct (re_layer_user line) as [z |] eqn:Hu.
  - intros [= ->]. unfold re_layer_user in Hu.
    repeat match goal with
           | H : plus_then _ _ _ _ = Some _ |- _ =>
               apply plus_then_Some in H as (? & ? & ? & ? & ? & H)
           | H : (strip_prefix ?p ?s ≫= _) = Some _ |- _ =>
               destruct (strip_prefix p s) eqn:?;
                 [cbn [mbind option_bind] in H | discriminate H]
           end.
    injection Hu as _ <-. auto.
  - unfold re_layer_plain. intros Hp.
    repeat match goal with
           | H : plus_then _ _ _ _ = Some _ |- _ =>
               apply plus_then_Some in H as (? & ? & ? & ? & ? & H)
           | H : (strip_prefix ?p ?s ≫= _) = Some _ |- _ =>
               destruct (strip_prefix p s) eqn:?;
                 [cbn [mbind option_bind] in H | discriminate H]
           end.
    injection Hp as _ <-. auto.
Qed.

(** A round of the loop inside the layers section, on a line that does not
    end the section. *)
Lemma load_layers_loop_entry (line : string) (lines names : list string) (w : world) :
  (layer_match line = None → re_layers_end line = false) →
  load_layers_loop true names (line :: lines) w =
  match layer_entry line with
  | Some e =>
      if (e.1 <? length names)%nat
      then load_layers_loop true (<[e.1 := e.2]> names) lines w
      else (Raise IndexError, w)
  | None => load_layers_loop true names lines w
  end.
Proof.
  intros Hend. simpl. unfold layer_entry.
  destruct (layer_match line) as [[id name] |] eqn:Hm.
  - pose proof (layer_match_name _ _ _ Hm) as Hname.
    destruct name as [|c name]; [congruence |]. rewrite bind_run. simpl.
    destruct (_ <? _)%nat; reflexivity.
  - rewrite (Hend eq_refl). reflexivity.
Qed.

Lemma assign_layers_length (entries : list (nat * string)) (names : list string) :
  length (assign_layers names entries) = length names.
Proof.
  revert names. induction entries as [|e entries IH]; intros names; simpl;
    [reflexivity |].
  unfold assign_layers in *. simpl. rewrite IH. apply length_insert.
Qed.

Lemma load_layers_loop_section (body : list string) (close : string)
    (post names : list string) (w : world) :
  Forall (fun line => layer_match line = None → re_layers_end line = false) body →
  layer_match close = None → re_layers_end close = true →
  (Forall (fun e => (e.1 < length names)%nat) (omap layer_entry body) →
   load_layers_loop true names (body ++ close :: post) w =
     (Ok (assign_layers names (omap layer_entry body)), w)) ∧
  (∀ good e rest,
     omap layer_entry body = good ++ e :: rest →
     Forall (fun e => (e.1 < length names)%nat) good →
     (length names ≤ e.1)%nat →
     load_layers_loop true names (body ++ close :: post) w = (Raise IndexError, w)).
Proof.
  intros Hbody Hclose Hend. revert names.
  induction Hbody as [|line body Hline _ IH]; intros names.
  - split.
    + intros _. simpl. rewrite Hclose, Hend. reflexivity.
    + intros [|? good] e rest Habs; discriminate Habs.
  - rewrite <- app_comm_cons, (load_layers_loop_entry _ _ _ _ Hline).
    change (omap layer_entry (line :: body)) with
      (match layer_entry line with
       | Some e => e :: omap layer_entry body
       | None => omap layer_entry body
       end).
    destruct (layer_entry line) as [e0 |]; [| apply IH].
    split.
    + intros Hall. apply Forall_cons in Hall as [He0 Hall].
      apply Nat.ltb_lt in He0. rewrite He0.
      apply (proj1 (IH _)). rewrite length_insert. exact Hall.
    + intros [|e1 good] e rest Heq Hgood He.
      * injection Heq as <- _. apply Nat.ltb_ge in He. rewrite He. reflexivity.
      * injection Heq as <- Heq. apply Forall_cons in Hgood as [He0 Hgood].
        apply Nat.ltb_lt in He0. rewrite He0.
        apply (proj2 (IH _) good e rest Heq); rewrite length_insert; assumption.
Qed.

(** X16.  [load_layers] on a design file with a layers section: the lines
    before the first line with white space and ["(layers"] are skipped; from
    there on every line that matches one of the two patterns of a layer
    assigns its name (the user name when the line has one, and without the
    double quotes) at the index it gives, a later line for the same index
    replacing an earlier one; other lines are skipped; the first line that
    is only white space and a closing parenthesis ends the reading.  An
    index of 50 or more makes the call fail with [IndexError]. *)
Theorem load_layers_section (pcb : string) (w : world) (f : file)
    (pre body post : list string) (start close : string) :
  w_fs w !! pcb = Some f →
  file_lines (f_data f) = pre ++ start :: body ++ close :: post →
  Forall (fun line => re_layers_start line = false) pre →
  re_layers_start start = true →
  Forall (fun line => layer_match line = None → re_layers_end line = false) body →
  layer_match close = None → re_layers_end close = true →
  (Forall (fun e => (e.1 < 50)%nat) (omap layer_entry body) →
   load_layers pcb w =
     (Ok (assign_layers (replicate 50 "-") (omap layer_entry body)), w)) ∧
  (∀ good e rest,
     omap layer_entry body = good ++ e :: rest →
     Forall (fun e => (e.1 < 50)%nat) good → (50 ≤ e.1)%nat →
     load_layers pcb w = (Raise IndexError, w)).
Proof.
  intros Hf Hlines Hpre Hstart Hbody Hclose Hend.
  assert (Hskip : ∀ rest names,
            load_layers_loop false names (pre ++ start :: rest) w =
            load_layers_loop true names rest w).
  { intros rest names. clear Hlines.
    induction Hpre as [|line pre Hline _ IH]; simpl.
    - rewrite Hstart. reflexivity.
    - rewrite Hline. exact IH. }
  unfold load_layers. rewrite bind_run. unfold get_fs. rewrite Hf, Hlines, Hskip.
  destruct (load_layers_loop_section body close post (replicate 50 "-") w
              Hbody Hclose Hend) as [Hok Hfail].
  rewrite length_replicate in Hok, Hfail. split; [exact Hok | exact Hfail].
Qed.

(** ** The header lines of a report *)

Lemma at_end_cases (e : string) : at_end e = true → e = EmptyString ∨ e = nl.
Proof.
  destruct e as [|c e]; [auto |]. intros H. right.
  change (String.eqb (String c e) nl = true) in H. apply String.eqb_eq in H. exact H.
Qed.

(** X17.  The two header lines [parse_drc] knows, exactly: ["** Found "],
    one or more decimal digits, then either [" DRC errors **"] or
    [" DRC violations **"] for the errors and [" unconnected pads **"] for
    the unconnected pads, and nothing more (but for one final line feed,
    which a line of a report never has).  The count is the run of digits as
    it stands. *)
Theorem report_headers (line n : string) :
  (re_found_errors line = Some n ↔
   ∃ e, n ≠ EmptyString ∧ all_chars is_digit n = true ∧ at_end e = true ∧
        (line = "** Found " +:+ n +:+ " DRC errors **" +:+ e ∨
         line = "** Found " +:+ n +:+ " DRC violations **" +:+ e)) ∧
  (re_found_unconnected line = Some n ↔
   ∃ e, n ≠ EmptyString ∧ all_chars is_digit n = true ∧ at_end e = true ∧
        line = "** Found " +:+ n +:+ " unconnected pads **" +:+ e).
Proof.
  split; split.
  - unfold re_found_errors.
    destruct (strip_prefix "** Found " line) as [rest |] eqn:Hp; [| discriminate].
    apply strip_prefix_Some in Hp as ->. cbn [mbind option_bind].
    intros H. apply plus_then_Some in H as (ds & e1 & -> & Hne & Hds & Hk).
    rewrite append_empty_l in Hk.
    destruct (strip_prefix " DRC " e1) as [e2 |] eqn:H1; [| discriminate].
    apply strip_prefix_Some in H1 as ->. cbn [mbind option_bind] in Hk.
    destruct (strip_prefix "errors" e2) as [e3 |] eqn:H2.
    + apply strip_prefix_Some in H2 as ->. cbn [mbind option_bind] in Hk.
      destruct (strip_prefix " **" e3) as [e |] eqn:H3.
      * apply strip_prefix_Some in H3 as ->. cbn [mbind option_bind] in Hk.
        destruct (at_end e) eqn:He; [| discriminate].
        injection Hk as <-. exists e. repeat split; try assumption. left.
        reflexivity.
      * cbn [mbind option_bind] in Hk. discriminate.
    + cbn [mbind option_bind] in Hk.
      destruct (strip_prefix "violations" e2) as [e3 |] eqn:H3; [| discriminate].
      apply strip_prefix_Some in H3 as ->. cbn [mbind option_bind] in Hk.
      destruct (strip_prefix " **" e3) as [e |] eqn:H4; [| discriminate].
      apply strip_prefix_Some in H4 as ->. cbn [mbind option_bind] in Hk.
      destruct (at_end e) eqn:He; [| discriminate].
      injection Hk as <-. exists e. repeat split; try assumption. right.
      reflexivity.
  - intros (e & Hne & Hds & He & [-> | ->]); unfold re_found_errors;
      rewrite strip_prefix_app; cbn [mbind option_bind];
      (apply plus_then_longest;
       [assumption | assumption
       | intros c r H; rewrite append_cons in H; injection H as <- _; reflexivity |]);
      rewrite append_empty_l;
      apply at_end_cases in He as [-> | ->]; reflexivity.
  - unfold re_found_unconnected.
    destruct (strip_prefix "** Found " line) as [rest |] eqn:Hp; [| discriminate].
    apply strip_prefix_Some in Hp as ->. cbn [mbind option_bind].
    intros H. apply plus_then_Some in H as (ds & e1 & -> & Hne & Hds & Hk).
    rewrite append_empty_l in Hk.
    destruct (strip_prefix " unconnected pads **" e1) as [e |] eqn:H1; [| discriminate].
    apply strip_prefix_Some in H1 as ->. cbn [mbind option_bind] in Hk.
    destruct (at_end e) eqn:He; [| discriminate].
    injection Hk as <-. exists e. repeat split; try assumption.
  - intros (e & Hne & Hds & He & ->). unfold re_found_unconnected.
    rewrite strip_prefix_app. cbn [mbind option_bind].
    apply plus_then_longest;
      [assumption | assumption
      | intros c r H; rewrite append_cons in H; injection H as <- _; reflexivity |].
    rewrite append_empty_l.
    apply at_end_cases in He as [-> | ->]; reflexivity.
Qed.

End Script.

(** * The properties on sample sessions *)

Lemma sample_recorded (v : Z) : recorded (sample_cfg v).
Proof. repeat split; simpl; lia. Qed.

(** For a tool older than 5.99, a rewritten design file with an intact
    back-up is restored from it. *)
Lemma restore_pcb_cases_witness :
  recorded (sample_cfg version_5_1_9) ∧
  w_fs (world_of fs_modified) !! input_file (sample_cfg version_5_1_9) = Some modified_pcb ∧
  ∃ w', restore_pcb version_5_99 (sample_cfg version_5_1_9) (world_of fs_modified) = (Ok tt, w') ∧
        w_fs w' !! "board.kicad_pcb" = Some original_pcb ∧
        w_fs w' !! "board.kicad_pcb-bak" = None.
Proof.
  split; [repeat split; simpl; lia |]. split; [reflexivity |].
  destruct (restore_pcb_cases version_5_99 (sample_cfg version_5_1_9)
              (world_of fs_modified) modified_pcb)
    as (w' & Hrun & _ & Hrestore & _).
  - repeat split; simpl; lia.
  - reflexivity.
  - exists w'. split; [exact Hrun |].
    apply (Hrestore ltac:(discriminate) original_pcb); reflexivity.
Defined.

(** C1 as stated fails for a tool of version 6: with a rewritten design
    file and a back-up of another size, the back-up is removed. *)
Lemma restore_pcb_keeps_both_fails :
  ¬ restore_pcb_keeps_both version_5_99 (sample_cfg version_6_0_0) (world_of fs_bad_backup).
Proof.
  intros H.
  destruct (H modified_pcb (sample_recorded _) eq_refl) as (w' & Hrun & _ & _ & Hkeep).
  destruct Hkeep as (_ & _ & Hbak).
  - split; [discriminate |].
    intros b Hb. vm_compute in Hb. injection Hb as <-. discriminate.
  - vm_compute in Hrun. injection Hrun as <-. vm_compute in Hbak. discriminate.
Qed.

(** What the run of the previous lemma leaves behind. *)
Example restore_pcb_bad_backup_v6 :
  let w' := (restore_pcb version_5_99 (sample_cfg version_6_0_0) (world_of fs_bad_backup)).2 in
  w_fs w' !! "board.kicad_pcb" = Some modified_pcb ∧
  w_fs w' !! "board.kicad_pcb-bak" = None ∧
  w_trace w' = [Log DEBUG "Current pcb date: {} (!={}), trying to restore it";
                Log ERROR "Corrupted back-up file! (size = {})"].
Proof. vm_compute. auto. Qed.

(** The same files under a tool older than 5.99: nothing is removed. *)
Example restore_pcb_bad_backup_v5 :
  let w' := (restore_pcb version_5_99 (sample_cfg version_5_1_9) (world_of fs_bad_backup)).2 in
  w_fs w' !! "board.kicad_pcb" = Some modified_pcb ∧
  w_fs w' !! "board.kicad_pcb-bak" = Some truncated_pcb.
Proof. vm_compute. auto. Qed.

(** The design file still has its recorded date: a tool of version 6
    removes the back-up it made and nothing else. *)
Lemma restore_pcb_idempotent_witness :
  (∃ f, w_fs (world_of fs_unchanged) !! input_file (sample_cfg version_6_0_0) = Some f ∧
        f_mtime f = pcb_date (sample_cfg version_6_0_0)) ∧
  ∃ fs', restore_pcb version_5_99 (sample_cfg version_6_0_0) (world_of fs_unchanged) =
           (Ok tt, {| w_fs := fs'; w_trace := []; w_tick := 0 |}) ∧
         (fs' = fs_unchanged ∨ fs' = delete "board.kicad_pcb-bak" fs_unchanged).
Proof.
  assert (Hf : ∃ f, w_fs (world_of fs_unchanged) !! input_file (sample_cfg version_6_0_0) = Some f ∧
                    f_mtime f = pcb_date (sample_cfg version_6_0_0))
    by (exists original_pcb; split; reflexivity).
  split; [exact Hf |].
  exact (proj2 (restore_pcb_idempotent version_5_99 (sample_cfg version_6_0_0)
                  (world_of fs_unchanged)) (or_intror Hf)).
Defined.

(** ** The verdict of a DRC run *)

(** C2.  A report of KiCad 6 with one violation, no unconnected pad and one
    footprint error, read with a filter that hides the footprint error:
    [parse_drc] counts 1 error and 0 unconnected pads, the filter elides one
    record of the warnings, and [process_drc_out] returns level 0 although
    one error is left. *)
Theorem process_drc_out_cancels :
  let cfg := sample_cfg version_6_0_0 in
  let w := world_of (fs_with_report footprint_report) in
  let filters := apply_filters_model [footprint_rule] in
  ∃ cfg1 w1 errs' wrns' cfg2 w2,
    parse_drc version_5_99 cfg w = (Ok (1, 0, cfg1), w1) ∧
    filters cfg1 "DRC error/s" "unconnected pad/s" = (0, 1, errs', wrns') ∧
    process_drc_out version_5_99 filters errs wrns (sample_args cmd_run_drc) cfg w =
      (Ok (0, cfg2), w2) ∧
    1 - 0 ≠ 0.
Proof.
  vm_compute. do 6 eexists. repeat split; try reflexivity. discriminate.
Qed.

(** Without the filter the same report gives level -1. *)
Example process_drc_out_unfiltered :
  ∃ cfg' w',
    process_drc_out version_5_99 (apply_filters_model []) errs wrns
      (sample_args cmd_run_drc) (sample_cfg version_6_0_0)
      (world_of (fs_with_report footprint_report)) = (Ok (-1, cfg'), w').
Proof. vm_compute. do 2 eexists. reflexivity. Qed.

(** ** Starting the tool *)

(** C3 (amended).  In a session that drives the tool through its windows
    and whose design file is in place, if the process is gone whenever the
    script looks, [main] makes exactly three start attempts, each with a new
    display and a new process, and then exits with [PCBNEW_ERROR]; a session
    that meets a fatal error dialog exits with the same [PCBNEW_ERROR].  The
    script imports this constant from [kiauto.misc] and does not give its
    value; the code of the exit is not 0 as soon as the constant is not 0,
    which is what the specification says of the code of a start failure. *)
Theorem startup_failure_exit (KICAD_VERSION_5_99 PCBNEW_ERROR : Z)
    (apply_filters : Config → string → string → Z * Z * list string * list string)
    (list_errors list_warnings : Config → list string)
    (answers answers' : nat → answer) (tool_output : string → file)
    (args : Args) (cfg : Config) (w : world) (ids : list string) :
  PCBNEW_ERROR ≠ 0 →
  gui_session KICAD_VERSION_5_99 args cfg →
  is_Some (w_fs w !! input_file cfg) →
  (∀ n, a_wait (answers n) = ProcessGone ∧ is_Some (a_poll (answers n))) →
  a_wait (answers' (S (w_tick w))) = Unexpected TITLE_ERROR →
  a_wait (answers' (S (S (w_tick w)))) = Found ids →
  ∃ code, code ≠ 0 ∧ code = PCBNEW_ERROR ∧
    (∃ w', main KICAD_VERSION_5_99 PCBNEW_ERROR apply_filters list_errors list_warnings
             answers tool_output args cfg w = (Raise (SystemExit code), w') ∧
           List.filter is_start_event (new_events w w') =
             [ XvfbStart 0; Popen [pcbnew cfg; input_file cfg];
               XvfbStart 1; Popen [pcbnew cfg; input_file cfg];
               XvfbStart 2; Popen [pcbnew cfg; input_file cfg] ]) ∧
    (∃ w', main KICAD_VERSION_5_99 PCBNEW_ERROR apply_filters list_errors list_warnings
             answers' tool_output args cfg w = (Raise (SystemExit code), w')).
Proof.
  intros Hcode Hgui Hfile Hgone Hdialog Hdismiss.
  exists PCBNEW_ERROR. split; [exact Hcode |]. split; [reflexivity |]. split.
  - apply main_all_gone; assumption.
  - apply (main_error_dialog _ _ _ _ _ _ _ _ _ _ ids); assumption.
Qed.

Lemma sample_gui_session : gui_session version_5_99 (sample_args cmd_export) (sample_cfg version_5_1_9).
Proof. intros [H _]. discriminate. Qed.

Lemma startup_failure_exit_witness :
  gui_session version_5_99 (sample_args cmd_export) (sample_cfg version_5_1_9) ∧
  (∀ n, a_wait (answers_gone n) = ProcessGone ∧ is_Some (a_poll (answers_gone n))) ∧
  ∃ w', main version_5_99 sample_PCBNEW_ERROR (apply_filters_model []) errs wrns
          answers_gone sample_tool_output (sample_args cmd_export)
          (sample_cfg version_5_1_9) (world_of fs_unchanged) =
        (Raise (SystemExit 9), w').
Proof.
  split; [exact sample_gui_session |].
  split; [intros n; split; [reflexivity | eexists; reflexivity] |].
  destruct (startup_failure_exit version_5_99 sample_PCBNEW_ERROR
              (apply_filters_model []) errs wrns answers_gone answers_error_dialog
              sample_tool_output (sample_args cmd_export) (sample_cfg version_5_1_9)
              (world_of fs_unchanged) ["4194305"; "4194306"])
    as (code & _ & Hcode & (w' & Hrun & _) & _).
  - discriminate.
  - exact sample_gui_session.
  - eexists. reflexivity.
  - intros n; split; [reflexivity | eexists; reflexivity].
  - reflexivity.
  - reflexivity.
  - exists w'. rewrite Hcode in Hrun. exact Hrun.
Defined.

(** C3 as stated fails: the exit code after three failed starts and the
    exit code after a fatal error dialog are not distinct. *)
Lemma startup_failure_code_not_distinct :
  let exit_of answers :=
    (main version_5_99 sample_PCBNEW_ERROR (apply_filters_model []) errs wrns
       answers sample_tool_output (sample_args cmd_export)
       (sample_cfg version_5_1_9) (world_of fs_unchanged)).1 in
  ¬ (∀ code_start code_dialog,
       exit_of answers_gone = Raise (SystemExit code_start) →
       exit_of answers_error_dialog = Raise (SystemExit code_dialog) →
       code_start ≠ 0 ∧ code_start ≠ code_dialog).
Proof.
  intros exit_of H.
  destruct (H 9 9) as [_ Hne]; [vm_compute; reflexivity .. | congruence].
Qed.

(** ** Sleeps *)

(** C4 as stated fails: with a multiplier of 2, [dismiss_already_running]
    sleeps 5 seconds, as it does with a multiplier of 1. *)
Lemma sleeps_do_not_all_scale :
  ¬ sleeps_scale (fun _ : Config => dismiss_already_running answers_well).
Proof.
  intros H. specialize (H (sample_cfg version_5_1_9) (world_of ∅)).
  vm_compute in H. discriminate H.
Qed.

Example dismiss_already_running_sleeps_5 :
  sleeps (new_events (world_of ∅) (dismiss_already_running answers_well (world_of ∅)).2)
  = [seconds 5].
Proof. vm_compute. reflexivity. Qed.

(** With a multiplier of 2: [run_drc_6_0] sleeps 24 seconds, [print_layers]
    sleeps 1 second after filling the zones, and [_wait_for_pcbnew_idle]
    sleeps half a second before each of its four samples. *)
Example sleeps_with_multiplier_2 :
  let w := world_of ∅ in
  sleeps (new_events w (run_drc_6_0 answers_well sample_tool_output
                          (sample_cfg version_6_0_0) w).2) = [seconds 24] ∧
  sleeps (new_events w (print_layers version_5_99 answers_well sample_tool_output
                          sample_fill_cfg w).2) = [seconds 1] ∧
  sleeps (new_events w (_wait_for_pcbnew_idle answers_well 30 w).2) =
    [half_a_second; half_a_second; half_a_second; half_a_second].
Proof. vm_compute. auto. Qed.

Lemma sleep_durations_witness :
  Sleep (seconds 1 * seconds 2)%Qc ∈
    new_events (world_of ∅)
      (open_3d_view answers_well (sample_cfg version_5_1_9) (world_of ∅)).2 ∧
  (seconds 1 * seconds 2)%Qc = (seconds 1 * time_out_scale (sample_cfg version_5_1_9))%Qc.
Proof.
  pose proof (sleep_durations version_5_99 answers_well sample_tool_output
                (sample_cfg version_5_1_9) (world_of ∅) (seconds 1 * seconds 2)%Qc)
    as (Hd & Hin & _).
  split; [exact Hin | exact (Hd Hin)].
Defined.

(** ** Opening the print dialog *)

Lemma open_print_dialog_retries_once_witness :
  a_wait (answers_late_dialog 0) = TimedOut ∧
  a_wait (answers_late_dialog 1) = Found ["4194305"; "4194306"] ∧
  (open_print_dialog answers_late_dialog (sample_cfg version_5_1_9) ["alt+f"; "p"]
     (world_of ∅)).1 = Ok ["4194305"; "4194306"].
Proof.
  split; [reflexivity |]. split; [reflexivity |].
  destruct (open_print_dialog_retries_once answers_late_dialog
              (sample_cfg version_5_1_9) ["alt+f"; "p"] (world_of ∅))
    as (_ & Hretry).
  destruct (Hretry eq_refl) as (Hfound & _).
  rewrite (Hfound ["4194305"; "4194306"] eq_refl). reflexivity.
Defined.

(** The print dialog never shows up: the keys are sent twice, then the
    time-out ends the step. *)
Example open_print_dialog_gives_up :
  let r := open_print_dialog answers_no_dialog (sample_cfg version_5_1_9) ["alt+f"; "p"]
             (world_of ∅) in
  r.1 = Raise RuntimeError ∧
  List.filter (fun ev => match ev with Xdotool _ => true | _ => false end) (w_trace r.2)
  = [Xdotool ["key"; "alt+f"; "p"]; Xdotool ["key"; "alt+f"; "p"]].
Proof. vm_compute. auto. Qed.

(** C8 as stated fails in its last part: [exit_pcbnew] goes on silently
    after a time-out, sending its keys again, and is none of the listed
    bounded retries. *)
Lemma exit_pcbnew_goes_on_silently :
  ¬ only_bounded_silent_retries sample_PCBNEW_ERROR answers_stuck
      (sample_args cmd_export) (sample_cfg version_5_1_9) ["alt+f"; "p"].
Proof.
  intros H.
  destruct (H "exit_pcbnew" (exit_pcbnew answers_stuck (sample_cfg version_5_1_9))
              (world_of ∅)) as [Hname | Hname]; [| | discriminate | discriminate].
  - unfold time_out_handlers. apply list_elem_of_further, list_elem_of_here.
  - split; [eexists; vm_compute; reflexivity |].
    split; [| vm_compute; reflexivity].
    vm_compute. do 5 apply list_elem_of_further. apply list_elem_of_here.
Qed.

(** ** Parsing the report *)

Lemma parse_drc_continuation_line_witness :
  let cfg := sample_cfg version_6_0_0 in
  let pre := ["** Found 1 DRC violations **"; "[clearance]: Clearance violation"] in
  let post := ["** Found 0 unconnected pads **"; "** End of Report **"] in
  let line := "    Rule: netclass 'Default'" in
  let w := world_of (fs_with_report (pre ++ line :: post)) in
  parse_drc version_5_99 cfg w =
    (Ok (1, 0,
         set_wrns
           (set_errs cfg ["(clearance) Clearance violation" +:+ nl +:+ line]) []),
     w).
Proof.
  intros cfg pre post line w.
  destruct (parse_drc_continuation_line version_5_99 cfg w
              {| f_data := text_of (pre ++ line :: post); f_mtime := 300 |}
              pre post line after_one_record) as (Hmerge & _).
  - reflexivity.
  - vm_compute. reflexivity.
  - reflexivity.
  - repeat split; reflexivity.
  - destruct (Hmerge ltac:(reflexivity) eq_refl [] "(clearance) Clearance violation"
                eq_refl) as [_ Hrun].
    etransitivity; [exact Hrun | reflexivity].
Defined.

(** A line of 4 characters in the same place leaves the record as it is. *)
Example short_line_ignored :
  st_errs (parse_drc_loop (err_regex version_5_99 (sample_cfg version_6_0_0))
             (parse_drc_start (sample_cfg version_6_0_0))
             ["** Found 1 DRC violations **"; "[clearance]: Clearance violation";
              "    "; "** End of Report **"]) =
  ["(clearance) Clearance violation"].
Proof. reflexivity. Qed.

Lemma parse_drc_needs_headers_witness :
  let cfg := sample_cfg version_5_1_9 in
  let w := world_of (fs_with_report cut_report) in
  ¬ has_unconnected_header cut_report ∧
  parse_drc version_5_99 cfg w = (Raise TypeError, w).
Proof.
  intros cfg w.
  assert (Hmiss : ¬ has_unconnected_header cut_report).
  { intros (line & Hin & Hsome). unfold cut_report in Hin.
    apply list_elem_of_In in Hin. simpl in Hin.
    destruct Hin as [<- | [<- | []]]; vm_compute in Hsome;
      destruct Hsome as [? Hsome]; discriminate Hsome. }
  split; [exact Hmiss |].
  destruct (parse_drc_needs_headers version_5_99 cfg w
              {| f_data := text_of cut_report; f_mtime := 300 |} eq_refl)
    as (_ & Hfail).
  apply Hfail. right. exact Hmiss.
Defined.

(** On the whole report of the sample both counts are returned. *)
Example parse_drc_returns :
  ∃ cfg' w',
    parse_drc version_5_99 (sample_cfg version_6_0_0)
      (world_of (fs_with_report footprint_report)) = (Ok (1, 0, cfg'), w').
Proof. vm_compute. do 2 eexists. reflexivity. Qed.

(** ** Choosing the layers to print *)

Lemma mark_layers_inner_witness :
  mark_layers sample_WRONG_LAYER_NAME 4 sample_board ["Inner.2"; "F.Cu"] ∅ (world_of ∅) =
  mark_layers sample_WRONG_LAYER_NAME 4 sample_board ["F.Cu"] ({[2]} ∪ ∅) (world_of ∅).
Proof.
  destruct (mark_layers_inner sample_WRONG_LAYER_NAME 4 sample_board "Inner.2"
              ["F.Cu"] ∅ (world_of ∅)) as (Hinner & _).
  destruct (Hinner "2" EmptyString ltac:(discriminate) eq_refl eq_refl eq_refl)
    as (Haccept & _).
  apply Haccept. change (1 <= 2 <= 2). lia.
Defined.

(** ** A DRC run through the Python interface *)


(** The whole of such a session: no display, no process, level -1 for the
    one violation of the sample report. *)
Example run_drc_python_session :
  let r := main version_5_99 sample_PCBNEW_ERROR (apply_filters_model []) errs wrns
             answers_gone sample_tool_output (sample_args cmd_run_drc)
             (sample_cfg version_6_0_0) (world_of fs_unchanged) in
  r.1 = Raise (SystemExit (-1)) ∧
  List.filter is_start_event (w_trace r.2) = [] ∧
  w_fs r.2 !! "board.kicad_pcb-bak" = None ∧
  w_fs r.2 !! "board.kicad_pcb" = Some original_pcb.
Proof. vm_compute. auto. Qed.

(** ** Memorizing, then restoring *)

(** A session on an untouched design file: what [memorize_pcb] records makes
    [restore_pcb] leave the files as they were before the session, the
    back-up of a tool of version 6 being made and removed again. *)
Example memorize_then_restore :
  let fs := {[ "board.kicad_pcb" := original_pcb ]} in
  let session version :=
    (cfg ← memorize_pcb version_5_99 (sample_cfg version);
     restore_pcb version_5_99 cfg) (world_of fs) in
  (session version_6_0_0).1 = Ok tt ∧ w_fs (session version_6_0_0).2 = fs ∧
  (session version_5_1_9).1 = Ok tt ∧ w_fs (session version_5_1_9).2 = fs ∧
  w_fs (memorize_pcb version_5_99 (sample_cfg version_6_0_0) (world_of fs)).2
    !! "board.kicad_pcb-bak" = Some original_pcb.
Proof. vm_compute. auto. Qed.

(** * Further properties on sample sessions *)

(** A session of a tool of version 6 that rewrites the design file: the
    file is back afterwards and the back-up is gone. *)
Lemma memorize_restore_round_trip_witness :
  let cfg := sample_cfg version_6_0_0 in
  let w := world_of {[ "board.kicad_pcb" := original_pcb ]} in
  ∃ cfg' w1 w2,
    memorize_pcb version_5_99 cfg w = (Ok cfg', w1) ∧
    w_fs w1 !! bak cfg = Some original_pcb ∧
    restore_pcb version_5_99 cfg' (rewritten w1 (input_file cfg) modified_pcb) = (Ok tt, w2) ∧
    w_fs w2 = delete (bak cfg) (w_fs w).
Proof.
  intros cfg w.
  destruct (memorize_restore_round_trip version_5_99 cfg w original_pcb modified_pcb)
    as (cfg' & w1 & w2 & Hmem & Hbak & Hrun & Hback & _).
  - reflexivity.
  - vm_compute. discriminate.
  - reflexivity.
  - right. simpl. lia.
  - exists cfg', w1, w2. split; [exact Hmem |]. split; [exact Hbak |].
    split; [exact Hrun |]. apply Hback. simpl. lia.
Defined.

(** The sample report of KiCad 6: one line before the headers, two lines
    in the section of the errors, the footprint errors after the unconnected
    pads. *)
Lemma parse_drc_sections_witness :
  let cfg := sample_cfg version_6_0_0 in
  let w := world_of (fs_with_report footprint_report) in
  parse_drc version_5_99 cfg w =
    (Ok (1, 0,
         set_wrns
           (set_errs cfg
              ["(clearance) Clearance violation (netclass 'Default' clearance 0.2000 mm)"
               +:+ nl +:+ "    Rule: netclass 'Default'; Severity: error"])
           ["(lib_footprint_issues) Footprint not found in libraries"]), w).
Proof.
  intros cfg w.
  apply (parse_drc_sections version_5_99 cfg w
           {| f_data := text_of footprint_report; f_mtime := 300 |}
           ["** Drc report for board.kicad_pcb **"]
           ["[clearance]: Clearance violation (netclass 'Default' clearance 0.2000 mm)";
            "    Rule: netclass 'Default'; Severity: error"]
           ["** Found 1 Footprint errors **";
            "[lib_footprint_issues]: Footprint not found in libraries"]
           ["** End of Report **"]
           "** Found 1 DRC violations **" "** Found 0 unconnected pads **" "1" "0").
  - reflexivity.
  - vm_compute. reflexivity.
  - repeat constructor.
  - repeat constructor.
  - repeat constructor.
  - reflexivity.
  - reflexivity.
  - right. eexists _, _. split; reflexivity.
Defined.

(** A report with a line after its end marker, and the same report cut
    before the marker. *)
Lemma parse_drc_stops_at_end_witness :
  let cfg := sample_cfg version_5_1_9 in
  let w := world_of ∅ in
  let whole := {| f_data := text_of (short_report ++ ["** End of Report **"; "ErrType(9): late"]);
                  f_mtime := 300 |} in
  let cut := {| f_data := text_of short_report; f_mtime := 300 |} in
  (parse_drc version_5_99 cfg (rewritten w (output_file cfg) whole)).1 =
  (parse_drc version_5_99 cfg (rewritten w (output_file cfg) cut)).1.
Proof.
  intros cfg w whole cut.
  apply (parse_drc_stops_at_end version_5_99 cfg w whole cut short_report
           ["ErrType(9): late"] "** End of Report **").
  - vm_compute. reflexivity.
  - vm_compute. reflexivity.
  - reflexivity.
Defined.

(** With an idle processor the answer comes after four samples. *)
Lemma wait_for_pcbnew_idle_result_witness :
  let w := world_of ∅ in
  let w' := (_wait_for_pcbnew_idle answers_well 30 w).2 in
  ∃ k : nat, (4 ≤ k ≤ Z.to_nat (2 * 30))%nat ∧
    w_tick w' = (k + S (w_tick w))%nat ∧
    (∀ i : nat, (i < k)%nat → (k ≤ 4 + i)%nat → idle answers_well (i + S (w_tick w))) ∧
    sleeps (new_events w w') = replicate k half_a_second.
Proof.
  intros w w'.
  apply (wait_for_pcbnew_idle_result answers_well 30 w w' true).
  vm_compute. reflexivity.
Defined.

(** No process named [pcbnew]: the first sample fails. *)
Lemma wait_for_pcbnew_idle_no_process_witness :
  _wait_for_pcbnew_idle answers_gone 30 (world_of ∅) =
  (Raise AttributeError, after (world_of ∅) [Sleep half_a_second] 1).
Proof.
  apply (wait_for_pcbnew_idle_no_process answers_gone 30 (world_of ∅)).
  - reflexivity.
  - lia.
Defined.

(** A [render_3d] session without 3D viewer ends with level 0. *)
Lemma render_3d_without_viewer_witness :
  let args := sample_args cmd_render_3d in
  let cfg := sample_cfg version_5_1_9 in
  let w := world_of fs_unchanged in
  ∃ w', main version_5_99 sample_PCBNEW_ERROR (apply_filters_model []) errs wrns
          answers_no_viewer sample_tool_output args cfg w = (Raise (SystemExit 0), w') ∧
        Log WARNING "Failed to open 3D Viewer" ∈ new_events w w' ∧
        (∀ p, p ≠ input_file cfg → p ≠ bak cfg → w_fs w' !! p = w_fs w !! p).
Proof.
  intros args cfg w.
  apply (render_3d_without_viewer version_5_99 sample_PCBNEW_ERROR (apply_filters_model [])
           errs wrns answers_no_viewer sample_tool_output args cfg w
           ["4194305"; "4194306"] ["4194306"] "4194305").
  - reflexivity.
  - reflexivity.
  - reflexivity.
  - reflexivity.
  - reflexivity.
  - eexists. reflexivity.
Defined.

(** An export session leaves a file that is none of its own alone. *)
Lemma main_touches_only_witness :
  let args := sample_args cmd_export in
  let cfg := sample_fill_cfg in
  let w := world_of (<[ "notes.txt" := original_pcb ]> fs_unchanged) in
  w_fs (main version_5_99 sample_PCBNEW_ERROR (apply_filters_model []) errs wrns
          answers_well sample_tool_output args cfg w).2 !! "notes.txt" =
  Some original_pcb.
Proof.
  intros args cfg w.
  rewrite (main_touches_only version_5_99 sample_PCBNEW_ERROR (apply_filters_model [])
             errs wrns answers_well sample_tool_output args cfg w "notes.txt").
  - reflexivity.
  - unfold session_paths. rewrite !not_elem_of_cons.
    repeat split; try discriminate. apply not_elem_of_nil.
Defined.

(** The board is not saved in time: the design file is left at the path of
    its back-up. *)
Lemma run_drc_save_time_out_witness :
  let cfg := sample_save_cfg in
  let w := world_of fs_unchanged in
  ∃ w', run_drc version_5_99 answers_no_save sample_tool_output cfg w =
          (Raise RuntimeError, w') ∧
        w_fs w' !! input_file cfg = None ∧
        w_fs w' !! bak cfg = Some original_pcb ∧
        w_fs w' !! output_file cfg = Some (sample_tool_output (output_file cfg)) ∧
        last (keys_sent (new_events w w')) = Some ["key"; "ctrl+s"].
Proof.
  intros cfg w.
  apply (run_drc_save_time_out version_5_99 answers_no_save sample_tool_output cfg w
           original_pcb).
  - vm_compute. reflexivity.
  - reflexivity.
  - reflexivity.
  - discriminate.
  - discriminate.
  - intros n Hn. destruct n as [|[|[|[|n]]]]; [eexists; reflexivity .. | lia].
  - reflexivity.
Defined.

(** A file that is no design file has no layers to list. *)
Lemma load_layers_no_section_witness :
  load_layers "board.kicad_pcb" (world_of fs_unchanged) =
    (Ok (replicate 50 "-"), world_of fs_unchanged) ∧
  ListLayers ["board.kicad_pcb"] (world_of fs_unchanged) =
    (Raise (SystemExit 0), world_of fs_unchanged).
Proof.
  apply (load_layers_no_section "board.kicad_pcb" (world_of fs_unchanged) original_pcb).
  - reflexivity.
  - repeat constructor.
Defined.

(** The three layers of the sample design file; the line of the section
    that follows the layers is not read. *)
Lemma load_layers_section_witness :
  load_layers "layers.kicad_pcb" (world_of fs_with_layers) =
    (Ok (assign_layers (replicate 50 "-") [(0%nat, "F.Cu"); (31%nat, "B.Cu");
                                           (32%nat, "B.Adhesive")]),
     world_of fs_with_layers).
Proof.
  destruct (load_layers_section "layers.kicad_pcb" (world_of fs_with_layers)
              {| f_data := concat_lines sample_pcb_lines; f_mtime := 100 |}
              layers_before layers_body layers_after
              ("  (layers" +:+ nl) ("  )" +:+ nl)) as [Hok _].
  - reflexivity.
  - vm_compute. reflexivity.
  - repeat constructor.
  - reflexivity.
  - repeat constructor; intros H; vm_compute in H; discriminate H.
  - reflexivity.
  - reflexivity.
  - apply Hok. vm_compute. repeat constructor.
Defined.

(** The sample report without filters: one error is left, the level is
    not 0. *)
Lemma process_drc_out_verdict_witness :
  let cfg := sample_cfg version_6_0_0 in
  let w := world_of (fs_with_report footprint_report) in
  let args := sample_args cmd_run_drc in
  ∃ level w' cfg2,
    process_drc_out version_5_99 (apply_filters_model []) errs wrns args cfg w =
      (Ok (level, cfg2), w') ∧
    (level = 0 ↔ 1 - 0 = 0 ∧ (0 - 0 = 0 ∨ ignore_unconnected args = true)) ∧
    (level ≠ 0 → level = - ((1 - 0) + (if ignore_unconnected args then 0 else 0 - 0))).
Proof.
  intros cfg w args.
  set (r := parse_drc version_5_99 cfg w).
  apply (process_drc_out_verdict version_5_99 (apply_filters_model []) errs wrns args cfg
           (match r.1 with Ok (_, _, c) => c | Raise _ => cfg end) w r.2 1 0 0 0
           (errs (match r.1 with Ok (_, _, c) => c | Raise _ => cfg end))
           (wrns (match r.1 with Ok (_, _, c) => c | Raise _ => cfg end))).
  - vm_compute. reflexivity.
  - vm_compute. reflexivity.
  - lia.
  - lia.
Defined.

(** * The driver of the CI *)

Section driver_properties.
Import electronics_ci.

Lemma ci_bind_run {A B} (c : M A) (k : A -> M B) (s : state) :
  @mbind M M_bind A B k c s =
  match c s with
  | (Ok a, s') => k a s'
  | (Raise e, s') => (Raise e, s')
  end.
Proof. reflexivity. Qed.

Ltac ci_run :=
  repeat first
    [ rewrite ci_bind_run
    | progress cbv beta iota delta [print act lift raise mret M_ret]
    | progress cbn [s_calls s_log negb] ].

(** ** The dictionary of the projects *)

Lemma dict_get_set {V} (k k' : string) (v : V) (d : list (string * V)) :
  dict_get k (dict_set k' v d) = if String.eqb k' k then Some v else dict_get k d.
Proof.
  induction d as [| [k0 v0] d IH]; simpl.
  - reflexivity.
  - destruct (String.eqb_spec k0 k') as [-> | Hne]; simpl.
    + destruct (String.eqb k' k); reflexivity.
    + rewrite IH. destruct (String.eqb_spec k' k) as [-> | Hne'].
      * destruct (String.eqb_spec k0 k); [congruence | reflexivity].
      * reflexivity.
Qed.

Lemma dict_set_keys {V} (k : string) (v : V) (d : list (string * V)) :
  NoDup (map fst d) →
  NoDup (map fst (dict_set k v d)) ∧
  ∀ k', k' ∈ map fst (dict_set k v d) ↔ k' = k ∨ k' ∈ map fst d.
Proof.
  induction d as [| [k0 v0] d IH]; simpl; intros Hnd.
  - split; [repeat constructor; apply not_elem_of_nil |].
    intros k'. rewrite ?elem_of_cons, ?elem_of_nil. tauto.
  - apply NoDup_cons in Hnd as [Hk0 Hnd].
    destruct (String.eqb_spec k0 k) as [-> | Hne]; simpl.
    + split; [apply NoDup_cons; auto |]. intros k'. rewrite !elem_of_cons. tauto.
    + destruct (IH Hnd) as [IH1 IH2]. split.
      * apply NoDup_cons. split; [| exact IH1].
        rewrite IH2. intros [? | ?]; congruence.
      * intros k'. rewrite !elem_of_cons, IH2. tauto.
Qed.

Lemma dict_get_elem {V} (k : string) (v : V) (d : list (string * V)) :
  dict_get k d = Some v → (k, v) ∈ d.
Proof.
  induction d as [| [k0 v0] d IH]; simpl; [discriminate |].
  destruct (String.eqb_spec k0 k) as [-> | Hne]; intros H.
  - injection H as ->. apply elem_of_cons. left. reflexivity.
  - apply elem_of_cons. right. apply IH, H.
Qed.

Lemma projects_from_spec (configs : list string) (acc : list (string * project)) :
  NoDup (map fst acc) →
  NoDup (map fst (projects_from configs acc)) ∧
  ∀ name,
    dict_get name (projects_from configs acc) =
    match last (List.filter (fun p => String.eqb (p_name p) name)
                  (map project_of configs)) with
    | Some p => Some p
    | None => dict_get name acc
    end.
Proof.
  revert acc. induction configs as [| c configs IH]; intros acc Hnd.
  - split; [exact Hnd | reflexivity].
  - cbn [projects_from].
    destruct (dict_set_keys (project_name (path_name c)) (project_of c) acc Hnd)
      as [Hnd' _].
    destruct (IH _ Hnd') as [IH1 IH2]. split; [exact IH1 |].
    intros name. rewrite IH2, dict_get_set.
    cbn [map List.filter]. change (p_name (project_of c)) with (project_name (path_name c)).
    destruct (String.eqb (project_name (path_name c)) name).
    + destruct (List.filter _ (map project_of configs)) as [| p l].
      * reflexivity.
      * rewrite last_cons_cons.
        destruct (last (p :: l)) eqn:El; [reflexivity |].
        apply last_None in El. discriminate El.
    + reflexivity.
Qed.

(** ** [find_projects] *)

Lemma find_loop_run (configs : list string) (acc : list (string * project))
    (s : state) :
  ∃ log, find_loop configs acc s =
           (Ok (projects_from configs acc),
            {| s_calls := s_calls s; s_log := s_log s ++ log |}) ∧
         deeds log = [].
Proof.
  revert acc s. induction configs as [| c configs IH]; intros acc s.
  - exists []. rewrite app_nil_r. destruct s; split; reflexivity.
  - cbn [find_loop projects_from]. rewrite ci_bind_run.
    cbv beta iota delta [print act]. cbn [s_calls s_log].
    destruct (IH (dict_set (project_name (path_name c)) (project_of c) acc)
                {| s_calls := s_calls s;
                   s_log := s_log s ++
                     [Print (tab +:+ "Found '" +:+ project_name (path_name c) +:+ "'")] |})
      as (log & Hrun & Hlog).
    eexists (_ :: log). split.
    + rewrite Hrun. cbn [s_calls s_log]. rewrite <- app_assoc. reflexivity.
    + exact Hlog.
Qed.

Lemma find_projects_run (rglob : list string) (path : string) (s : state) :
  ∃ log, find_projects rglob path s =
           (Ok (projects_from rglob []),
            {| s_calls := s_calls s; s_log := s_log s ++ log |}) ∧
         deeds log = [].
Proof.
  unfold find_projects.
  destruct rglob as [| c rest].
  - cbn [length Nat.eqb]. ci_run.
    eexists [_; _; _]. rewrite <- !app_assoc. split; reflexivity.
  - change ((length (c :: rest) =? 0)%nat) with false. cbv iota.
    rewrite ci_bind_run. cbv beta iota delta [print act]. cbn [s_calls s_log].
    rewrite ci_bind_run.
    destruct (1 <? length (c :: rest))%nat.
    + cbv beta iota delta [print act]. cbn [s_calls s_log].
      destruct (find_loop_run (c :: rest) [] {| s_calls := s_calls s;
                  s_log := (s_log s ++ [Print "Scanning for projects..."]) ++
                    [Print (tab +:+ "Found " +:+ pretty (length (c :: rest)) +:+ " projects:")] |})
        as (log & Hrun & Hlog).
      rewrite Hrun. cbn [s_calls s_log].
      eexists (_ :: _ :: log). rewrite <- !app_assoc. split; [reflexivity | exact Hlog].
    + cbv beta iota delta [mret M_ret].
      destruct (find_loop_run (c :: rest) [] {| s_calls := s_calls s;
                  s_log := s_log s ++ [Print "Scanning for projects..."] |})
        as (log & Hrun & Hlog).
      rewrite Hrun. cbn [s_calls s_log].
      eexists (_ :: log). rewrite <- !app_assoc. split; [reflexivity | exact Hlog].
Qed.

(** ** Paths *)

Lemma all_chars_app (P : ascii -> bool) (s t : string) :
  all_chars P (s +:+ t) = all_chars P s && all_chars P t.
Proof.
  induction s as [| c s IH]; [reflexivity |].
  rewrite append_cons. simpl. rewrite IH. apply andb_assoc.
Qed.

Lemma split_from_no_slash (cur s : string) :
  no_slash s = true → split_from cur s = [cur +:+ s].
Proof.
  revert cur. induction s as [| c s IH]; intros cur Hs.
  - rewrite append_empty_r. reflexivity.
  - simpl in Hs. apply andb_prop in Hs as [Hc Hs].
    cbn [split_from]. apply negb_true_iff in Hc. rewrite Hc.
    rewrite (IH _ Hs), append_assoc. reflexivity.
Qed.

Lemma split_from_pieces (cur s : string) :
  no_slash cur = true → Forall (fun p => no_slash p = true) (split_from cur s).
Proof.
  revert cur. induction s as [| c s IH]; intros cur Hcur.
  - repeat constructor. exact Hcur.
  - cbn [split_from]. destruct (Ascii.eqb c slash) eqn:Hc.
    + constructor; [exact Hcur |]. apply IH. reflexivity.
    + apply IH. unfold no_slash. rewrite all_chars_app.
      fold (no_slash cur). rewrite Hcur. simpl. rewrite Hc. reflexivity.
Qed.

Lemma path_name_no_slash (path : string) : no_slash (path_name path) = true.
Proof.
  unfold path_name, split_slash.
  pose proof (split_from_pieces EmptyString path eq_refl) as Hall.
  induction Hall as [| p l Hp Hl IH]; [reflexivity |].
  destruct l as [| q l]; [exact Hp | exact IH].
Qed.

Lemma all_chars_substring (P : ascii -> bool) (n : nat) (s : string) :
  all_chars P s = true → all_chars P (String.substring 0 n s) = true.
Proof.
  revert n. induction s as [| c s IH]; intros n Hs.
  - destruct n; reflexivity.
  - simpl in Hs. apply andb_prop in Hs as [Hc Hs].
    destruct n as [| n]; [reflexivity |].
    simpl. rewrite Hc. apply IH, Hs.
Qed.

Lemma project_name_no_slash (cfg : string) :
  no_slash (project_name (path_name cfg)) = true.
Proof. apply all_chars_substring, path_name_no_slash. Qed.

(** The folder of a project of two characters or more. *)
Lemma path_join_long (name : string) :
  no_slash name = true → (2 ≤ String.length name)%nat →
  path_join ci_folder name = "ci/" +:+ name.
Proof.
  intros Hs Hlen. unfold path_join.
  destruct name as [| c rest]; [simpl in Hlen; lia |].
  pose proof Hs as Hc. simpl in Hc. apply andb_prop in Hc as [Hc _].
  apply negb_true_iff in Hc. rewrite Hc.
  unfold components at 2, split_slash. rewrite (split_from_no_slash _ _ Hs).
  rewrite append_empty_l. cbn [List.filter].
  replace (String.eqb (String c rest) ".") with false.
  - reflexivity.
  - symmetry. apply String.eqb_neq. intros E. rewrite E in Hlen. simpl in Hlen. lia.
Qed.

(** The folder of a project of one character or less has less than five
    characters. *)
Lemma path_join_short (name : string) :
  no_slash name = true → (String.length name ≤ 1)%nat →
  (String.length (path_join ci_folder name) <? 5)%nat = true.
Proof.
  intros Hs Hlen. destruct name as [| c rest]; [reflexivity |].
  destruct rest; [| simpl in Hlen; lia].
  destruct c as [[] [] [] [] [] [] [] []];
    first [discriminate Hs | reflexivity].
Qed.

(** ** [run_CI] *)

Ltac ci_case :=
  match goal with
  | |- context [match ?x with Done _ => _ | Failed _ => _ end] => destruct x eqn:?
  | |- context [match ?x with Some _ => _ | None => _ end] => destruct x eqn:?
  | |- context [if ?b then _ else _] =>
      lazymatch b with
      | Z.eqb _ _ => fail
      | _ => destruct b eqn:?
      end
  end.

Section Calls.

Variable answers : nat -> answer.

Lemma run_CI_rejects (p : project) (s : state) :
  (String.length (path_join ci_folder (p_name p)) <? 5)%nat = true →
  run_CI answers p s =
    (Ok false,
     {| s_calls := S (s_calls s);
        s_log := s_log s ++
          [Print (nl +:+ "==== Running CI for '" +:+ p_name p +:+ "' ====");
           Print ("Error: path " +:+ path_join ci_folder (p_name p) +:+
                  " may be invalid")] |}).
Proof.
  intros Hguard. unfold run_CI, next_answer. ci_run. rewrite Hguard. ci_run.
  rewrite <- app_assoc. reflexivity.
Qed.

Lemma run_CI_shape (p : project) (s : state) :
  ∃ log,
    (run_CI answers p s).2 =
      {| s_calls := S (s_calls s); s_log := s_log s ++ log |} ∧
    match (run_CI answers p s).1 with
    | Ok true =>
        commands log = [command_of p] ∧
        ∃ proc, a_run (answers (s_calls s)) = Done proc ∧ returncode proc = 0
    | Ok false => True
    | Raise e => ∃ name, e = Exception name
    end.
Proof.
  unfold run_CI, run_docker, next_answer. ci_run.
  repeat (ci_case; ci_run);
    (eexists; split; [rewrite <- ?app_assoc; reflexivity |]);
    cbn [fst]; eauto.
  all: match goal with
       | |- context [Z.eqb (returncode ?c) 0] =>
           destruct (Z.eqb_spec (returncode c) 0) as [Hcode | Hcode]; [| exact I]
       end.
  all: split; [reflexivity | eauto].
Qed.

Lemma run_CI_first_deed (p : project) (s : state) :
  (String.length (path_join ci_folder (p_name p)) <? 5)%nat = false →
  (a_exists (answers (s_calls s)) = Done true →
   a_is_dir (answers (s_calls s)) = Done true →
   ∃ rest, deeds (new_actions s (run_CI answers p s).2) =
           Rmtree (path_join ci_folder (p_name p)) :: rest) ∧
  (a_exists (answers (s_calls s)) = Done false →
   ∃ rest, deeds (new_actions s (run_CI answers p s).2) =
           Mkdir (path_join ci_folder (p_name p)) :: rest).
Proof.
  intros Hguard. split; [intros Hex Hdir | intros Hex];
    unfold run_CI, run_docker, next_answer; ci_run;
    rewrite Hguard, Hex; ci_run; rewrite ?Hdir; ci_run;
    repeat (ci_case; ci_run);
    unfold new_actions; cbn [snd s_log];
    rewrite <- ?app_assoc, drop_app_length; eexists; reflexivity.
Qed.

(** The loop over the projects: once a project has failed the answer is
    [False]; the answer [True] means that every project had its container
    and that every container returned 0. *)
Lemma run_all_spec (d : list (string * project)) (ok : bool) (s : state) :
  match (run_all answers d ok s).1 with
  | Ok b =>
      (ok = false → b = false) ∧
      (∀ k p, (k, p) ∈ d → no_slash (p_name p) = true →
              (String.length (p_name p) ≤ 1)%nat → b = false) ∧
      (b = true →
       ∃ log,
         (run_all answers d ok s).2 =
           {| s_calls := s_calls s + length d; s_log := s_log s ++ log |} ∧
         commands log = map (fun kp => command_of kp.2) d ∧
         ∀ i, (i < length d)%nat →
              ∃ proc, a_run (answers (s_calls s + i)) = Done proc ∧
                      returncode proc = 0)
  | Raise e => ∃ name, e = Exception name
  end.
Proof.
  revert ok s. induction d as [| [k p] rest IH]; intros ok s.
  - cbn [run_all mret M_ret fst snd length]. split; [auto |]. split.
    + intros k p Hin. apply elem_of_nil in Hin. destruct Hin.
    + intros _. exists []. split; [| split].
      * destruct s. cbn [s_calls s_log]. rewrite app_nil_r, Nat.add_0_r. reflexivity.
      * reflexivity.
      * intros i Hi. lia.
  - cbn [run_all]. rewrite ci_bind_run.
    destruct (run_CI_shape p s) as (log1 & Hs1 & Hres).
    pose proof (run_CI_rejects p s) as Hrej.
    destruct (run_CI answers p s) as [[[|] | e] s1]; cbn [fst snd] in Hs1, Hres;
      [| | cbn [fst]; exact Hres]; subst s1.
    + ci_run.
      specialize (IH ok {| s_calls := S (s_calls s);
                           s_log := (s_log s ++ log1) ++ [Print "__ OK __"] |}).
      destruct (run_all answers rest ok _) as [[b | e] s2]; cbn [fst snd] in IH |- *;
        [| exact IH].
      destruct IH as (IH1 & IH2 & IH3). destruct Hres as (Hcmd & proc & Hproc & Hcode).
      split; [exact IH1 |]. split.
      * intros k' p' Hin Hs Hlen. apply elem_of_cons in Hin as [Heq | Hin].
        -- injection Heq as -> ->.
           specialize (Hrej (path_join_short _ Hs Hlen)). discriminate Hrej.
        -- exact (IH2 k' p' Hin Hs Hlen).
      * intros Hb. destruct (IH3 Hb) as (log2 & Hs2 & Hcmd2 & Hruns).
        exists (log1 ++ [Print "__ OK __"] ++ log2). split; [| split].
        -- rewrite Hs2. cbn [s_calls s_log length].
           rewrite <- !app_assoc. f_equal. lia.
        -- unfold commands in *. rewrite !omap_app, Hcmd, Hcmd2. reflexivity.
        -- intros [| i] Hi.
           ++ rewrite Nat.add_0_r. eauto.
           ++ cbn [length] in Hi. destruct (Hruns i ltac:(lia)) as (proc' & Hp' & Hc').
              cbn [s_calls] in Hp'. replace (s_calls s + S i)%nat with (S (s_calls s) + i)%nat by lia.
              eauto.
    + ci_run.
      specialize (IH false {| s_calls := S (s_calls s);
                              s_log := (s_log s ++ log1) ++ [Print "__ FAIL __"] |}).
      destruct (run_all answers rest false _) as [[b | e] s2]; cbn [fst snd] in IH |- *;
        [| exact IH].
      destruct IH as (IH1 & _ & _). specialize (IH1 eq_refl). subst b.
      split; [reflexivity |]. split; [reflexivity | discriminate].
Qed.

Lemma deeds_commands (log : list action) : deeds log = [] → commands log = [].
Proof.
  induction log as [| a log IH]; [reflexivity |].
  destruct a; cbn [deeds List.filter is_print negb]; try discriminate.
  exact IH.
Qed.

Lemma projects_from_has (configs : list string) (cfg : string) :
  cfg ∈ configs →
  ∃ p, (project_name (path_name cfg), p) ∈ projects_from configs [] ∧
       p_name p = project_name (path_name cfg).
Proof.
  intros Hin.
  destruct (projects_from_spec configs [] (NoDup_nil_2 (A:=string))) as [_ Hget].
  specialize (Hget (project_name (path_name cfg))).
  assert (Hmem : In (project_of cfg)
            (List.filter (fun p => String.eqb (p_name p) (project_name (path_name cfg)))
               (map project_of configs))).
  { apply filter_In. split.
    - apply in_map, list_elem_of_In, Hin.
    - apply String.eqb_refl. }
  destruct (last _) as [p |] eqn:Hlast.
  - exists p. split; [apply dict_get_elem, Hget |].
    apply last_Some in Hlast as [l' Hl'].
    assert (Hp : In p (List.filter
                         (fun p => String.eqb (p_name p) (project_name (path_name cfg)))
                         (map project_of configs))).
    { rewrite Hl'. apply in_or_app. right. left. reflexivity. }
    apply filter_In in Hp as [_ Hp]. apply String.eqb_eq, Hp.
  - apply last_None in Hlast. rewrite Hlast in Hmem. destruct Hmem.
Qed.

(** X19.  [find_projects] keeps one project for each name: it always
    returns, does nothing but print, and the dictionary it returns has no
    name twice; the project kept for a name is the one of the last
    configuration file found with that name, so that of two projects with
    the same name in different folders only the last is built. *)
Theorem find_projects_last_wins (rglob : list string) (path : string) (s : state) :
  ∃ d s',
    find_projects rglob path s = (Ok d, s') ∧
    s_calls s' = s_calls s ∧ deeds (new_actions s s') = [] ∧
    NoDup (map fst d) ∧
    ∀ name,
      dict_get name d =
      last (List.filter (fun p => String.eqb (p_name p) name) (map project_of rglob)).
Proof.
  destruct (find_projects_run rglob path s) as (log & Hrun & Hlog).
  destruct (projects_from_spec rglob [] (NoDup_nil_2 (A:=string))) as [Hnd Hget].
  eexists _, _. split; [exact Hrun |].
  split; [reflexivity |]. split.
  - unfold new_actions. cbn [s_log]. rewrite drop_app_length. exact Hlog.
  - split; [exact Hnd |]. intros name. rewrite Hget.
    destruct (last _); reflexivity.
Qed.

(** X20.  The guard of [run_CI] against a wrong output folder, for a
    project name without a slash (the name of a file has none): a name of one
    character or less is refused, the call prints an error and returns
    [False] without touching anything; every name of two characters or more
    passes, two dots included: the output folder is then [ci/<name>], which
    is removed when it is a directory and created otherwise. *)
Theorem run_CI_guard (p : project) (s : state) :
  no_slash (p_name p) = true →
  let out_dir := path_join ci_folder (p_name p) in
  let r := run_CI answers p s in
  ((String.length (p_name p) ≤ 1)%nat →
   r.1 = Ok false ∧ s_calls r.2 = S (s_calls s) ∧
   new_actions s r.2 =
     [Print (nl +:+ "==== Running CI for '" +:+ p_name p +:+ "' ====");
      Print ("Error: path " +:+ out_dir +:+ " may be invalid")]) ∧
  ((2 ≤ String.length (p_name p))%nat →
   out_dir = "ci/" +:+ p_name p ∧
   (a_exists (answers (s_calls s)) = Done true →
    a_is_dir (answers (s_calls s)) = Done true →
    ∃ rest, deeds (new_actions s r.2) = Rmtree out_dir :: rest) ∧
   (a_exists (answers (s_calls s)) = Done false →
    ∃ rest, deeds (new_actions s r.2) = Mkdir out_dir :: rest)).
Proof.
  intros Hs out_dir r. split; intros Hlen.
  - subst r. rewrite (run_CI_rejects p s (path_join_short _ Hs Hlen)).
    cbn [fst snd s_calls]. split; [reflexivity |]. split; [reflexivity |].
    unfold new_actions. cbn [s_log]. rewrite drop_app_length. reflexivity.
  - assert (Hout : out_dir = "ci/" +:+ p_name p) by exact (path_join_long _ Hs Hlen).
    split; [exact Hout |].
    apply run_CI_first_deed. fold out_dir. rewrite Hout.
    apply Nat.ltb_ge. rewrite length_append. simpl. lia.
Qed.

(** X21.  A project whose name has one character or less makes the whole
    run fail: whatever the other projects and the answers of the outside
    world, the exit status of the script is 1. *)
Theorem script_short_name_fails (rglob : list string) (cfg : string) (s : state) :
  cfg ∈ rglob →
  (String.length (project_name (path_name cfg)) ≤ 1)%nat →
  status (script rglob answers s).1 = 1.
Proof.
  intros Hin Hlen. unfold script. rewrite ci_bind_run.
  destruct (find_projects_run rglob "." s) as (log & Hrun & _). rewrite Hrun.
  rewrite ci_bind_run.
  destruct (projects_from_has rglob cfg Hin) as (p & Hp & Hname).
  pose proof (run_all_spec (projects_from rglob []) true
                {| s_calls := s_calls s; s_log := s_log s ++ log |}) as Hall.
  destruct (run_all answers _ true _) as [[b | e] s2]; cbn [fst] in Hall.
  - destruct Hall as (_ & Hshort & _).
    assert (Hb : b = false).
    { apply (Hshort _ p Hp).
      - rewrite Hname. apply project_name_no_slash.
      - rewrite Hname. exact Hlen. }
    subst b. ci_run. reflexivity.
  - destruct Hall as [name ->]. reflexivity.
Qed.

(** X22.  The exit status 0 can be trusted: when the script ends with
    status 0, [run_CI] was called once for every project of the dictionary
    of [find_projects], every project had its container, in the order of
    the dictionary, and every container returned 0. *)
Theorem script_success_sound (rglob : list string) (s : state) :
  status (script rglob answers s).1 = 0 →
  ∃ d, (find_projects rglob "." s).1 = Ok d ∧
    let s' := (script rglob answers s).2 in
    s_calls s' = (s_calls s + length d)%nat ∧
    commands (new_actions s s') = map (fun kp => command_of kp.2) d ∧
    ∀ i, (i < length d)%nat →
      ∃ proc, a_run (answers (s_calls s + i)) = Done proc ∧ returncode proc = 0.
Proof.
  intros Hst. destruct (find_projects_run rglob "." s) as (log & Hrun & Hlog).
  exists (projects_from rglob []). split; [rewrite Hrun; reflexivity |].
  revert Hst. unfold script. rewrite ci_bind_run, Hrun, ci_bind_run.
  pose proof (run_all_spec (projects_from rglob []) true
                {| s_calls := s_calls s; s_log := s_log s ++ log |}) as Hall.
  destruct (run_all answers _ true _) as [[[|] | e] s2]; cbn [fst snd] in Hall.
  - destruct Hall as (_ & _ & Hruns).
    destruct (Hruns eq_refl) as (log2 & Hs2 & Hcmd & Hcodes). subst s2.
    ci_run. intros _. cbn [snd s_calls s_log] in *.
    split; [reflexivity |]. split; [| exact Hcodes].
    unfold new_actions. cbn [s_log]. rewrite <- app_assoc, drop_app_length.
    unfold commands in *. rewrite omap_app.
    fold (commands log). rewrite (deeds_commands log Hlog). exact Hcmd.
  - ci_run. cbn [fst status]. discriminate.
  - destruct Hall as [name ->]. cbn [fst status]. discriminate.
Qed.

End Calls.

(** ** Sample runs of the driver *)

(** A configuration file named [...kibot.yaml] gives a project named with
    two dots, whose output folder [ci/..] is the current directory: the guard
    lets it through and the folder is removed. *)
Lemma run_CI_guard_witness :
  let p := project_of "...kibot.yaml" in
  let r := run_CI (fun _ => all_is_well) p start in
  p_name p = ".." ∧
  path_join ci_folder (p_name p) = "ci/.." ∧
  ∃ rest, deeds (new_actions start r.2) = Rmtree "ci/.." :: rest.
Proof.
  intros p r.
  destruct (run_CI_guard (fun _ => all_is_well) p start eq_refl) as [_ Hlong].
  destruct Hlong as (Hout & Hdir & _); [vm_compute; lia |].
  split; [reflexivity |]. split; [exact Hout |].
  apply Hdir; reflexivity.
Defined.

(** A project named with one letter beside a project that works. *)
Lemma script_short_name_fails_witness :
  status (script ["amp/amp.kibot.yaml"; "a.kibot.yaml"] (fun _ => all_is_well) start).1 = 1.
Proof.
  apply (script_short_name_fails (fun _ => all_is_well)
           ["amp/amp.kibot.yaml"; "a.kibot.yaml"] "a.kibot.yaml" start).
  - apply elem_of_cons. right. apply elem_of_cons. left. reflexivity.
  - vm_compute. lia.
Defined.

(** Three configuration files, two of them with the same name: two
    containers, both content. *)
Lemma script_success_sound_witness :
  let rglob := ["board.kibot.yaml"; "amp/amp.kibot.yaml"; "old/board.kibot.yaml"] in
  let answers := fun _ : nat => all_is_well in
  ∃ d, (find_projects rglob "." start).1 = Ok d ∧
    let s' := (script rglob answers start).2 in
    s_calls s' = (s_calls start + length d)%nat ∧
    commands (new_actions start s') = map (fun kp => command_of kp.2) d ∧
    ∀ i, (i < length d)%nat →
      ∃ proc, a_run (answers (s_calls start + i)%nat) = Done proc ∧ returncode proc = 0.
Proof.
  intros rglob answers.
  apply (script_success_sound answers rglob start).
  vm_compute. reflexivity.
Defined.

End driver_properties.
